(** * Remote command receivers of donkeycar: a shallow embedding

    Source: [donkeycar/parts/remote_controller.py], classes
    [RemoteController] (TCP) and [RemoteControllerUDP].

    Python floats are IEEE-754 binary64 numbers: they are modelled by Rocq's
    primitive floats.  The values produced by [json.loads] are modelled by
    the inductive type [pyval]; [json.loads], [bytes.decode] and the
    string branch of the builtin [float] are library code and enter through
    the class [PyRuntime].  Sockets are handles into a table of open
    descriptors; what a socket call returns in a given loop iteration is an
    input of that iteration.

    [update] is first taken as a loop that runs alone.  The source runs it
    on a worker thread beside the caller of [shutdown] and [run_threaded],
    without a lock or a join: [TCPThreads] and [UDPThreads] follow the worker
    from one blocking call to the next, with [shutdown] running in
    between. *)

From Stdlib Require Import ZArith Floats List Bool Sorted.
From Stdlib.Strings Require Import Byte Ascii String.
From stdpp Require Import gmap strings.
Import ListNotations.

Set Warnings "-register-all,-clear-no-such-hyp".
Set Default Proof Using "Type".

(** The order of binary64 numbers, as [<=] computes it. *)
Definition float_le (x y : float) : Prop := (x <=? y)%float = true.

(** ** Python values and exceptions *)

Inductive pyval : Type :=
| PyNone
| PyBool (b : bool)
| PyInt (z : Z)
| PyFloat (f : float)
| PyStr (s : string)
| PyList (l : list pyval)
| PyDict (d : gmap string pyval).

(** The exception classes that the receivers can meet. *)
Inductive exn : Type :=
| socket_timeout
| ConnectionResetError
| BrokenPipeError
| OSError
| JSONDecodeError
| UnicodeDecodeError
| RecursionError
| AttributeError
| TypeError
| ValueError
| OverflowError.

(** The classes named in the [except] clauses of the source. *)
Inductive exn_class : Type :=
| cls_socket_timeout
| cls_JSONDecodeError
| cls_ConnectionResetError
| cls_BrokenPipeError
| cls_Exception.

(** [isinstance e c]: would [except c] catch [e]?  None of the four specific
    classes has a subclass among the exceptions above, and all of them derive
    from [Exception]. *)
Definition isinstance (e : exn) (c : exn_class) : bool :=
  match c, e with
  | cls_Exception, _ => true
  | cls_socket_timeout, socket_timeout => true
  | cls_JSONDecodeError, JSONDecodeError => true
  | cls_ConnectionResetError, ConnectionResetError => true
  | cls_BrokenPipeError, BrokenPipeError => true
  | _, _ => false
  end.

Inductive result (A : Type) : Type :=
| Ok (a : A)
| Raised (e : exn).
Arguments Ok {A} a.
Arguments Raised {A} e.

(** What decoding a payload can raise: [bytes.decode('utf-8')] raises
    [UnicodeDecodeError]; [json.loads] raises [JSONDecodeError], or
    [RecursionError] on too deeply nested input. *)
Inductive decode_error : Type :=
| BadUTF8
| BadJSON
| TooDeep.

Definition exn_of_decode_error (e : decode_error) : exn :=
  match e with
  | BadUTF8 => UnicodeDecodeError
  | BadJSON => JSONDecodeError
  | TooDeep => RecursionError
  end.

Definition bytes : Type := list byte.

(** The library functions the receivers call. *)
Class PyRuntime : Type := {
  (** [json.loads(data.decode('utf-8'))] *)
  json_loads : bytes -> decode_error + pyval;
  (** [float(s)] for a [str]; [None] stands for [ValueError] *)
  float_of_str : string -> option float
}.

(** [float(n)] for an [int]: the nearest binary64 number, ties to even;
    [OverflowError] when it is out of range. *)
Definition float_of_int (z : Z) : result float :=
  let f := SF2Prim (binary_normalize prec emax z 0 false) in
  if is_infinity f then Raised OverflowError else Ok f.

(** The builtin [float(v)]. *)
Definition py_float `{PyRuntime} (v : pyval) : result float :=
  match v with
  | PyFloat f => Ok f
  | PyInt z => float_of_int z
  | PyBool b => Ok (if b then 1%float else 0%float)
  | PyStr s =>
      match float_of_str s with
      | Some f => Ok f
      | None => Raised ValueError
      end
  | PyNone | PyList _ | PyDict _ => Raised TypeError
  end.

(** [cmd.get(key, default)]: only a [dict] has the method. *)
Definition py_get (cmd : pyval) (key : string) (default : pyval) : result pyval :=
  match cmd with
  | PyDict d =>
      match d !! key with
      | Some v => Ok v
      | None => Ok default
      end
  | _ => Raised AttributeError
  end.

(** The Command Parser: the conversions of lines 77-79 (and 144-146) in
    the order the source makes them, without the assignments.  The source
    assigns [self.steering] before it converts the throttle, hence the
    middle case. *)
Inductive parse_outcome : Type :=
| Rejected (e : exn)
| SteeringOnly (s : float) (e : exn)
| Accepted (s t : float).

Definition parse_command `{PyRuntime} (data : bytes) : parse_outcome :=
  match json_loads data with
  | inl de => Rejected (exn_of_decode_error de)
  | inr cmd =>
      match py_get cmd "steering" (PyFloat 0%float) with
      | Raised e => Rejected e
      | Ok sv =>
          match py_float sv with
          | Raised e => Rejected e
          | Ok s =>
              match py_get cmd "throttle" (PyFloat 0%float) with
              | Raised e => SteeringOnly s e
              | Ok tv =>
                  match py_float tv with
                  | Raised e => SteeringOnly s e
                  | Ok t => Accepted s t
                  end
              end
          end
      end
  end.

(** The exceptions the parser can raise. *)
Definition parse_exn (e : exn) : Prop :=
  e = UnicodeDecodeError \/ e = JSONDecodeError \/ e = RecursionError \/
  e = AttributeError \/ e = TypeError \/ e = ValueError \/ e = OverflowError.

(** ** Sockets, log and the state of one receiver *)

Definition handle : Type := nat.

Inductive level : Type := INFO | WARNING | ERROR.

(** What an iteration does to the world outside the object. *)
Inductive event : Type :=
| EvAccept
| EvRecv (h : handle)
| EvClose (h : handle)
| EvStamp (t : float)
| EvLog (l : level) (msg : string).

(** A receiver object [O] together with the descriptors that are open and
    the events so far (latest first). *)
Record machine (O : Type) : Type := Machine {
  self : O;
  open_socks : gset handle;
  trace : list event
}.
Arguments Machine {O} _ _ _.
Arguments self {O} _.
Arguments open_socks {O} _.
Arguments trace {O} _.

(** ** A state and exception monad for method bodies *)

Definition M (O A : Type) : Type := machine O -> result A * machine O.

Definition ret {O A} (a : A) : M O A := fun m => (Ok a, m).

Definition bind {O A B} (c : M O A) (k : A -> M O B) : M O B :=
  fun m =>
    match c m with
    | (Ok a, m') => k a m'
    | (Raised e, m') => (Raised e, m')
    end.

Definition raise {O A} (e : exn) : M O A := fun m => (Raised e, m).

Definition lift {O A} (r : result A) : M O A := fun m => (r, m).

(** [try: body except ...: handler] *)
Definition try_except {O A} (body : M O A) (handler : exn -> M O A) : M O A :=
  fun m =>
    match body m with
    | (Ok a, m') => (Ok a, m')
    | (Raised e, m') => handler e m'
    end.

Definition get_self {O} : M O O := fun m => (Ok (self m), m).

Definition modify_self {O} (f : O -> O) : M O unit :=
  fun m => (Ok tt, Machine (f (self m)) (open_socks m) (trace m)).

Definition emit {O} (ev : event) : M O unit :=
  fun m => (Ok tt, Machine (self m) (open_socks m) (ev :: trace m)).

Definition logger {O} (l : level) (msg : string) : M O unit := emit (EvLog l msg).

(** [sock.close()] *)
Definition sock_close {O} (h : handle) : M O unit :=
  fun m => (Ok tt, Machine (self m) (open_socks m ∖ {[h]}) (EvClose h :: trace m)).

(** [server.accept()]: the outcome [r] is this iteration's; a connection
    comes with a new open descriptor. *)
Definition sock_accept {O} (r : exn + handle) : M O handle :=
  fun m =>
    match r with
    | inl e => (Raised e, Machine (self m) (open_socks m) (EvAccept :: trace m))
    | inr c => (Ok c, Machine (self m) ({[c]} ∪ open_socks m) (EvAccept :: trace m))
    end.

(** [sock.recv(1024)] and [sock.recvfrom(1024)] *)
Definition sock_recv {O} (h : handle) (r : exn + bytes) : M O bytes :=
  fun m =>
    match r with
    | inl e => (Raised e, Machine (self m) (open_socks m) (EvRecv h :: trace m))
    | inr data => (Ok data, Machine (self m) (open_socks m) (EvRecv h :: trace m))
    end.

(** [time.time()] *)
Definition time_time {O} (clock : float) : M O float := ret clock.

Declare Scope py_scope.
Delimit Scope py_scope with py.
Notation "x <- c ;; k" := (bind c (fun x => k))
  (at level 100, c at next level, right associativity) : py_scope.
Notation "c ;;; k" := (bind c (fun _ => k))
  (at level 100, right associativity) : py_scope.
Open Scope py_scope.

Definition decode `{PyRuntime} {O} (data : bytes) : M O pyval :=
  match json_loads data with
  | inl e => raise (exn_of_decode_error e)
  | inr v => ret v
  end.

(** Outcome of running a [while self.running] loop on finitely many
    iterations' worth of inputs. *)
Inductive loop_result (O : Type) : Type :=
| LoopExited (m : machine O)
| LoopPending (m : machine O)
| LoopCrashed (e : exn) (m : machine O).
Arguments LoopExited {O} m.
Arguments LoopPending {O} m.
Arguments LoopCrashed {O} e m.

(** ** class RemoteController (TCP) *)

Module RemoteController.

Record obj : Type := Obj {
  host : string;
  port : Z;
  running : bool;
  steering : float;
  throttle : float;
  last_command_time : float;
  timeout : float;
  server_socket : handle;
  client_socket : option handle
}.

Definition set_running (b : bool) (o : obj) : obj :=
  Obj (host o) (port o) b (steering o) (throttle o) (last_command_time o)
      (timeout o) (server_socket o) (client_socket o).

Definition set_steering (v : float) (o : obj) : obj :=
  Obj (host o) (port o) (running o) v (throttle o) (last_command_time o)
      (timeout o) (server_socket o) (client_socket o).

Definition set_throttle (v : float) (o : obj) : obj :=
  Obj (host o) (port o) (running o) (steering o) v (last_command_time o)
      (timeout o) (server_socket o) (client_socket o).

Definition set_last_command_time (t : float) (o : obj) : obj :=
  Obj (host o) (port o) (running o) (steering o) (throttle o) t
      (timeout o) (server_socket o) (client_socket o).

Definition set_client_socket (c : option handle) (o : obj) : obj :=
  Obj (host o) (port o) (running o) (steering o) (throttle o)
      (last_command_time o) (timeout o) (server_socket o) c.

(** [self.last_command_time = time.time()]; the write is also recorded in
    the trace. *)
Definition stamp (clock : float) : M obj unit :=
  now <- time_time clock ;;
  modify_self (set_last_command_time now) ;;;
  emit (EvStamp now).

(** [__init__(host='0.0.0.0', port=5001)], when the listening socket [srv]
    could be created and bound; [clock] is what [time.time()] returns. *)
Definition init (host : string) (port : Z) (srv : handle) (clock : float)
  : machine obj :=
  Machine
    (Obj host port true 0%float 0%float clock 0.5%float srv None)
    {[srv]}
    [EvLog INFO "RemoteController listening"; EvStamp clock].

Definition default_host : string := "0.0.0.0".
Definition default_port : Z := 5001.

(** The inputs of one loop iteration: what [accept], [recv] and
    [time.time()] return if the iteration calls them. *)
Record io : Type := Io {
  accept_result : exn + handle;
  recv_result : exn + bytes;
  clock : float
}.

(** [self.client_socket.<method>]: [None] has no methods. *)
Definition the_client_socket : M obj handle :=
  o <- get_self ;;
  match client_socket o with
  | Some c => ret c
  | None => raise AttributeError
  end.

Section Update.
Context `{PyRuntime}.

(** Lines 54-63; [true] when the body goes on, [false] for [continue]. *)
Definition accept_if_needed (i : io) : M obj bool :=
  o <- get_self ;;
  match client_socket o with
  | None =>
      try_except
        (c <- sock_accept (accept_result i) ;;
         modify_self (set_client_socket (Some c)) ;;;
         logger INFO "Client connected" ;;;
         ret true)
        (fun e =>
           if isinstance e cls_socket_timeout then ret false
           else if isinstance e cls_Exception then
             logger ERROR "Accept error" ;;; ret false
           else raise e)
  | Some _ => ret true
  end.

(** Lines 66-93.  The [continue] of line 74 ends the [try] block; nothing
    follows the [try] statement in the loop body. *)
Definition receive (i : io) : M obj unit :=
  try_except
    (c <- the_client_socket ;;
     data <- sock_recv c (recv_result i) ;;
     match data with
     | [] =>
         logger INFO "Client disconnected" ;;;
         c <- the_client_socket ;;
         sock_close c ;;;
         modify_self (set_client_socket None) ;;;
         modify_self (set_steering 0%float) ;;;
         modify_self (set_throttle 0%float)
     | _ :: _ =>
         cmd <- decode data ;;
         sv <- lift (py_get cmd "steering" (PyFloat 0%float)) ;;
         s <- lift (py_float sv) ;;
         modify_self (set_steering s) ;;;
         tv <- lift (py_get cmd "throttle" (PyFloat 0%float)) ;;
         t <- lift (py_float tv) ;;
         modify_self (set_throttle t) ;;;
         stamp (clock i)
     end)
    (fun e =>
       if isinstance e cls_socket_timeout then ret tt
       else if isinstance e cls_JSONDecodeError then
         logger WARNING "Invalid JSON"
       else if isinstance e cls_ConnectionResetError
               || isinstance e cls_BrokenPipeError then
         logger INFO "Client disconnected" ;;;
         c <- the_client_socket ;;
         sock_close c ;;;
         modify_self (set_client_socket None) ;;;
         modify_self (set_steering 0%float) ;;;
         modify_self (set_throttle 0%float)
       else if isinstance e cls_Exception then
         logger ERROR "Receive error"
       else raise e).

(** The body of the [while] loop. *)
Definition iteration (i : io) : M obj unit :=
  go_on <- accept_if_needed i ;;
  if go_on : bool then receive i else ret tt.

(** [update()]: the loop, run on the inputs of finitely many iterations. *)
Fixpoint update (ios : list io) (m : machine obj) : loop_result obj :=
  if running (self m) then
    match ios with
    | [] => LoopPending m
    | i :: ios' =>
        match iteration i m with
        | (Ok _, m') => update ios' m'
        | (Raised e, m') => LoopCrashed e m'
        end
    end
  else LoopExited m.

End Update.

(** [run_threaded()]; [now] is what [time.time()] returns. *)
Definition run_threaded (now : float) (o : obj) : float * float :=
  if (timeout o <? now - last_command_time o)%float
  then (0%float, 0%float)
  else (steering o, throttle o).

Definition run (now : float) (o : obj) : float * float := run_threaded now o.

(** [shutdown()] *)
Definition shutdown : M obj unit :=
  logger INFO "RemoteController: shutting down" ;;;
  modify_self (set_running false) ;;;
  modify_self (set_steering 0%float) ;;;
  modify_self (set_throttle 0%float) ;;;
  o <- get_self ;;
  (match client_socket o with
   | Some c => sock_close c
   | None => ret tt
   end) ;;;
  sock_close (server_socket o).

End RemoteController.

(** ** class RemoteControllerUDP *)

Module RemoteControllerUDP.

Record obj : Type := Obj {
  host : string;
  port : Z;
  running : bool;
  steering : float;
  throttle : float;
  last_command_time : float;
  timeout : float;
  socket : handle
}.

Definition set_running (b : bool) (o : obj) : obj :=
  Obj (host o) (port o) b (steering o) (throttle o) (last_command_time o)
      (timeout o) (socket o).

Definition set_steering (v : float) (o : obj) : obj :=
  Obj (host o) (port o) (running o) v (throttle o) (last_command_time o)
      (timeout o) (socket o).

Definition set_throttle (v : float) (o : obj) : obj :=
  Obj (host o) (port o) (running o) (steering o) v (last_command_time o)
      (timeout o) (socket o).

Definition set_last_command_time (t : float) (o : obj) : obj :=
  Obj (host o) (port o) (running o) (steering o) (throttle o) t
      (timeout o) (socket o).

Definition stamp (clock : float) : M obj unit :=
  now <- time_time clock ;;
  modify_self (set_last_command_time now) ;;;
  emit (EvStamp now).

(** [__init__(host='0.0.0.0', port=5001)], when the socket [sk] could be
    created and bound. *)
Definition init (host : string) (port : Z) (sk : handle) (clock : float)
  : machine obj :=
  Machine
    (Obj host port true 0%float 0%float clock 0.5%float sk)
    {[sk]}
    [EvLog INFO "RemoteControllerUDP listening"; EvStamp clock].

Definition default_host : string := "0.0.0.0".
Definition default_port : Z := 5001.

(** The inputs of one loop iteration. *)
Record io : Type := Io {
  recvfrom_result : exn + bytes;
  clock : float
}.

Section Update.
Context `{PyRuntime}.

(** The body of the [while] loop, lines 142-154. *)
Definition iteration (i : io) : M obj unit :=
  try_except
    (o <- get_self ;;
     data <- sock_recv (socket o) (recvfrom_result i) ;;
     cmd <- decode data ;;
     sv <- lift (py_get cmd "steering" (PyFloat 0%float)) ;;
     s <- lift (py_float sv) ;;
     modify_self (set_steering s) ;;;
     tv <- lift (py_get cmd "throttle" (PyFloat 0%float)) ;;
     t <- lift (py_float tv) ;;
     modify_self (set_throttle t) ;;;
     stamp (clock i))
    (fun e =>
       if isinstance e cls_socket_timeout then ret tt
       else if isinstance e cls_JSONDecodeError then
         logger WARNING "Invalid JSON"
       else if isinstance e cls_Exception then
         logger ERROR "UDP receive error"
       else raise e).

Fixpoint update (ios : list io) (m : machine obj) : loop_result obj :=
  if running (self m) then
    match ios with
    | [] => LoopPending m
    | i :: ios' =>
        match iteration i m with
        | (Ok _, m') => update ios' m'
        | (Raised e, m') => LoopCrashed e m'
        end
    end
  else LoopExited m.

End Update.

Definition run_threaded (now : float) (o : obj) : float * float :=
  if (timeout o <? now - last_command_time o)%float
  then (0%float, 0%float)
  else (steering o, throttle o).

Definition run (now : float) (o : obj) : float * float := run_threaded now o.

Definition shutdown : M obj unit :=
  modify_self (set_running false) ;;;
  modify_self (set_steering 0%float) ;;;
  modify_self (set_throttle 0%float) ;;;
  o <- get_self ;;
  sock_close (socket o) ;;;
  logger INFO "RemoteControllerUDP shutdown".

End RemoteControllerUDP.

(** ** Reading traces and loop outcomes *)

Definition final {O} (r : loop_result O) : machine O :=
  match r with
  | LoopExited m | LoopPending m | LoopCrashed _ m => m
  end.

(** The timestamps written, latest first. *)
Fixpoint stamps (evs : list event) : list float :=
  match evs with
  | [] => []
  | EvStamp t :: evs' => t :: stamps evs'
  | _ :: evs' => stamps evs'
  end.

(** How many times [accept] was called. *)
Fixpoint accepts (evs : list event) : nat :=
  match evs with
  | [] => 0
  | EvAccept :: evs' => S (accepts evs')
  | _ :: evs' => accepts evs'
  end.

(** The descriptors closed, latest first. *)
Fixpoint closes (evs : list event) : list handle :=
  match evs with
  | [] => []
  | EvClose h :: evs' => h :: closes evs'
  | _ :: evs' => closes evs'
  end.

(** A JSON number, as [json.loads] returns it. *)
Definition is_number (v : pyval) : bool :=
  match v with
  | PyInt _ | PyFloat _ => true
  | _ => false
  end.

Definition number_or_absent (v : option pyval) : bool :=
  match v with
  | Some v => is_number v
  | None => true
  end.

(** A JSON object whose recognised fields, where present, are numbers. *)
Definition numeric_object (v : pyval) : bool :=
  match v with
  | PyDict d => number_or_absent (d !! "steering") && number_or_absent (d !! "throttle")
  | _ => false
  end.

(** A payload that is malformed or non-numeric: not the encoding of a JSON
    object of numeric fields. *)
Definition malformed `{PyRuntime} (data : bytes) : bool :=
  match json_loads data with
  | inl _ => true
  | inr v => negb (numeric_object v)
  end.

(** The value of a field of a JSON object as a float: the number it holds,
    [0.0] when the field is absent. *)
Definition field_value (d : gmap string pyval) (key : string) (f : float) : Prop :=
  match d !! key with
  | None => f = 0%float
  | Some (PyFloat x) => f = x
  | Some (PyInt z) => float_of_int z = Ok f
  | Some _ => False
  end.

(** The integer that a float is, when it is one. *)
Definition float_as_int (f : float) : option Z :=
  match Prim2SF f with
  | S754_zero _ => Some 0%Z
  | S754_finite s m e =>
      if (0 <=? e)%Z then Some (cond_Zopp s (Zpos m * 2 ^ e))
      else if (Zpos m mod 2 ^ (- e) =? 0)%Z
           then Some (cond_Zopp s (Zpos m / 2 ^ (- e)))
           else None
  | _ => None
  end.

(** A field that binary64 holds as it is: an absent one, a float, an
    integer of magnitude below 2^53. *)
Definition exact_number (v : option pyval) : bool :=
  match v with
  | None | Some (PyFloat _) => true
  | Some (PyInt z) => (Z.abs z <? 2 ^ 53)%Z
  | Some _ => false
  end.

(** [f] is the numeric value of the field [v], [0.0] for an absent one. *)
Definition numeric_value (v : option pyval) (f : float) : Prop :=
  match v with
  | None => f = 0%float
  | Some (PyFloat x) => f = x
  | Some (PyInt z) => float_as_int f = Some z
  | Some _ => False
  end.

(** ** What one iteration amounts to *)

Module TCPSummary.
Import RemoteController.

Definition log_of (e : exn) : list event :=
  if isinstance e cls_socket_timeout then []
  else if isinstance e cls_JSONDecodeError then [EvLog WARNING "Invalid JSON"]
  else [EvLog ERROR "Receive error"].

Definition is_disconnect (e : exn) : bool :=
  isinstance e cls_ConnectionResetError || isinstance e cls_BrokenPipeError.

(** The peer [c] is dropped and the command zeroed. *)
Definition disconnect (c : handle) (m : machine obj) : machine obj :=
  Machine
    (set_throttle 0%float (set_steering 0%float (set_client_socket None (self m))))
    (open_socks m ∖ {[c]})
    (EvClose c :: EvLog INFO "Client disconnected" :: trace m).

(** The machine just after [accept] returned the peer [c]. *)
Definition accepted (c : handle) (m : machine obj) : machine obj :=
  Machine (set_client_socket (Some c) (self m)) ({[c]} ∪ open_socks m)
          (EvLog INFO "Client connected" :: EvAccept :: trace m).

(** A read that tells that the peer is gone. *)
Definition peer_gone (r : exn + bytes) : Prop :=
  r = inr [] \/ r = inl ConnectionResetError \/ r = inl BrokenPipeError.

Definition handled (c : handle) (e : exn) (m : machine obj) : machine obj :=
  if isinstance e cls_socket_timeout then m
  else if isinstance e cls_JSONDecodeError then
    Machine (self m) (open_socks m) (log_of e ++ trace m)
  else if is_disconnect e then disconnect c m
  else Machine (self m) (open_socks m) (log_of e ++ trace m).

Section Summary.
Context `{PyRuntime}.

(** [receive] when the peer is [c]. *)
Definition receive_summary (c : handle) (i : io) (m : machine obj) : machine obj :=
  let m1 := Machine (self m) (open_socks m) (EvRecv c :: trace m) in
  match recv_result i with
  | inl e => handled c e m1
  | inr [] => disconnect c m1
  | inr data =>
      match parse_command data with
      | Rejected e => handled c e m1
      | SteeringOnly s e =>
          handled c e (Machine (set_steering s (self m)) (open_socks m) (trace m1))
      | Accepted s t =>
          Machine (set_last_command_time (clock i)
                     (set_throttle t (set_steering s (self m))))
                  (open_socks m) (EvStamp (clock i) :: trace m1)
      end
  end.

Definition accept_log (e : exn) : list event :=
  if isinstance e cls_socket_timeout then []
  else [EvLog ERROR "Accept error"].

Definition summary (i : io) (m : machine obj) : machine obj :=
  match client_socket (self m) with
  | Some c => receive_summary c i m
  | None =>
      match accept_result i with
      | inl e =>
          Machine (self m) (open_socks m) (accept_log e ++ EvAccept :: trace m)
      | inr c => receive_summary c i (accepted c m)
      end
  end.

(** The machine after the loop body ran on each of [ios] in turn. *)
Definition after (ios : list io) (m : machine obj) : machine obj :=
  fold_left (fun m i => summary i m) ios m.

(** The payload that the iteration reads, if it reads one. *)
Definition received (i : io) (m : machine obj) : option bytes :=
  match client_socket (self m), accept_result i, recv_result i with
  | Some _, _, inr (b :: data) => Some (b :: data)
  | None, inr _, inr (b :: data) => Some (b :: data)
  | _, _, _ => None
  end.

(** The command that the iteration parses with success, if it does. *)
Definition parsed (i : io) (m : machine obj) : option (float * float) :=
  match received i m with
  | Some data =>
      match parse_command data with
      | Accepted s t => Some (s, t)
      | _ => None
      end
  | None => None
  end.

End Summary.

(** The descriptors of connected peers, and the single-peer invariant. *)
Definition peers (m : machine obj) : gset handle :=
  open_socks m ∖ {[server_socket (self m)]}.

Definition single_peer (m : machine obj) : Prop :=
  match client_socket (self m) with
  | Some c => peers m ⊆ {[c]}
  | None => peers m = ∅
  end.

(** The sockets the object holds. *)
Definition held (o : obj) : gset handle :=
  match client_socket o with
  | Some c => {[server_socket o; c]}
  | None => {[server_socket o]}
  end.

(** What the constructor fixes. *)
Definition configuration (o : obj) : string * Z * float :=
  (host o, port o, timeout o).

End TCPSummary.

Module UDPSummary.
Import RemoteControllerUDP.

Definition log_of (e : exn) : list event :=
  if isinstance e cls_socket_timeout then []
  else if isinstance e cls_JSONDecodeError then [EvLog WARNING "Invalid JSON"]
  else [EvLog ERROR "UDP receive error"].

Section Summary.
Context `{PyRuntime}.

Definition summary (i : io) (m : machine obj) : machine obj :=
  let tr := EvRecv (socket (self m)) :: trace m in
  match recvfrom_result i with
  | inl e => Machine (self m) (open_socks m) (log_of e ++ tr)
  | inr data =>
      match parse_command data with
      | Rejected e => Machine (self m) (open_socks m) (log_of e ++ tr)
      | SteeringOnly s e =>
          Machine (set_steering s (self m)) (open_socks m) (log_of e ++ tr)
      | Accepted s t =>
          Machine (set_last_command_time (clock i)
                     (set_throttle t (set_steering s (self m))))
                  (open_socks m) (EvStamp (clock i) :: tr)
      end
  end.

(** The machine after the loop body ran on each of [ios] in turn. *)
Definition after (ios : list io) (m : machine obj) : machine obj :=
  fold_left (fun m i => summary i m) ios m.

(** The payload that the iteration reads, if it reads one. *)
Definition received (i : io) : option bytes :=
  match recvfrom_result i with
  | inr data => Some data
  | inl _ => None
  end.

(** The command that the iteration parses with success, if it does. *)
Definition parsed (i : io) : option (float * float) :=
  match received i with
  | Some data =>
      match parse_command data with
      | Accepted s t => Some (s, t)
      | _ => None
      end
  | None => None
  end.

End Summary.

(** The socket the object holds. *)
Definition held (o : obj) : gset handle := {[socket o]}.

(** What the constructor fixes. *)
Definition configuration (o : obj) : string * Z * float :=
  (host o, port o, timeout o).

End UDPSummary.

(** * The worker thread and the caller

    [update] runs on a worker thread while the caller invokes [shutdown]
    and [run_threaded]; the source takes no lock and joins no thread.  The
    worker is followed here through the points where a blocking call of
    the loop body has returned and its result is not yet stored or handled:
    the caller may run between the return of [accept], [recv] or
    [recvfrom] and the statements that follow it. *)

Module UDPThreads.
Import RemoteControllerUDP.

(** Where the worker is: at the test of [while self.running]; after
    [recvfrom] has returned [r] (line 143), before line 144; out of the
    loop; stopped by an exception that no clause caught. *)
Inductive worker : Type :=
| AtCheck
| Reading (r : exn + bytes)
| Exited
| Crashed (e : exn).

Record system : Type := System { mach : machine obj; work : worker }.

(** The worker advances to its next point, or the caller calls
    [shutdown]. *)
Inductive action : Type :=
| Work (i : io)
| Shutdown.

(** The worker is out of the loop. *)
Definition finished (w : worker) : bool :=
  match w with
  | Exited | Crashed _ => true
  | _ => false
  end.

Section Steps.
Context `{PyRuntime}.

(** The [except] clauses of lines 149-154. *)
Definition handlers (e : exn) : M obj unit :=
  if isinstance e cls_socket_timeout then ret tt
  else if isinstance e cls_JSONDecodeError then
    logger WARNING "Invalid JSON"
  else if isinstance e cls_Exception then
    logger ERROR "UDP receive error"
  else raise e.

(** The [try] statement from the point where [recvfrom] has returned [r]. *)
Definition handle_read (r : exn + bytes) (clock : float) : M obj unit :=
  try_except
    (data <- lift (match r with inl e => Raised e | inr data => Ok data end) ;;
     cmd <- decode data ;;
     sv <- lift (py_get cmd "steering" (PyFloat 0%float)) ;;
     s <- lift (py_float sv) ;;
     modify_self (set_steering s) ;;;
     tv <- lift (py_get cmd "throttle" (PyFloat 0%float)) ;;
     t <- lift (py_float tv) ;;
     modify_self (set_throttle t) ;;;
     stamp clock)
    handlers.

Definition step (a : action) (S : system) : system :=
  match a with
  | Shutdown => System (snd (shutdown (mach S))) (work S)
  | Work i =>
      match work S with
      | AtCheck =>
          if running (self (mach S)) then
            System (snd (sock_recv (socket (self (mach S)))
                           (recvfrom_result i) (mach S)))
                   (Reading (recvfrom_result i))
          else System (mach S) Exited
      | Reading r =>
          match handle_read r (clock i) (mach S) with
          | (Ok _, m) => System m AtCheck
          | (Raised e, m) => System m (Crashed e)
          end
      | Exited | Crashed _ => S
      end
  end.

Definition run (acts : list action) (S : system) : system :=
  fold_left (fun S a => step a S) acts S.

(** The read in flight, if any, stores nothing: it raised, or its payload
    is rejected before [self.steering] is assigned. *)
Definition settled (w : worker) : bool :=
  match w with
  | Reading (inr data) =>
      match parse_command data with
      | Rejected _ => true
      | _ => false
      end
  | _ => true
  end.

End Steps.
End UDPThreads.

Module TCPThreads.
Import RemoteController.

(** Where the worker is: at the test of [while self.running]; after
    [accept] has returned [a] (line 56), before the assignment of its
    result; after [recv] has returned [r] (line 67), before line 68; out of
    the loop; stopped by an exception that no clause caught. *)
Inductive worker : Type :=
| AtCheck
| Accepting (a : exn + handle)
| Reading (r : exn + bytes)
| Exited
| Crashed (e : exn).

Record system : Type := System { mach : machine obj; work : worker }.

Inductive action : Type :=
| Work (i : io)
| Shutdown.

(** The worker is out of the loop. *)
Definition finished (w : worker) : bool :=
  match w with
  | Exited | Crashed _ => true
  | _ => false
  end.

Section Steps.
Context `{PyRuntime}.

(** Lines 55-63 from the point where [accept] has returned [a]. *)
Definition finish_accept (a : exn + handle) : M obj bool :=
  try_except
    (c <- lift (match a with inl e => Raised e | inr c => Ok c end) ;;
     modify_self (set_client_socket (Some c)) ;;;
     logger INFO "Client connected" ;;;
     ret true)
    (fun e =>
       if isinstance e cls_socket_timeout then ret false
       else if isinstance e cls_Exception then
         logger ERROR "Accept error" ;;; ret false
       else raise e).

(** The [except] clauses of lines 82-93. *)
Definition handlers (e : exn) : M obj unit :=
  if isinstance e cls_socket_timeout then ret tt
  else if isinstance e cls_JSONDecodeError then
    logger WARNING "Invalid JSON"
  else if isinstance e cls_ConnectionResetError
          || isinstance e cls_BrokenPipeError then
    logger INFO "Client disconnected" ;;;
    c <- the_client_socket ;;
    sock_close c ;;;
    modify_self (set_client_socket None) ;;;
    modify_self (set_steering 0%float) ;;;
    modify_self (set_throttle 0%float)
  else if isinstance e cls_Exception then
    logger ERROR "Receive error"
  else raise e.

(** The [try] statement of lines 66-93 from the point where [recv] has
    returned [r]. *)
Definition finish_recv (r : exn + bytes) (clock : float) : M obj unit :=
  try_except
    (data <- lift (match r with inl e => Raised e | inr data => Ok data end) ;;
     match data with
     | [] =>
         logger INFO "Client disconnected" ;;;
         c <- the_client_socket ;;
         sock_close c ;;;
         modify_self (set_client_socket None) ;;;
         modify_self (set_steering 0%float) ;;;
         modify_self (set_throttle 0%float)
     | _ :: _ =>
         cmd <- decode data ;;
         sv <- lift (py_get cmd "steering" (PyFloat 0%float)) ;;
         s <- lift (py_float sv) ;;
         modify_self (set_steering s) ;;;
         tv <- lift (py_get cmd "throttle" (PyFloat 0%float)) ;;
         t <- lift (py_float tv) ;;
         modify_self (set_throttle t) ;;;
         stamp clock
     end)
    handlers.

(** The worker calls [self.client_socket.recv(1024)], which returns [r];
    on [None] the attribute lookup raises inside the [try]. *)
Definition call_recv (r : exn + bytes) (m : machine obj) : system :=
  match client_socket (self m) with
  | Some c => System (snd (sock_recv c r m)) (Reading r)
  | None => System m (Reading (inl AttributeError))
  end.

Definition step (a : action) (S : system) : system :=
  match a with
  | Shutdown => System (snd (shutdown (mach S))) (work S)
  | Work i =>
      match work S with
      | AtCheck =>
          if running (self (mach S)) then
            match client_socket (self (mach S)) with
            | None =>
                System (snd (sock_accept (accept_result i) (mach S)))
                       (Accepting (accept_result i))
            | Some _ => call_recv (recv_result i) (mach S)
            end
          else System (mach S) Exited
      | Accepting a =>
          match finish_accept a (mach S) with
          | (Ok true, m) => call_recv (recv_result i) m
          | (Ok false, m) => System m AtCheck
          | (Raised e, m) => System m (Crashed e)
          end
      | Reading r =>
          match finish_recv r (clock i) (mach S) with
          | (Ok _, m) => System m AtCheck
          | (Raised e, m) => System m (Crashed e)
          end
      | Exited | Crashed _ => S
      end
  end.

Definition run (acts : list action) (S : system) : system :=
  fold_left (fun S a => step a S) acts S.

(** The call in flight, if any, stores no command: [accept] raised, or
    [recv] raised or found the peer gone, or its payload is rejected before
    [self.steering] is assigned. *)
Definition settled (w : worker) : bool :=
  match w with
  | Accepting (inr _) => false
  | Reading (inr (b :: data)) =>
      match parse_command (b :: data) with
      | Rejected _ => true
      | _ => false
      end
  | _ => true
  end.

End Steps.
End TCPThreads.

(** ** A runtime and payloads to run the receivers on

    [sample_loads] returns what CPython's [json.loads] returns on the
    payloads below and [BadJSON] elsewhere; it is used only at these
    payloads. *)

Module Sample.

Definition dq : string := String "034"%char EmptyString.

Definition text (s : string) : bytes := list_byte_of_string s.

(** [{"steering": 0.5, "throttle": 0.25}] *)
Definition json_command : string :=
  "{" +:+ dq +:+ "steering" +:+ dq +:+ ": 0.5, "
      +:+ dq +:+ "throttle" +:+ dq +:+ ": 0.25}".

(** [{"steering": "abc"}] *)
Definition json_bad_steering : string :=
  "{" +:+ dq +:+ "steering" +:+ dq +:+ ": " +:+ dq +:+ "abc" +:+ dq +:+ "}".

(** [{"steering": 0.75, "throttle": "abc"}] *)
Definition json_bad_throttle : string :=
  "{" +:+ dq +:+ "steering" +:+ dq +:+ ": 0.75, "
      +:+ dq +:+ "throttle" +:+ dq +:+ ": " +:+ dq +:+ "abc" +:+ dq +:+ "}".

(** [{"steering": true}] *)
Definition json_bool : string :=
  "{" +:+ dq +:+ "steering" +:+ dq +:+ ": true}".

(** [{"throttle": 1, "mode": null}] *)
Definition json_extra : string :=
  "{" +:+ dq +:+ "throttle" +:+ dq +:+ ": 1, "
      +:+ dq +:+ "mode" +:+ dq +:+ ": null}".

(** [{"throttle": 1}] *)
Definition json_throttle : string :=
  "{" +:+ dq +:+ "throttle" +:+ dq +:+ ": 1}".

(** [[1, 2]] *)
Definition json_list : string := "[1, 2]".

Definition json_garbage : string := "steer left".

Definition sample_loads (data : bytes) : decode_error + pyval :=
  let s := string_of_list_byte data in
  if String.eqb s json_command then
    inr (PyDict {[ "steering" := PyFloat 0.5%float; "throttle" := PyFloat 0.25%float ]})
  else if String.eqb s json_bad_steering then
    inr (PyDict {[ "steering" := PyStr "abc" ]})
  else if String.eqb s json_bad_throttle then
    inr (PyDict {[ "steering" := PyFloat 0.75%float; "throttle" := PyStr "abc" ]})
  else if String.eqb s json_bool then
    inr (PyDict {[ "steering" := PyBool true ]})
  else if String.eqb s json_extra then
    inr (PyDict {[ "throttle" := PyInt 1; "mode" := PyNone ]})
  else if String.eqb s json_throttle then
    inr (PyDict {[ "throttle" := PyInt 1 ]})
  else if String.eqb s json_list then
    inr (PyList [PyInt 1; PyInt 2])
  else inl BadJSON.

Definition sample_float_of_str (s : string) : option float :=
  if String.eqb s "0.5" then Some 0.5%float else None.

Definition sample_runtime : PyRuntime :=
  {| json_loads := sample_loads; float_of_str := sample_float_of_str |}.

(** A TCP receiver listening on descriptor 3, built at time 100. *)
Definition tcp_fresh : machine RemoteController.obj :=
  RemoteController.init RemoteController.default_host
    RemoteController.default_port 3 100%float.

Definition tcp_io (a : exn + handle) (r : exn + bytes) (t : float)
  : RemoteController.io :=
  RemoteController.Io a r t.

(** The receiver after it accepted a peer on descriptor 4, which sent the
    command (0.5, 0.25) at time 100. *)
Definition tcp_connected : machine RemoteController.obj :=
  snd (@RemoteController.iteration sample_runtime
         (tcp_io (inr 4) (inr (text json_command)) 100%float) tcp_fresh).

(** A UDP receiver bound to descriptor 3, built at time 100, and the same
    after it received the command (0.5, 0.25) at time 100. *)
Definition udp_fresh : machine RemoteControllerUDP.obj :=
  RemoteControllerUDP.init RemoteControllerUDP.default_host
    RemoteControllerUDP.default_port 3 100%float.

Definition udp_io (r : exn + bytes) (t : float) : RemoteControllerUDP.io :=
  RemoteControllerUDP.Io r t.

Definition udp_commanded : machine RemoteControllerUDP.obj :=
  snd (@RemoteControllerUDP.iteration sample_runtime
         (udp_io (inr (text json_command)) 100%float) udp_fresh).

End Sample.

(** ** Payloads with integer fields

    [wide_loads] returns what CPython's [json.loads] returns on the two
    payloads below and is [sample_loads] elsewhere. *)

Module Wide.
Import Sample.

(** [{"steering": 9007199254740993}], the integer 2^53 + 1 *)
Definition json_wide : string :=
  "{" +:+ dq +:+ "steering" +:+ dq +:+ ": 9007199254740993}".

(** [{"steering": -3, "throttle": 9007199254740991}], the second integer
    being 2^53 - 1 *)
Definition json_ints : string :=
  "{" +:+ dq +:+ "steering" +:+ dq +:+ ": -3, "
      +:+ dq +:+ "throttle" +:+ dq +:+ ": 9007199254740991}".

Definition wide_loads (data : bytes) : decode_error + pyval :=
  let s := string_of_list_byte data in
  if String.eqb s json_wide then
    inr (PyDict {[ "steering" := PyInt 9007199254740993 ]})
  else if String.eqb s json_ints then
    inr (PyDict {[ "steering" := PyInt (-3); "throttle" := PyInt 9007199254740991 ]})
  else sample_loads data.

Definition wide_runtime : PyRuntime :=
  {| json_loads := wide_loads; float_of_str := sample_float_of_str |}.

End Wide.

(** * Facts *)

(** ** The order of binary64 numbers *)

Section FloatOrder.

Lemma SFcompare_antisym a b :
  SFcompare b a = option_map CompOpp (SFcompare a b).
Proof.
  destruct a as [sa|sa| |sa ma ea], b as [sb|sb| |sb mb eb]; simpl;
    try reflexivity;
    try (destruct sa; reflexivity); try (destruct sb; reflexivity);
    try (destruct sa, sb; reflexivity).
  change (PosDef.Pos.compare_cont Eq mb ma) with (Pos.compare mb ma).
  change (PosDef.Pos.compare_cont Eq ma mb) with (Pos.compare ma mb).
  rewrite (Z.compare_antisym ea eb), (Pos.compare_antisym ma mb).
  destruct sa, sb, (ea ?= eb)%Z, (ma ?= mb)%positive; reflexivity.
Qed.

Lemma SFcompare_self a b : SFcompare a b <> None -> SFcompare a a = Some Eq.
Proof.
  destruct a as [sa|sa| |sa ma ea]; simpl; auto.
  - destruct sa; auto.
  - intros []. destruct b; reflexivity.
  - change (PosDef.Pos.compare_cont Eq ma ma) with (Pos.compare ma ma).
    rewrite Z.compare_refl, Pos.compare_refl. destruct sa; auto.
Qed.

Lemma SFleb_trans a b c :
  SFleb a b = true -> SFleb b c = true -> SFleb a c = true.
Proof.
  unfold SFleb.
  destruct a as [sa|sa| |sa ma ea], b as [sb|sb| |sb mb eb],
           c as [sc|sc| |sc mc ec];
    simpl; try discriminate; try reflexivity;
    try (destruct sa; try discriminate; try reflexivity);
    try (destruct sb; try discriminate; try reflexivity);
    try (destruct sc; try discriminate; try reflexivity).
  all: change (PosDef.Pos.compare_cont Eq) with Pos.compare.
  all: destruct (Z.compare_spec ea eb); try discriminate;
       destruct (Z.compare_spec eb ec); try discriminate;
       destruct (Z.compare_spec ea ec); try reflexivity; try lia.
  all: destruct (Pos.compare_spec ma mb); try discriminate;
       destruct (Pos.compare_spec mb mc); try discriminate;
       destruct (Pos.compare_spec ma mc); try reflexivity; simpl; try lia.
Qed.

Lemma leb_not_ltb (x y : float) :
  (x <=? y)%float = true -> (y <? x)%float = false.
Proof.
  rewrite leb_spec, ltb_spec. unfold SFleb, SFltb.
  rewrite (SFcompare_antisym (Prim2SF x) (Prim2SF y)).
  destruct (SFcompare (Prim2SF x) (Prim2SF y)) as [[]|]; simpl; congruence.
Qed.

Lemma leb_refl_l (x y : float) :
  (x <=? y)%float = true -> (x <=? x)%float = true.
Proof.
  rewrite !leb_spec. unfold SFleb. intros E.
  rewrite (SFcompare_self (Prim2SF x) (Prim2SF y)); [reflexivity|].
  destruct (SFcompare (Prim2SF x) (Prim2SF y)); congruence.
Qed.

Lemma leb_refl_r (x y : float) :
  (x <=? y)%float = true -> (y <=? y)%float = true.
Proof.
  rewrite !leb_spec. unfold SFleb. intros E.
  rewrite (SFcompare_self (Prim2SF y) (Prim2SF x)); [reflexivity|].
  rewrite (SFcompare_antisym (Prim2SF x) (Prim2SF y)).
  destruct (SFcompare (Prim2SF x) (Prim2SF y)); simpl; congruence.
Qed.

Lemma leb_trans (x y z : float) :
  (x <=? y)%float = true -> (y <=? z)%float = true -> (x <=? z)%float = true.
Proof. rewrite !leb_spec. apply SFleb_trans. Qed.

End FloatOrder.

(** ** Conversions *)

Section Conversions.
Context `{PyRuntime}.

(** [float()] raises one of three exceptions, none of them a socket one. *)
Lemma py_float_raises v e :
  py_float v = Raised e -> e = TypeError \/ e = ValueError \/ e = OverflowError.
Proof.
  destruct v; simpl; try (intros [= <-]; auto).
  - unfold float_of_int. destruct (is_infinity _); intros [= <-]; auto.
  - destruct (float_of_str s); intros [= <-]; auto.
Qed.

Lemma py_get_raises cmd key dflt e :
  py_get cmd key dflt = Raised e -> e = AttributeError.
Proof.
  destruct cmd; simpl; try (intros [= <-]; reflexivity).
  destruct (d !! key); discriminate.
Qed.

Lemma parse_command_rejected data e :
  parse_command data = Rejected e -> parse_exn e.
Proof.
  unfold parse_command, parse_exn.
  destruct (json_loads data) as [de|cmd].
  - intros [= <-]. destruct de; simpl; auto 10.
  - destruct (py_get cmd "steering" _) as [sv|e1] eqn:G1.
    + destruct (py_float sv) as [s|e2] eqn:F1.
      * destruct (py_get cmd "throttle" _) as [tv|e3]; [|discriminate].
        destruct (py_float tv); discriminate.
      * intros [= <-]. apply py_float_raises in F1. intuition auto 10.
    + intros [= <-]. apply py_get_raises in G1. auto 10.
Qed.

Lemma parse_command_steering_only data s e :
  parse_command data = SteeringOnly s e -> parse_exn e.
Proof.
  unfold parse_command, parse_exn.
  destruct (json_loads data) as [de|cmd]; [discriminate|].
  destruct (py_get cmd "steering" _) as [sv|e1]; [|discriminate].
  destruct (py_float sv) as [s1|e2]; [|discriminate].
  destruct (py_get cmd "throttle" _) as [tv|e3] eqn:G2.
  - destruct (py_float tv) as [t|e4] eqn:F2; [discriminate|].
    intros [= <- <-]. apply py_float_raises in F2. intuition auto 10.
  - intros [= <- <-]. apply py_get_raises in G2. auto 10.
Qed.

End Conversions.

(** ** The loop body is its summary *)

Ltac unfold_py :=
  unfold try_except, bind, decode, lift, time_time, get_self, sock_recv,
    sock_accept, sock_close, modify_self, logger, emit, ret, raise.

Section Summaries.
Context `{PyRuntime}.

Lemma tcp_receive_summary c i m :
  RemoteController.client_socket (self m) = Some c ->
  RemoteController.receive i m = (Ok tt, TCPSummary.receive_summary c i m).
Proof.
  destruct m as [[h p r s t l to srv cl] os tr], i as [a rr ck].
  cbn. intros ->.
  unfold RemoteController.receive, RemoteController.the_client_socket,
    RemoteController.stamp, TCPSummary.receive_summary, parse_command.
  unfold_py. cbn.
  destruct rr as [e|[|b data]]; [destruct e; reflexivity|reflexivity|].
  destruct (json_loads (b :: data)) as [[]|cmd]; try reflexivity.
  destruct (py_get cmd "steering" _) as [sv|e1] eqn:G1; cbn;
    [|apply py_get_raises in G1; subst; reflexivity].
  destruct (py_float sv) as [s1|e2] eqn:F1; cbn;
    [|apply py_float_raises in F1; destruct F1 as [->|[->| ->]]; reflexivity].
  destruct (py_get cmd "throttle" _) as [tv|e3] eqn:G2; cbn;
    [|apply py_get_raises in G2; subst; reflexivity].
  destruct (py_float tv) as [t1|e4] eqn:F2; cbn;
    [reflexivity|].
  apply py_float_raises in F2; destruct F2 as [->|[->| ->]]; reflexivity.
Qed.

Lemma tcp_iteration_summary i m :
  RemoteController.iteration i m = (Ok tt, TCPSummary.summary i m).
Proof.
  destruct (RemoteController.client_socket (self m)) as [c|] eqn:C.
  - unfold RemoteController.iteration, RemoteController.accept_if_needed,
      TCPSummary.summary, bind, get_self, ret.
    rewrite C. apply (tcp_receive_summary c i m C).
  - unfold RemoteController.iteration, RemoteController.accept_if_needed,
      TCPSummary.summary, bind, get_self, try_except, sock_accept.
    rewrite C. destruct (RemoteController.accept_result i) as [e|c].
    + destruct e; reflexivity.
    + cbn. apply tcp_receive_summary. reflexivity.
Qed.

Lemma udp_iteration_summary i m :
  RemoteControllerUDP.iteration i m = (Ok tt, UDPSummary.summary i m).
Proof.
  destruct m as [o os tr], i as [r c].
  unfold RemoteControllerUDP.iteration, RemoteControllerUDP.stamp,
    UDPSummary.summary, parse_command.
  unfold_py. cbn.
  destruct r as [e|data]; [destruct e; reflexivity|].
  destruct (json_loads data) as [[]|cmd]; try reflexivity.
  destruct (py_get cmd "steering" _) as [sv|e1] eqn:G1; cbn;
    [|destruct e1; reflexivity].
  destruct (py_float sv) as [s1|e2] eqn:F1; cbn; [|destruct e2; reflexivity].
  destruct (py_get cmd "throttle" _) as [tv|e3] eqn:G2; cbn;
    [|destruct e3; reflexivity].
  destruct (py_float tv) as [t1|e4] eqn:F2; cbn; [reflexivity|].
  destruct e4; reflexivity.
Qed.

End Summaries.

(** ** The watchdog *)

Section Watchdog.

Lemma tcp_run_threaded_fresh now o :
  (now - RemoteController.last_command_time o <=? RemoteController.timeout o)%float = true ->
  RemoteController.run_threaded now o =
    (RemoteController.steering o, RemoteController.throttle o).
Proof.
  intros Hle. unfold RemoteController.run_threaded.
  rewrite (leb_not_ltb _ _ Hle). reflexivity.
Qed.

Lemma tcp_run_threaded_stale now o :
  (RemoteController.timeout o <? now - RemoteController.last_command_time o)%float = true ->
  RemoteController.run_threaded now o = (0%float, 0%float).
Proof. intros Hlt. unfold RemoteController.run_threaded. rewrite Hlt. reflexivity. Qed.

Lemma udp_run_threaded_fresh now o :
  (now - RemoteControllerUDP.last_command_time o <=? RemoteControllerUDP.timeout o)%float = true ->
  RemoteControllerUDP.run_threaded now o =
    (RemoteControllerUDP.steering o, RemoteControllerUDP.throttle o).
Proof.
  intros Hle. unfold RemoteControllerUDP.run_threaded.
  rewrite (leb_not_ltb _ _ Hle). reflexivity.
Qed.

Lemma udp_run_threaded_stale now o :
  (RemoteControllerUDP.timeout o <? now - RemoteControllerUDP.last_command_time o)%float = true ->
  RemoteControllerUDP.run_threaded now o = (0%float, 0%float).
Proof. intros Hlt. unfold RemoteControllerUDP.run_threaded. rewrite Hlt. reflexivity. Qed.

(** A zeroed command is returned as neutral whatever the time. *)
Lemma tcp_run_threaded_zero now o :
  RemoteController.steering o = 0%float ->
  RemoteController.throttle o = 0%float ->
  RemoteController.run_threaded now o = (0%float, 0%float).
Proof.
  intros Hs Ht. unfold RemoteController.run_threaded. rewrite Hs, Ht.
  destruct (_ <? _)%float; reflexivity.
Qed.

Lemma udp_run_threaded_zero now o :
  RemoteControllerUDP.steering o = 0%float ->
  RemoteControllerUDP.throttle o = 0%float ->
  RemoteControllerUDP.run_threaded now o = (0%float, 0%float).
Proof.
  intros Hs Ht. unfold RemoteControllerUDP.run_threaded. rewrite Hs, Ht.
  destruct (_ <? _)%float; reflexivity.
Qed.

(** C1. Freshness: in every state of either receiver whose threshold is
    0.5 s, [run_threaded] called at time [now] returns the stored
    (steering, throttle) when [now - last_command_time <= 0.5] and the
    neutral pair when [now - last_command_time > 0.5]; the subtraction and
    the comparisons are those of binary64 numbers, as in the source. *)
Theorem C1_freshness :
  (forall (now : float) (o : RemoteController.obj),
     RemoteController.timeout o = 0.5%float ->
     ((now - RemoteController.last_command_time o <=? 0.5)%float = true ->
      RemoteController.run_threaded now o =
        (RemoteController.steering o, RemoteController.throttle o)) /\
     ((0.5 <? now - RemoteController.last_command_time o)%float = true ->
      RemoteController.run_threaded now o = (0%float, 0%float))) /\
  (forall (now : float) (o : RemoteControllerUDP.obj),
     RemoteControllerUDP.timeout o = 0.5%float ->
     ((now - RemoteControllerUDP.last_command_time o <=? 0.5)%float = true ->
      RemoteControllerUDP.run_threaded now o =
        (RemoteControllerUDP.steering o, RemoteControllerUDP.throttle o)) /\
     ((0.5 <? now - RemoteControllerUDP.last_command_time o)%float = true ->
      RemoteControllerUDP.run_threaded now o = (0%float, 0%float))).
Proof.
  split; intros now o Hto; split; intros Hc.
  - apply tcp_run_threaded_fresh. rewrite Hto. exact Hc.
  - apply tcp_run_threaded_stale. rewrite Hto. exact Hc.
  - apply udp_run_threaded_fresh. rewrite Hto. exact Hc.
  - apply udp_run_threaded_stale. rewrite Hto. exact Hc.
Qed.

End Watchdog.

(** ** The TCP receiver: disconnects *)

Section TcpDisconnect.
Context `{PyRuntime}.
Import RemoteController TCPSummary.

Lemma tcp_summary_connected c i m :
  client_socket (self m) = Some c -> summary i m = receive_summary c i m.
Proof. unfold summary. intros ->. reflexivity. Qed.

Lemma tcp_summary_accepted c i m :
  client_socket (self m) = None -> accept_result i = inr c ->
  summary i m = receive_summary c i (accepted c m).
Proof. unfold summary. intros -> ->. reflexivity. Qed.

Lemma tcp_summary_not_accepted e i m :
  client_socket (self m) = None -> accept_result i = inl e ->
  summary i m =
    Machine (self m) (open_socks m) (accept_log e ++ EvAccept :: trace m).
Proof. unfold summary. intros -> ->. reflexivity. Qed.

Lemma tcp_receive_summary_gone c i m :
  peer_gone (recv_result i) ->
  receive_summary c i m =
    disconnect c (Machine (self m) (open_socks m) (EvRecv c :: trace m)).
Proof.
  unfold receive_summary. intros [-> | [-> | ->]]; reflexivity.
Qed.

Lemma tcp_disconnect_neutral c m now :
  run_threaded now (self (disconnect c m)) = (0%float, 0%float).
Proof. apply tcp_run_threaded_zero; reflexivity. Qed.

(** C3. In the TCP receiver a zero-length read, a [ConnectionResetError]
    and a [BrokenPipeError] are handled alike: whichever of them the read
    of peer [c] gives, the iteration ends in the state it reaches on a
    zero-length read; there the peer's descriptor is closed (once, and no
    longer open), [client_socket] is [None] (the Accepting state), steering
    and throttle are 0.0, and [run_threaded] returns (0.0, 0.0) at every
    time, whatever the threshold and the time of the last command. *)
Theorem C3_tcp_disconnect :
  forall (i : io) (m : machine obj) (c : handle),
    (client_socket (self m) = Some c \/
     (client_socket (self m) = None /\ accept_result i = inr c)) ->
    peer_gone (recv_result i) ->
    exists m' evs,
      iteration i m = (Ok tt, m') /\
      iteration (Io (accept_result i) (inr []) (clock i)) m = (Ok tt, m') /\
      trace m' = evs ++ trace m /\
      closes evs = [c] /\
      (c ∉ open_socks m') /\
      client_socket (self m') = None /\
      steering (self m') = 0%float /\
      throttle (self m') = 0%float /\
      forall now, run_threaded now (self m') = (0%float, 0%float).
Proof.
  intros i m c Hc Hgone.
  assert (Hzero : peer_gone (recv_result (Io (accept_result i) (inr []) (clock i))))
    by (left; reflexivity).
  rewrite !tcp_iteration_summary.
  destruct Hc as [Hc | [Hc Ha]].
  - rewrite !(tcp_summary_connected c) by exact Hc.
    rewrite (tcp_receive_summary_gone c i _ Hgone),
            (tcp_receive_summary_gone c _ _ Hzero).
    eexists _, [EvClose c; EvLog INFO "Client disconnected"; EvRecv c].
    repeat split; try reflexivity.
    + cbn. intros [_ Hn]%elem_of_difference. apply Hn, elem_of_singleton. reflexivity.
    + intros now. apply tcp_disconnect_neutral.
  - rewrite !(tcp_summary_accepted c) by (exact Hc || exact Ha).
    rewrite (tcp_receive_summary_gone c i _ Hgone),
            (tcp_receive_summary_gone c _ _ Hzero).
    eexists _, [EvClose c; EvLog INFO "Client disconnected"; EvRecv c;
                EvLog INFO "Client connected"; EvAccept].
    repeat split; try reflexivity.
    + cbn. intros [_ Hn]%elem_of_difference. apply Hn, elem_of_singleton. reflexivity.
    + intros now. apply tcp_disconnect_neutral.
Qed.

End TcpDisconnect.

(** ** What the loop leaves alone *)

Ltac destruct_matches :=
  repeat match goal with
         | |- context [match ?x with _ => _ end] => destruct x
         end.

Section Frame.
Context `{PyRuntime}.

Lemma tcp_handled_frame c e m :
  let o := self m in
  let o' := self (TCPSummary.handled c e m) in
  TCPSummary.configuration o' = TCPSummary.configuration o /\
  RemoteController.running o' = RemoteController.running o /\
  RemoteController.server_socket o' = RemoteController.server_socket o.
Proof. destruct e; cbn; auto. Qed.

Lemma tcp_summary_frame i m :
  let o := self m in
  let o' := self (TCPSummary.summary i m) in
  TCPSummary.configuration o' = TCPSummary.configuration o /\
  RemoteController.running o' = RemoteController.running o /\
  RemoteController.server_socket o' = RemoteController.server_socket o.
Proof.
  cbv zeta. unfold TCPSummary.summary, TCPSummary.receive_summary.
  destruct_matches; try apply tcp_handled_frame; cbn; auto;
    match goal with
    | |- context [TCPSummary.handled ?c ?e ?m] =>
        destruct (tcp_handled_frame c e m) as (? & ? & ?); auto
    end.
Qed.

Lemma udp_summary_frame i m :
  let o := self m in
  let o' := self (UDPSummary.summary i m) in
  UDPSummary.configuration o' = UDPSummary.configuration o /\
  RemoteControllerUDP.running o' = RemoteControllerUDP.running o /\
  RemoteControllerUDP.socket o' = RemoteControllerUDP.socket o.
Proof.
  cbv zeta. unfold UDPSummary.summary. destruct_matches; cbn; auto.
Qed.

Lemma tcp_after_frame ios m :
  let o := self m in
  let o' := self (TCPSummary.after ios m) in
  TCPSummary.configuration o' = TCPSummary.configuration o /\
  RemoteController.running o' = RemoteController.running o /\
  RemoteController.server_socket o' = RemoteController.server_socket o.
Proof.
  cbv zeta. revert m. induction ios as [|i ios IH]; intros m; [auto|].
  change (TCPSummary.after (i :: ios) m)
    with (TCPSummary.after ios (TCPSummary.summary i m)).
  destruct (IH (TCPSummary.summary i m)) as (-> & -> & ->).
  apply tcp_summary_frame.
Qed.

Lemma udp_after_frame ios m :
  let o := self m in
  let o' := self (UDPSummary.after ios m) in
  UDPSummary.configuration o' = UDPSummary.configuration o /\
  RemoteControllerUDP.running o' = RemoteControllerUDP.running o /\
  RemoteControllerUDP.socket o' = RemoteControllerUDP.socket o.
Proof.
  cbv zeta. revert m. induction ios as [|i ios IH]; intros m; [auto|].
  change (UDPSummary.after (i :: ios) m)
    with (UDPSummary.after ios (UDPSummary.summary i m)).
  destruct (IH (UDPSummary.summary i m)) as (-> & -> & ->).
  apply udp_summary_frame.
Qed.

(** The loop runs the body on every input while the flag is set, and not at
    all once it is cleared. *)
Lemma tcp_update_running ios m :
  RemoteController.running (self m) = true ->
  RemoteController.update ios m = LoopPending (TCPSummary.after ios m).
Proof.
  revert m. induction ios as [|i ios IH]; intros m Hr; cbn; rewrite Hr;
    [reflexivity|].
  rewrite tcp_iteration_summary. apply IH.
  destruct (tcp_summary_frame i m) as (_ & -> & _). exact Hr.
Qed.

Lemma tcp_update_stopped ios m :
  RemoteController.running (self m) = false ->
  RemoteController.update ios m = LoopExited m.
Proof. intros Hr. destruct ios; cbn; rewrite Hr; reflexivity. Qed.

Lemma udp_update_running ios m :
  RemoteControllerUDP.running (self m) = true ->
  RemoteControllerUDP.update ios m = LoopPending (UDPSummary.after ios m).
Proof.
  revert m. induction ios as [|i ios IH]; intros m Hr; cbn; rewrite Hr;
    [reflexivity|].
  rewrite udp_iteration_summary. apply IH.
  destruct (udp_summary_frame i m) as (_ & -> & _). exact Hr.
Qed.

Lemma udp_update_stopped ios m :
  RemoteControllerUDP.running (self m) = false ->
  RemoteControllerUDP.update ios m = LoopExited m.
Proof. intros Hr. destruct ios; cbn; rewrite Hr; reflexivity. Qed.

Lemma tcp_update_frame ios m :
  TCPSummary.configuration (self (final (RemoteController.update ios m))) =
  TCPSummary.configuration (self m).
Proof.
  destruct (RemoteController.running (self m)) eqn:Hr.
  - rewrite tcp_update_running by exact Hr. apply tcp_after_frame.
  - rewrite tcp_update_stopped by exact Hr. reflexivity.
Qed.

Lemma udp_update_frame ios m :
  UDPSummary.configuration (self (final (RemoteControllerUDP.update ios m))) =
  UDPSummary.configuration (self m).
Proof.
  destruct (RemoteControllerUDP.running (self m)) eqn:Hr.
  - rewrite udp_update_running by exact Hr. apply udp_after_frame.
  - rewrite udp_update_stopped by exact Hr. reflexivity.
Qed.

(** [shutdown] in closed form. *)
Lemma tcp_shutdown_eq m :
  RemoteController.shutdown m =
    (Ok tt,
     Machine
       (RemoteController.set_throttle 0%float
          (RemoteController.set_steering 0%float
             (RemoteController.set_running false (self m))))
       (open_socks m ∖ TCPSummary.held (self m))
       (EvClose (RemoteController.server_socket (self m)) ::
        match RemoteController.client_socket (self m) with
        | Some c => [EvClose c]
        | None => []
        end ++
        EvLog INFO "RemoteController: shutting down" :: trace m)).
Proof.
  destruct m as [[h p r s t l to srv [c|]] os tr];
    unfold RemoteController.shutdown, TCPSummary.held; unfold_py; cbn;
    [|reflexivity].
  do 2 f_equal. set_solver.
Qed.

Lemma udp_shutdown_eq m :
  RemoteControllerUDP.shutdown m =
    (Ok tt,
     Machine
       (RemoteControllerUDP.set_throttle 0%float
          (RemoteControllerUDP.set_steering 0%float
             (RemoteControllerUDP.set_running false (self m))))
       (open_socks m ∖ UDPSummary.held (self m))
       (EvLog INFO "RemoteControllerUDP shutdown" ::
        EvClose (RemoteControllerUDP.socket (self m)) :: trace m)).
Proof. destruct m as [[h p r s t l to sk] os tr]; reflexivity. Qed.

End Frame.

(** ** The steps make up the loop body *)

Section ThreadsRefine.
Context `{PyRuntime}.

Lemma udp_steps_iteration i m :
  RemoteControllerUDP.iteration i m =
    UDPThreads.handle_read (RemoteControllerUDP.recvfrom_result i)
      (RemoteControllerUDP.clock i)
      (snd (sock_recv (RemoteControllerUDP.socket (self m))
              (RemoteControllerUDP.recvfrom_result i) m)).
Proof.
  unfold RemoteControllerUDP.iteration, UDPThreads.handle_read,
    UDPThreads.handlers, try_except, bind, get_self, sock_recv, lift.
  destruct (RemoteControllerUDP.recvfrom_result i); reflexivity.
Qed.

Lemma tcp_steps_receive c i m :
  RemoteController.client_socket (self m) = Some c ->
  RemoteController.receive i m =
    TCPThreads.finish_recv (RemoteController.recv_result i)
      (RemoteController.clock i)
      (snd (sock_recv c (RemoteController.recv_result i) m)).
Proof.
  intros Hc.
  unfold RemoteController.receive, TCPThreads.finish_recv, TCPThreads.handlers,
    RemoteController.the_client_socket, try_except, bind, get_self, sock_recv,
    lift, ret.
  rewrite Hc. destruct (RemoteController.recv_result i) as [e|[|b data]];
    reflexivity.
Qed.

Lemma tcp_steps_accept i m :
  RemoteController.client_socket (self m) = None ->
  RemoteController.accept_if_needed i m =
    TCPThreads.finish_accept (RemoteController.accept_result i)
      (snd (sock_accept (RemoteController.accept_result i) m)).
Proof.
  intros Hc.
  unfold RemoteController.accept_if_needed, TCPThreads.finish_accept,
    try_except, bind, get_self, sock_accept, lift.
  rewrite Hc. destruct (RemoteController.accept_result i); reflexivity.
Qed.

End ThreadsRefine.

(** ** The steps in closed form *)

Section ThreadSteps.
Context `{PyRuntime}.

Lemma udp_handle_read_raised e ck m :
  UDPThreads.handle_read (inl e) ck m =
    (Ok tt, Machine (self m) (open_socks m) (UDPSummary.log_of e ++ trace m)).
Proof. destruct m as [o os tr]. destruct e; reflexivity. Qed.

Lemma udp_handle_read_payload data ck m :
  UDPThreads.handle_read (inr data) ck m =
    (Ok tt,
     match parse_command data with
     | Rejected e =>
         Machine (self m) (open_socks m) (UDPSummary.log_of e ++ trace m)
     | SteeringOnly s e =>
         Machine (RemoteControllerUDP.set_steering s (self m)) (open_socks m)
                 (UDPSummary.log_of e ++ trace m)
     | Accepted s t =>
         Machine (RemoteControllerUDP.set_last_command_time ck
                    (RemoteControllerUDP.set_throttle t
                       (RemoteControllerUDP.set_steering s (self m))))
                 (open_socks m) (EvStamp ck :: trace m)
     end).
Proof.
  destruct m as [o os tr].
  unfold UDPThreads.handle_read, UDPThreads.handlers,
    RemoteControllerUDP.stamp, parse_command.
  unfold_py. cbn.
  destruct (json_loads data) as [[]|cmd]; try reflexivity.
  destruct (py_get cmd "steering" _) as [sv|e1] eqn:G1; cbn;
    [|destruct e1; reflexivity].
  destruct (py_float sv) as [s1|e2] eqn:F1; cbn; [|destruct e2; reflexivity].
  destruct (py_get cmd "throttle" _) as [tv|e3] eqn:G2; cbn;
    [|destruct e3; reflexivity].
  destruct (py_float tv) as [t1|e4] eqn:F2; cbn; [reflexivity|].
  destruct e4; reflexivity.
Qed.

(** What a step of the UDP worker keeps: the flag, the socket, the open
    descriptors; and the command, when the read stores none. *)
Lemma udp_handle_read_keeps r ck m :
  exists m',
    UDPThreads.handle_read r ck m = (Ok tt, m') /\
    RemoteControllerUDP.running (self m') = RemoteControllerUDP.running (self m) /\
    RemoteControllerUDP.socket (self m') = RemoteControllerUDP.socket (self m) /\
    open_socks m' = open_socks m /\
    (UDPThreads.settled (UDPThreads.Reading r) = true ->
     RemoteControllerUDP.steering (self m') = RemoteControllerUDP.steering (self m) /\
     RemoteControllerUDP.throttle (self m') = RemoteControllerUDP.throttle (self m)).
Proof.
  destruct r as [e|data].
  - rewrite udp_handle_read_raised. eexists. split; [reflexivity|]. auto.
  - rewrite udp_handle_read_payload. eexists. split; [reflexivity|].
    unfold UDPThreads.settled.
    destruct (parse_command data); cbn; repeat split; auto; discriminate.
Qed.

Lemma tcp_finish_accept_raised e m :
  TCPThreads.finish_accept (inl e) m =
    (Ok false,
     Machine (self m) (open_socks m) (TCPSummary.accept_log e ++ trace m)).
Proof. destruct m as [o os tr]. destruct e; reflexivity. Qed.

Lemma tcp_finish_accept_peer c m :
  TCPThreads.finish_accept (inr c) m =
    (Ok true,
     Machine (RemoteController.set_client_socket (Some c) (self m))
             (open_socks m) (EvLog INFO "Client connected" :: trace m)).
Proof. reflexivity. Qed.

(** The peer is dropped: lines 70-74 and 87-91.  Without a peer the lookup
    of [close] on [None] raises, in the first case inside the [try], in
    the second inside the [except] clause. *)
Lemma tcp_finish_recv_empty ck m :
  TCPThreads.finish_recv (inr []) ck m =
    match RemoteController.client_socket (self m) with
    | Some c => (Ok tt, TCPSummary.disconnect c m)
    | None =>
        (Ok tt,
         Machine (self m) (open_socks m)
           (EvLog ERROR "Receive error"
              :: EvLog INFO "Client disconnected" :: trace m))
    end.
Proof.
  destruct m as [[h p r s t l to srv [c|]] os tr]; reflexivity.
Qed.

Lemma tcp_finish_recv_raised e ck m :
  TCPThreads.finish_recv (inl e) ck m =
    if TCPSummary.is_disconnect e then
      match RemoteController.client_socket (self m) with
      | Some c => (Ok tt, TCPSummary.disconnect c m)
      | None =>
          (Raised AttributeError,
           Machine (self m) (open_socks m)
             (EvLog INFO "Client disconnected" :: trace m))
      end
    else
      (Ok tt, Machine (self m) (open_socks m) (TCPSummary.log_of e ++ trace m)).
Proof.
  destruct m as [[h p r s t l to srv [c|]] os tr]; destruct e; reflexivity.
Qed.

Lemma tcp_finish_recv_payload b data ck m :
  TCPThreads.finish_recv (inr (b :: data)) ck m =
    (Ok tt,
     match parse_command (b :: data) with
     | Rejected e =>
         Machine (self m) (open_socks m) (TCPSummary.log_of e ++ trace m)
     | SteeringOnly s e =>
         Machine (RemoteController.set_steering s (self m)) (open_socks m)
                 (TCPSummary.log_of e ++ trace m)
     | Accepted s t =>
         Machine (RemoteController.set_last_command_time ck
                    (RemoteController.set_throttle t
                       (RemoteController.set_steering s (self m))))
                 (open_socks m) (EvStamp ck :: trace m)
     end).
Proof.
  destruct m as [o os tr].
  unfold TCPThreads.finish_recv, TCPThreads.handlers,
    RemoteController.stamp, parse_command.
  unfold_py. cbn.
  destruct (json_loads (b :: data)) as [[]|cmd]; try reflexivity.
  destruct (py_get cmd "steering" _) as [sv|e1] eqn:G1; cbn;
    [|apply py_get_raises in G1; subst; reflexivity].
  destruct (py_float sv) as [s1|e2] eqn:F1; cbn;
    [|apply py_float_raises in F1; destruct F1 as [->|[->| ->]]; reflexivity].
  destruct (py_get cmd "throttle" _) as [tv|e3] eqn:G2; cbn;
    [|apply py_get_raises in G2; subst; reflexivity].
  destruct (py_float tv) as [t1|e4] eqn:F2; cbn;
    [reflexivity|].
  apply py_float_raises in F2; destruct F2 as [->|[->| ->]]; reflexivity.
Qed.

(** What a step of the TCP worker that follows a read keeps: the flag and
    the listening socket; it opens no descriptor; and when the read stores
    no command, the command is as it was or zeroed. *)
Lemma tcp_finish_recv_keeps r ck m :
  exists res m',
    TCPThreads.finish_recv r ck m = (res, m') /\
    RemoteController.running (self m') = RemoteController.running (self m) /\
    RemoteController.server_socket (self m') =
      RemoteController.server_socket (self m) /\
    open_socks m' ⊆ open_socks m /\
    (TCPThreads.settled (TCPThreads.Reading r) = true ->
     (RemoteController.steering (self m') = RemoteController.steering (self m) /\
      RemoteController.throttle (self m') = RemoteController.throttle (self m)) \/
     (RemoteController.steering (self m') = 0%float /\
      RemoteController.throttle (self m') = 0%float)).
Proof.
  destruct r as [e|[|b data]].
  - rewrite tcp_finish_recv_raised.
    destruct (TCPSummary.is_disconnect e);
      [destruct (RemoteController.client_socket (self m))|];
      eexists _, _; (split; [reflexivity|]); cbn; repeat split; auto;
      set_solver.
  - rewrite tcp_finish_recv_empty.
    destruct (RemoteController.client_socket (self m));
      eexists _, _; (split; [reflexivity|]); cbn; repeat split; auto;
      set_solver.
  - rewrite tcp_finish_recv_payload. eexists _, _. split; [reflexivity|].
    unfold TCPThreads.settled.
    destruct (parse_command (b :: data)); cbn; repeat split; auto;
      discriminate.
Qed.

End ThreadSteps.

(** ** The worker after [shutdown] *)

Section ThreadRuns.
Context `{PyRuntime}.

Lemma udp_run_app acts acts' S :
  UDPThreads.run (acts ++ acts') S = UDPThreads.run acts' (UDPThreads.run acts S).
Proof. apply fold_left_app. Qed.

Lemma tcp_run_app acts acts' S :
  TCPThreads.run (acts ++ acts') S = TCPThreads.run acts' (TCPThreads.run acts S).
Proof. apply fold_left_app. Qed.

(** [shutdown] as a step of the caller. *)
Lemma udp_step_shutdown S :
  let S' := UDPThreads.step UDPThreads.Shutdown S in
  UDPThreads.work S' = UDPThreads.work S /\
  self (UDPThreads.mach S') =
    RemoteControllerUDP.set_throttle 0%float
      (RemoteControllerUDP.set_steering 0%float
         (RemoteControllerUDP.set_running false (self (UDPThreads.mach S)))) /\
  open_socks (UDPThreads.mach S') =
    open_socks (UDPThreads.mach S) ∖ UDPSummary.held (self (UDPThreads.mach S)).
Proof.
  cbv zeta. unfold UDPThreads.step. cbn [UDPThreads.mach UDPThreads.work].
  rewrite udp_shutdown_eq. auto.
Qed.

Lemma tcp_step_shutdown S :
  let S' := TCPThreads.step TCPThreads.Shutdown S in
  TCPThreads.work S' = TCPThreads.work S /\
  self (TCPThreads.mach S') =
    RemoteController.set_throttle 0%float
      (RemoteController.set_steering 0%float
         (RemoteController.set_running false (self (TCPThreads.mach S)))) /\
  open_socks (TCPThreads.mach S') =
    open_socks (TCPThreads.mach S) ∖ TCPSummary.held (self (TCPThreads.mach S)).
Proof.
  cbv zeta. unfold TCPThreads.step. cbn [TCPThreads.mach TCPThreads.work].
  rewrite tcp_shutdown_eq. auto.
Qed.



(** With the flag cleared and the command zeroed, a worker whose call in
    flight stores no command leaves the command zeroed. *)
Lemma udp_step_neutral a S :
  RemoteControllerUDP.running (self (UDPThreads.mach S)) = false ->
  RemoteControllerUDP.steering (self (UDPThreads.mach S)) = 0%float ->
  RemoteControllerUDP.throttle (self (UDPThreads.mach S)) = 0%float ->
  UDPThreads.settled (UDPThreads.work S) = true ->
  let S' := UDPThreads.step a S in
  RemoteControllerUDP.running (self (UDPThreads.mach S')) = false /\
  RemoteControllerUDP.steering (self (UDPThreads.mach S')) = 0%float /\
  RemoteControllerUDP.throttle (self (UDPThreads.mach S')) = 0%float /\
  UDPThreads.settled (UDPThreads.work S') = true.
Proof.
  intros Hr Hs Ht Hw. destruct S as [m w], a as [i|]; cbn in Hr, Hs, Ht, Hw.
  - destruct w as [|r| |e]; cbn.
    + rewrite Hr. cbn. auto.
    + destruct (udp_handle_read_keeps r (RemoteControllerUDP.clock i) m)
        as (m' & -> & Hr' & _ & _ & Hc).
      destruct (Hc Hw) as [Hs' Ht']. cbn. rewrite Hr', Hs', Ht'. auto.
    + auto.
    + auto.
  - unfold UDPThreads.step. cbn [UDPThreads.mach UDPThreads.work].
    rewrite udp_shutdown_eq. cbn. auto.
Qed.

Lemma udp_run_neutral acts S :
  RemoteControllerUDP.running (self (UDPThreads.mach S)) = false ->
  RemoteControllerUDP.steering (self (UDPThreads.mach S)) = 0%float ->
  RemoteControllerUDP.throttle (self (UDPThreads.mach S)) = 0%float ->
  UDPThreads.settled (UDPThreads.work S) = true ->
  RemoteControllerUDP.steering (self (UDPThreads.mach (UDPThreads.run acts S))) = 0%float /\
  RemoteControllerUDP.throttle (self (UDPThreads.mach (UDPThreads.run acts S))) = 0%float.
Proof.
  revert S. induction acts as [|a acts IH]; intros S Hr Hs Ht Hw; [auto|].
  change (UDPThreads.run (a :: acts) S)
    with (UDPThreads.run acts (UDPThreads.step a S)).
  destruct (udp_step_neutral a S Hr Hs Ht Hw) as (Hr' & Hs' & Ht' & Hw').
  exact (IH _ Hr' Hs' Ht' Hw').
Qed.






Lemma tcp_step_neutral a S :
  RemoteController.running (self (TCPThreads.mach S)) = false ->
  RemoteController.steering (self (TCPThreads.mach S)) = 0%float ->
  RemoteController.throttle (self (TCPThreads.mach S)) = 0%float ->
  TCPThreads.settled (TCPThreads.work S) = true ->
  let S' := TCPThreads.step a S in
  RemoteController.running (self (TCPThreads.mach S')) = false /\
  RemoteController.steering (self (TCPThreads.mach S')) = 0%float /\
  RemoteController.throttle (self (TCPThreads.mach S')) = 0%float /\
  TCPThreads.settled (TCPThreads.work S') = true.
Proof.
  intros Hr Hs Ht Hw. destruct S as [m w], a as [i|]; cbn in Hr, Hs, Ht, Hw.
  - destruct w as [|a|r| |e]; cbn.
    + rewrite Hr. cbn. auto.
    + destruct a as [e|c]; [|discriminate].
      rewrite tcp_finish_accept_raised. cbn. auto.
    + destruct (tcp_finish_recv_keeps r (RemoteController.clock i) m)
        as (res & m' & -> & Hr' & _ & _ & Hc).
      assert (Hz : RemoteController.steering (self m') = 0%float /\
                   RemoteController.throttle (self m') = 0%float).
      { destruct (Hc Hw) as [[Hs' Ht']|Hz]; [rewrite Hs', Ht'; auto|exact Hz]. }
      destruct Hz as [Hs' Ht'].
      destruct res; cbn; rewrite Hr', Hs', Ht'; auto.
    + auto.
    + auto.
  - unfold TCPThreads.step. cbn [TCPThreads.mach TCPThreads.work].
    rewrite tcp_shutdown_eq. cbn. auto.
Qed.

Lemma tcp_run_neutral acts S :
  RemoteController.running (self (TCPThreads.mach S)) = false ->
  RemoteController.steering (self (TCPThreads.mach S)) = 0%float ->
  RemoteController.throttle (self (TCPThreads.mach S)) = 0%float ->
  TCPThreads.settled (TCPThreads.work S) = true ->
  RemoteController.steering (self (TCPThreads.mach (TCPThreads.run acts S))) = 0%float /\
  RemoteController.throttle (self (TCPThreads.mach (TCPThreads.run acts S))) = 0%float.
Proof.
  revert S. induction acts as [|a acts IH]; intros S Hr Hs Ht Hw; [auto|].
  change (TCPThreads.run (a :: acts) S)
    with (TCPThreads.run acts (TCPThreads.step a S)).
  destruct (tcp_step_neutral a S Hr Hs Ht Hw) as (Hr' & Hs' & Ht' & Hw').
  exact (IH _ Hr' Hs' Ht' Hw').
Qed.


End ThreadRuns.

Section ThreadsLoop.
Context `{PyRuntime}.

(** From the loop test, with the flag set, the worker's steps on the
    inputs of one iteration are that iteration of [update]. *)
Lemma udp_steps_make_iteration i m :
  RemoteControllerUDP.running (self m) = true ->
  UDPThreads.run [UDPThreads.Work i; UDPThreads.Work i]
    (UDPThreads.System m UDPThreads.AtCheck) =
  UDPThreads.System (snd (RemoteControllerUDP.iteration i m)) UDPThreads.AtCheck.
Proof.
  intros Hr. cbn [UDPThreads.run fold_left].
  cbn [UDPThreads.step UDPThreads.work UDPThreads.mach]. rewrite Hr.
  cbn [UDPThreads.step UDPThreads.work UDPThreads.mach].
  rewrite <- udp_steps_iteration, udp_iteration_summary. reflexivity.
Qed.

Lemma tcp_steps_make_iteration i m :
  RemoteController.running (self m) = true ->
  exists n,
    n <= 3 /\
    TCPThreads.run (repeat (TCPThreads.Work i) n)
      (TCPThreads.System m TCPThreads.AtCheck) =
    TCPThreads.System (snd (RemoteController.iteration i m)) TCPThreads.AtCheck.
Proof.
  intros Hr.
  destruct (RemoteController.client_socket (self m)) as [c|] eqn:Hc.
  - exists 2. split; [lia|]. cbn [repeat TCPThreads.run fold_left].
    cbn [TCPThreads.step TCPThreads.work TCPThreads.mach]. rewrite Hr, Hc.
    unfold TCPThreads.call_recv. rewrite Hc.
    cbn [TCPThreads.step TCPThreads.work TCPThreads.mach].
    rewrite <- (tcp_steps_receive c i m Hc).
    unfold RemoteController.iteration, RemoteController.accept_if_needed,
      bind, get_self, ret. rewrite Hc.
    rewrite (tcp_receive_summary c i m Hc). reflexivity.
  - destruct (RemoteController.accept_result i) as [e|c] eqn:Ha.
    + exists 2. split; [lia|]. cbn [repeat TCPThreads.run fold_left].
      cbn [TCPThreads.step TCPThreads.work TCPThreads.mach]. rewrite Hr, Hc, Ha.
      cbn [TCPThreads.step TCPThreads.work TCPThreads.mach].
      rewrite tcp_finish_accept_raised, tcp_iteration_summary.
      unfold TCPSummary.summary. rewrite Hc, Ha. reflexivity.
    + exists 3. split; [lia|]. cbn [repeat TCPThreads.run fold_left].
      cbn [TCPThreads.step TCPThreads.work TCPThreads.mach]. rewrite Hr, Hc, Ha.
      cbn [TCPThreads.step TCPThreads.work TCPThreads.mach].
      rewrite tcp_finish_accept_peer.
      unfold TCPThreads.call_recv.
      cbn [self RemoteController.set_client_socket RemoteController.client_socket].
      cbn [TCPThreads.step TCPThreads.work TCPThreads.mach].
      rewrite tcp_iteration_summary. unfold TCPSummary.summary. rewrite Hc, Ha.
      pose proof (tcp_steps_receive c i (TCPSummary.accepted c m) eq_refl) as Hs.
      rewrite (tcp_receive_summary c i (TCPSummary.accepted c m) eq_refl) in Hs.
      unfold TCPSummary.accepted in Hs at 2. cbn [sock_accept snd].
      unfold sock_recv at 1 in Hs. cbn [self open_socks trace] in Hs.
      unfold sock_recv.
      destruct (RemoteController.recv_result i);
        cbn [snd self open_socks trace] in Hs |- *; rewrite <- Hs; reflexivity.
Qed.

End ThreadsLoop.

(** ** Configuration, survival of the loop, shutdown *)

Section Lifetime.
Context `{PyRuntime}.

(** C7. For both receivers the constructor sets the threshold to 0.5 s
    whatever the bind host and port it is given (it stores these two as
    given), and neither a loop iteration, nor the whole [update] loop, nor
    [shutdown] changes threshold, host or port; [run_threaded] and [run]
    only read the object. *)
Theorem C7_threshold_fixed :
  (forall host port srv clock,
     TCPSummary.configuration (self (RemoteController.init host port srv clock)) =
       (host, port, 0.5%float)) /\
  (forall i m,
     TCPSummary.configuration (self (snd (RemoteController.iteration i m))) =
       TCPSummary.configuration (self m)) /\
  (forall ios m,
     TCPSummary.configuration (self (final (RemoteController.update ios m))) =
       TCPSummary.configuration (self m)) /\
  (forall m,
     TCPSummary.configuration (self (snd (RemoteController.shutdown m))) =
       TCPSummary.configuration (self m)) /\
  (forall host port sk clock,
     UDPSummary.configuration (self (RemoteControllerUDP.init host port sk clock)) =
       (host, port, 0.5%float)) /\
  (forall i m,
     UDPSummary.configuration (self (snd (RemoteControllerUDP.iteration i m))) =
       UDPSummary.configuration (self m)) /\
  (forall ios m,
     UDPSummary.configuration (self (final (RemoteControllerUDP.update ios m))) =
       UDPSummary.configuration (self m)) /\
  (forall m,
     UDPSummary.configuration (self (snd (RemoteControllerUDP.shutdown m))) =
       UDPSummary.configuration (self m)).
Proof.
  repeat apply conj.
  - reflexivity.
  - intros i m. rewrite tcp_iteration_summary. apply tcp_summary_frame.
  - apply tcp_update_frame.
  - intros m. rewrite tcp_shutdown_eq. reflexivity.
  - reflexivity.
  - intros i m. rewrite udp_iteration_summary. apply udp_summary_frame.
  - apply udp_update_frame.
  - intros m. rewrite udp_shutdown_eq. reflexivity.
Qed.

(** C9. In both receivers an iteration of the loop never lets an exception
    out, whatever [accept] and [recv] return or raise and whatever the
    payload is, and it leaves the running flag as it was.  So a loop whose
    flag is set runs the body on every input it is given and is still
    looping afterwards; it never ends by an exception; and it has exited
    exactly when the flag was already false at its first check. *)
Theorem C9_loop_survives :
  (forall i m, exists m',
     RemoteController.iteration i m = (Ok tt, m') /\
     RemoteController.running (self m') = RemoteController.running (self m)) /\
  (forall ios m,
     RemoteController.running (self m) = true ->
     exists m',
       RemoteController.update ios m = LoopPending m' /\
       RemoteController.running (self m') = true) /\
  (forall ios m,
     (exists m', RemoteController.update ios m = LoopExited m') <->
     RemoteController.running (self m) = false) /\
  (forall ios m e m', RemoteController.update ios m <> LoopCrashed e m') /\
  (forall i m, exists m',
     RemoteControllerUDP.iteration i m = (Ok tt, m') /\
     RemoteControllerUDP.running (self m') = RemoteControllerUDP.running (self m)) /\
  (forall ios m,
     RemoteControllerUDP.running (self m) = true ->
     exists m',
       RemoteControllerUDP.update ios m = LoopPending m' /\
       RemoteControllerUDP.running (self m') = true) /\
  (forall ios m,
     (exists m', RemoteControllerUDP.update ios m = LoopExited m') <->
     RemoteControllerUDP.running (self m) = false) /\
  (forall ios m e m', RemoteControllerUDP.update ios m <> LoopCrashed e m').
Proof.
  repeat apply conj.
  - intros i m. exists (TCPSummary.summary i m).
    split; [apply tcp_iteration_summary | apply tcp_summary_frame].
  - intros ios m Hr. exists (TCPSummary.after ios m).
    split; [apply tcp_update_running, Hr|].
    destruct (tcp_after_frame ios m) as (_ & -> & _). exact Hr.
  - intros ios m.
    destruct (RemoteController.running (self m)) eqn:Hr.
    + rewrite tcp_update_running by exact Hr.
      split; [intros [m' [=]] | discriminate].
    + rewrite tcp_update_stopped by exact Hr. split; eauto.
  - intros ios m e m'.
    destruct (RemoteController.running (self m)) eqn:Hr.
    + rewrite tcp_update_running by exact Hr. discriminate.
    + rewrite tcp_update_stopped by exact Hr. discriminate.
  - intros i m. exists (UDPSummary.summary i m).
    split; [apply udp_iteration_summary | apply udp_summary_frame].
  - intros ios m Hr. exists (UDPSummary.after ios m).
    split; [apply udp_update_running, Hr|].
    destruct (udp_after_frame ios m) as (_ & -> & _). exact Hr.
  - intros ios m.
    destruct (RemoteControllerUDP.running (self m)) eqn:Hr.
    + rewrite udp_update_running by exact Hr.
      split; [intros [m' [=]] | discriminate].
    + rewrite udp_update_stopped by exact Hr. split; eauto.
  - intros ios m e m'.
    destruct (RemoteControllerUDP.running (self m)) eqn:Hr.
    + rewrite udp_update_running by exact Hr. discriminate.
    + rewrite udp_update_stopped by exact Hr. discriminate.
Qed.

(** C10 (amended). For both receivers [shutdown] returns normally in a
    state whose steering and throttle are 0.0 and whose running flag is
    false; there [run_threaded] returns (0.0, 0.0) at every time, and so it
    does after the [update] loop has met that state.  With [update] on its
    worker thread, [shutdown] and the worker's stretches between blocking
    calls interleaving in any order, every [run_threaded] after [shutdown]
    returns (0.0, 0.0) at every time provided the call that the worker has
    in flight when [shutdown] runs stores no command: the worker is at the
    loop test or out of the loop, or its [accept] raised, or its read
    raised, found the peer gone, or brought a payload rejected no later
    than its steering field. *)
Theorem C10_shutdown_neutral :
  (forall m, exists m',
     RemoteController.shutdown m = (Ok tt, m') /\
     RemoteController.running (self m') = false /\
     RemoteController.steering (self m') = 0%float /\
     RemoteController.throttle (self m') = 0%float /\
     (forall now,
        RemoteController.run_threaded now (self m') = (0%float, 0%float)) /\
     (forall ios now,
        RemoteController.run_threaded now
          (self (final (RemoteController.update ios m'))) = (0%float, 0%float))) /\
  (forall m, exists m',
     RemoteControllerUDP.shutdown m = (Ok tt, m') /\
     RemoteControllerUDP.running (self m') = false /\
     RemoteControllerUDP.steering (self m') = 0%float /\
     RemoteControllerUDP.throttle (self m') = 0%float /\
     (forall now,
        RemoteControllerUDP.run_threaded now (self m') = (0%float, 0%float)) /\
     (forall ios now,
        RemoteControllerUDP.run_threaded now
          (self (final (RemoteControllerUDP.update ios m'))) = (0%float, 0%float))) /\
  (forall S acts now,
     TCPThreads.settled (TCPThreads.work S) = true ->
     RemoteController.run_threaded now
       (self (TCPThreads.mach
                (TCPThreads.run acts (TCPThreads.step TCPThreads.Shutdown S)))) =
       (0%float, 0%float)) /\
  (forall S acts now,
     UDPThreads.settled (UDPThreads.work S) = true ->
     RemoteControllerUDP.run_threaded now
       (self (UDPThreads.mach
                (UDPThreads.run acts (UDPThreads.step UDPThreads.Shutdown S)))) =
       (0%float, 0%float)).
Proof.
  repeat apply conj.
  - intros m. eexists. split; [apply tcp_shutdown_eq|]. repeat split.
    + intros now. apply tcp_run_threaded_zero; reflexivity.
    + intros ios now. rewrite tcp_update_stopped by reflexivity.
      apply tcp_run_threaded_zero; reflexivity.
  - intros m. eexists. split; [apply udp_shutdown_eq|]. repeat split.
    + intros now. apply udp_run_threaded_zero; reflexivity.
    + intros ios now. rewrite udp_update_stopped by reflexivity.
      apply udp_run_threaded_zero; reflexivity.
  - intros S acts now Hw.
    destruct (tcp_step_shutdown S) as (Hw' & Hself & _).
    destruct (tcp_run_neutral acts (TCPThreads.step TCPThreads.Shutdown S))
      as [Hs Ht];
      [rewrite Hself; reflexivity .. | rewrite Hw'; exact Hw |].
    apply tcp_run_threaded_zero; assumption.
  - intros S acts now Hw.
    destruct (udp_step_shutdown S) as (Hw' & Hself & _).
    destruct (udp_run_neutral acts (UDPThreads.step UDPThreads.Shutdown S))
      as [Hs Ht];
      [rewrite Hself; reflexivity .. | rewrite Hw'; exact Hw |].
    apply udp_run_threaded_zero; assumption.
Qed.


End Lifetime.

(** ** The TCP receiver: one peer at a time *)

Section SinglePeer.
Context `{PyRuntime}.
Import RemoteController TCPSummary.

(** What the handlers of [receive] add to the trace. *)
Lemma tcp_handled_events c e m :
  exists evs,
    trace (handled c e m) = evs ++ trace m /\ accepts evs = 0 /\ stamps evs = [].
Proof.
  destruct e; cbn;
    first [ exists []; repeat split; reflexivity
          | eexists [_]; repeat split; reflexivity
          | eexists [_; _]; repeat split; reflexivity ].
Qed.

Lemma tcp_receive_summary_accepts c i m :
  exists evs,
    trace (receive_summary c i m) = evs ++ trace m /\ accepts evs = 0.
Proof.
  unfold receive_summary. cbn [trace].
  destruct (recv_result i) as [e|[|b data]].
  - destruct (tcp_handled_events c e
                (Machine (self m) (open_socks m) (EvRecv c :: trace m)))
      as (evs & -> & Ha & _).
    exists (evs ++ [EvRecv c]). cbn [trace]. rewrite <- app_assoc. split; [reflexivity|].
    clear -Ha. induction evs as [|[] evs IH]; cbn in *; auto; discriminate.
  - eexists [_; _; _]. split; reflexivity.
  - destruct (parse_command (b :: data)) as [e|s e|s t].
    + destruct (tcp_handled_events c e
                  (Machine (self m) (open_socks m) (EvRecv c :: trace m)))
        as (evs & -> & Ha & _).
      exists (evs ++ [EvRecv c]). cbn [trace]. rewrite <- app_assoc. split; [reflexivity|].
      clear -Ha. induction evs as [|[] evs IH]; cbn in *; auto; discriminate.
    + destruct (tcp_handled_events c e
                  (Machine (set_steering s (self m)) (open_socks m)
                           (EvRecv c :: trace m)))
        as (evs & -> & Ha & _).
      exists (evs ++ [EvRecv c]). cbn [trace]. rewrite <- app_assoc. split; [reflexivity|].
      clear -Ha. induction evs as [|[] evs IH]; cbn in *; auto; discriminate.
    + eexists [_; _]. split; reflexivity.
Qed.

Lemma tcp_summary_accepts i m :
  exists evs,
    trace (summary i m) = evs ++ trace m /\
    accepts evs = match client_socket (self m) with None => 1 | Some _ => 0 end.
Proof.
  unfold summary. destruct (client_socket (self m)) as [c|].
  - apply tcp_receive_summary_accepts.
  - destruct (accept_result i) as [e|c].
    + exists (accept_log e ++ [EvAccept]). rewrite <- app_assoc.
      split; [reflexivity|]. destruct e; reflexivity.
    + destruct (tcp_receive_summary_accepts c i (accepted c m)) as (evs & -> & Ha).
      exists (evs ++ [EvLog INFO "Client connected"; EvAccept]).
      cbn [trace accepted]. rewrite <- app_assoc. split; [reflexivity|].
      clear -Ha. induction evs as [|[] evs IH]; cbn in *; auto; discriminate.
Qed.

(** What [receive] does to the peer and to the open descriptors. *)
Lemma tcp_handled_peer c e m :
  (self (handled c e m) = self m /\ open_socks (handled c e m) = open_socks m) \/
  handled c e m = disconnect c m.
Proof. destruct e; cbn; auto. Qed.

Lemma tcp_receive_summary_peer c i m :
  client_socket (self m) = Some c ->
  let m' := receive_summary c i m in
  (client_socket (self m') = Some c /\ open_socks m' = open_socks m /\
   server_socket (self m') = server_socket (self m)) \/
  (client_socket (self m') = None /\ open_socks m' = open_socks m ∖ {[c]} /\
   server_socket (self m') = server_socket (self m)).
Proof.
  intros Hc. cbv zeta. unfold receive_summary. cbn [trace].
  destruct (recv_result i) as [e|[|b data]];
    [| right; repeat split; reflexivity |].
  - destruct (tcp_handled_peer c e
                (Machine (self m) (open_socks m) (EvRecv c :: trace m)))
      as [[-> ->] | ->]; [left | right]; auto.
  - destruct (parse_command (b :: data)) as [e|s e|s t].
    + destruct (tcp_handled_peer c e
                  (Machine (self m) (open_socks m) (EvRecv c :: trace m)))
        as [[-> ->] | ->]; [left | right]; auto.
    + destruct (tcp_handled_peer c e
                  (Machine (set_steering s (self m)) (open_socks m)
                           (EvRecv c :: trace m)))
        as [[-> ->] | ->]; [left | right]; auto.
    + left. auto.
Qed.

Lemma tcp_receive_summary_single_peer c i m :
  client_socket (self m) = Some c ->
  single_peer m -> single_peer (receive_summary c i m).
Proof.
  intros Hc. unfold single_peer, peers. rewrite Hc. intros Hp.
  destruct (tcp_receive_summary_peer c i m Hc) as [(-> & -> & ->) | (-> & -> & ->)];
    set_solver.
Qed.

Lemma tcp_summary_single_peer i m :
  single_peer m -> single_peer (summary i m).
Proof.
  destruct (client_socket (self m)) as [c|] eqn:Hc.
  - rewrite (tcp_summary_connected c) by exact Hc.
    apply tcp_receive_summary_single_peer, Hc.
  - destruct (accept_result i) as [e|c] eqn:Ha.
    + rewrite (tcp_summary_not_accepted e) by assumption.
      unfold single_peer, peers. cbn. rewrite Hc. auto.
    + rewrite (tcp_summary_accepted c) by assumption. intros Hp.
      apply tcp_receive_summary_single_peer; [reflexivity|].
      revert Hp. unfold single_peer, peers. rewrite Hc. cbn. set_solver.
Qed.

Lemma tcp_after_single_peer ios m :
  single_peer m -> single_peer (after ios m).
Proof.
  revert m. induction ios as [|i ios IH]; intros m Hp; [exact Hp|].
  apply (IH (summary i m)), tcp_summary_single_peer, Hp.
Qed.

Lemma tcp_single_peer_size m : single_peer m -> size (peers m) <= 1.
Proof.
  unfold single_peer. destruct (client_socket (self m)) as [c|].
  - intros Hp. apply subseteq_size in Hp. rewrite size_singleton in Hp. exact Hp.
  - intros ->. rewrite size_empty. lia.
Qed.

(** C6. In the TCP receiver a loop iteration calls [accept] once when
    [client_socket] is [None] and not at all when a peer is connected.  At
    most one peer descriptor is open: this holds after the constructor and
    is kept by every iteration and by the whole loop.  While peer [c] is
    connected, an iteration ends either with [c] still the peer or with no
    peer and [c] closed, never with another peer. *)
Theorem C6_single_peer :
  (forall i m, exists evs,
     trace (snd (iteration i m)) = evs ++ trace m /\
     accepts evs = match client_socket (self m) with None => 1 | Some _ => 0 end) /\
  (forall host port srv clock, single_peer (init host port srv clock)) /\
  (forall i m, single_peer m -> single_peer (snd (iteration i m))) /\
  (forall ios m, single_peer m -> single_peer (final (update ios m))) /\
  (forall m, single_peer m -> size (peers m) <= 1) /\
  (forall i m c,
     client_socket (self m) = Some c ->
     let m' := snd (iteration i m) in
     client_socket (self m') = Some c \/
     (client_socket (self m') = None /\ c ∉ open_socks m')).
Proof.
  repeat apply conj.
  - intros i m. rewrite tcp_iteration_summary. apply tcp_summary_accepts.
  - intros host port srv clock. unfold single_peer, peers. cbn. set_solver.
  - intros i m. rewrite tcp_iteration_summary. apply tcp_summary_single_peer.
  - intros ios m Hp. destruct (running (self m)) eqn:Hr.
    + rewrite tcp_update_running by exact Hr. apply tcp_after_single_peer, Hp.
    + rewrite tcp_update_stopped by exact Hr. exact Hp.
  - apply tcp_single_peer_size.
  - intros i m c Hc. cbv zeta. rewrite tcp_iteration_summary. cbn [snd].
    rewrite (tcp_summary_connected c) by exact Hc.
    destruct (tcp_receive_summary_peer c i m Hc) as [(-> & _) | (-> & -> & _)];
      [left; reflexivity | right; split; [reflexivity | set_solver]].
Qed.

End SinglePeer.

(** ** The time of the last command *)

Section Monotone.

#[local] Instance float_le_trans : Transitive float_le.
Proof. intros x y z. apply leb_trans. Qed.

Lemma stamps_app evs1 evs2 : stamps (evs1 ++ evs2) = stamps evs1 ++ stamps evs2.
Proof.
  induction evs1 as [|[] evs1 IH]; cbn; auto. rewrite IH. reflexivity.
Qed.

Lemma udp_log_of_stamps e : stamps (UDPSummary.log_of e) = [].
Proof. destruct e; reflexivity. Qed.

Lemma StronglySorted_app_le (l1 l2 : list float) x :
  StronglySorted float_le (l1 ++ l2) -> x ∈ l1 -> Forall (float_le x) l2.
Proof.
  induction l1 as [|a l1 IH]; cbn; intros Hs Hx; [inversion Hx|].
  apply StronglySorted_inv in Hs as [Hs Ha].
  apply elem_of_cons in Hx as [-> | Hx]; [|exact (IH Hs Hx)].
  apply Forall_app in Ha. apply Ha.
Qed.

(** A cell that each step either keeps or overwrites with the step's clock
    reading never decreases along non-decreasing readings. *)
Context {A B : Type} (step : A -> B -> B) (ck : A -> float) (tm : B -> float).
Hypothesis step_cases :
  forall a b, tm (step a b) = tm b \/ tm (step a b) = ck a.

Let steps (l : list A) (b : B) : B := fold_left (fun b a => step a b) l b.

Lemma steps_cases l b : tm (steps l b) = tm b \/ tm (steps l b) ∈ map ck l.
Proof using step_cases.
  revert b. induction l as [|a l IH]; intros b; [left; reflexivity|].
  change (steps (a :: l) b) with (steps l (step a b)).
  destruct (IH (step a b)) as [-> | Hin].
  - destruct (step_cases a b) as [-> | ->]; [left; reflexivity|].
    right. cbn. apply elem_of_cons. left. reflexivity.
  - right. cbn. apply elem_of_cons. right. exact Hin.
Qed.

Lemma steps_monotone l b :
  float_le (tm b) (tm b) ->
  Sorted float_le (tm b :: map ck l) ->
  forall l1 l2, l = l1 ++ l2 ->
    float_le (tm (steps l1 b)) (tm (steps l b)).
Proof using step_cases.
  intros Hrefl Hs l1 l2 ->.
  apply Sorted_StronglySorted in Hs; [|exact float_le_trans].
  apply StronglySorted_inv in Hs as [Hs Hb].
  rewrite map_app in Hs, Hb.
  unfold steps. rewrite fold_left_app. fold (steps l1 b).
  fold (steps l2 (steps l1 b)).
  assert (Hl2 : Forall (float_le (tm (steps l1 b))) (map ck l2)).
  { destruct (steps_cases l1 b) as [-> | Hin].
    - apply Forall_app in Hb. apply Hb.
    - exact (StronglySorted_app_le _ _ _ Hs Hin). }
  assert (Hr1 : float_le (tm (steps l1 b)) (tm (steps l1 b))).
  { destruct (steps_cases l1 b) as [-> | Hin]; [exact Hrefl|].
    apply Forall_app in Hb as [Hb _].
    rewrite Forall_forall in Hb. exact (leb_refl_r _ _ (Hb _ Hin)). }
  destruct (steps_cases l2 (steps l1 b)) as [-> | Hin]; [exact Hr1|].
  rewrite Forall_forall in Hl2. exact (Hl2 _ Hin).
Qed.

End Monotone.

Section Timestamp.
Context `{PyRuntime}.

Lemma tcp_handled_time c e m :
  RemoteController.last_command_time (self (TCPSummary.handled c e m)) =
  RemoteController.last_command_time (self m).
Proof. destruct e; reflexivity. Qed.

(** One iteration of [receive]: a stamp exactly when a command is parsed. *)
Lemma tcp_receive_summary_stamp c i m :
  let m' := TCPSummary.receive_summary c i m in
  exists evs,
    trace m' = evs ++ trace m /\
    match RemoteController.recv_result i with
    | inr (b :: data) =>
        match parse_command (b :: data) with
        | Accepted _ _ =>
            stamps evs = [RemoteController.clock i] /\
            RemoteController.last_command_time (self m') = RemoteController.clock i
        | _ =>
            stamps evs = [] /\
            RemoteController.last_command_time (self m') =
              RemoteController.last_command_time (self m)
        end
    | _ =>
        stamps evs = [] /\
        RemoteController.last_command_time (self m') =
          RemoteController.last_command_time (self m)
    end.
Proof.
  cbv zeta. unfold TCPSummary.receive_summary. cbn [trace].
  destruct (RemoteController.recv_result i) as [e|[|b data]].
  - destruct (tcp_handled_events c e
                (Machine (self m) (open_socks m) (EvRecv c :: trace m)))
      as (evs & Ht & _ & Hs).
    exists (evs ++ [EvRecv c]). rewrite Ht, tcp_handled_time. cbn [trace self].
    rewrite <- app_assoc, stamps_app, Hs. auto.
  - eexists [_; _; _]. repeat split; reflexivity.
  - destruct (parse_command (b :: data)) as [e|s e|s t].
    + destruct (tcp_handled_events c e
                  (Machine (self m) (open_socks m) (EvRecv c :: trace m)))
        as (evs & Ht & _ & Hs).
      exists (evs ++ [EvRecv c]). rewrite Ht, tcp_handled_time. cbn [trace self].
      rewrite <- app_assoc, stamps_app, Hs. auto.
    + destruct (tcp_handled_events c e
                  (Machine (RemoteController.set_steering s (self m))
                           (open_socks m) (EvRecv c :: trace m)))
        as (evs & Ht & _ & Hs).
      exists (evs ++ [EvRecv c]). rewrite Ht, tcp_handled_time. cbn [trace self].
      rewrite <- app_assoc, stamps_app, Hs. auto.
    + eexists [_; _]. repeat split; reflexivity.
Qed.

Lemma tcp_summary_stamp i m :
  let m' := TCPSummary.summary i m in
  exists evs,
    trace m' = evs ++ trace m /\
    match TCPSummary.parsed i m with
    | Some _ =>
        stamps evs = [RemoteController.clock i] /\
        RemoteController.last_command_time (self m') = RemoteController.clock i
    | None =>
        stamps evs = [] /\
        RemoteController.last_command_time (self m') =
          RemoteController.last_command_time (self m)
    end.
Proof.
  cbv zeta. unfold TCPSummary.parsed, TCPSummary.received, TCPSummary.summary.
  destruct (RemoteController.client_socket (self m)) as [c|].
  - destruct (tcp_receive_summary_stamp c i m) as (evs & Ht & Hs).
    exists evs. split; [exact Ht|].
    destruct (RemoteController.recv_result i) as [e|[|b data]]; try exact Hs.
    destruct (parse_command (b :: data)); exact Hs.
  - destruct (RemoteController.accept_result i) as [e|c].
    + exists (TCPSummary.accept_log e ++ [EvAccept]). rewrite <- app_assoc.
      split; [reflexivity|]. destruct e; split; reflexivity.
    + destruct (tcp_receive_summary_stamp c i (TCPSummary.accepted c m))
        as (evs & Ht & Hs).
      exists (evs ++ [EvLog INFO "Client connected"; EvAccept]).
      rewrite Ht, <- app_assoc, stamps_app, app_nil_r.
      split; [reflexivity|].
      destruct (RemoteController.recv_result i) as [e|[|b data]]; try exact Hs.
      destruct (parse_command (b :: data)); exact Hs.
Qed.

Lemma udp_summary_stamp i m :
  let m' := UDPSummary.summary i m in
  exists evs,
    trace m' = evs ++ trace m /\
    match UDPSummary.parsed i with
    | Some _ =>
        stamps evs = [RemoteControllerUDP.clock i] /\
        RemoteControllerUDP.last_command_time (self m') = RemoteControllerUDP.clock i
    | None =>
        stamps evs = [] /\
        RemoteControllerUDP.last_command_time (self m') =
          RemoteControllerUDP.last_command_time (self m)
    end.
Proof.
  cbv zeta. unfold UDPSummary.parsed, UDPSummary.received, UDPSummary.summary.
  destruct (RemoteControllerUDP.recvfrom_result i) as [e|data].
  - exists (UDPSummary.log_of e ++ [EvRecv (RemoteControllerUDP.socket (self m))]).
    cbn [trace self]. rewrite <- app_assoc, stamps_app, udp_log_of_stamps. auto.
  - destruct (parse_command data) as [e|s e|s t].
    + exists (UDPSummary.log_of e ++ [EvRecv (RemoteControllerUDP.socket (self m))]).
      cbn [trace self]. rewrite <- app_assoc, stamps_app, udp_log_of_stamps. auto.
    + exists (UDPSummary.log_of e ++ [EvRecv (RemoteControllerUDP.socket (self m))]).
      cbn [trace self]. rewrite <- app_assoc, stamps_app, udp_log_of_stamps. auto.
    + eexists [_; _]. repeat split; reflexivity.
Qed.

Lemma tcp_summary_time_cases i m :
  RemoteController.last_command_time (self (TCPSummary.summary i m)) =
    RemoteController.last_command_time (self m) \/
  RemoteController.last_command_time (self (TCPSummary.summary i m)) =
    RemoteController.clock i.
Proof.
  destruct (tcp_summary_stamp i m) as (evs & _ & Hs).
  destruct (TCPSummary.parsed i m); destruct Hs as [_ ->]; auto.
Qed.

Lemma udp_summary_time_cases i m :
  RemoteControllerUDP.last_command_time (self (UDPSummary.summary i m)) =
    RemoteControllerUDP.last_command_time (self m) \/
  RemoteControllerUDP.last_command_time (self (UDPSummary.summary i m)) =
    RemoteControllerUDP.clock i.
Proof.
  destruct (udp_summary_stamp i m) as (evs & _ & Hs).
  destruct (UDPSummary.parsed i); destruct Hs as [_ ->]; auto.
Qed.

(** C4 (amended). In both receivers an iteration writes
    [last_command_time] once, with the clock reading of that iteration,
    when it parses a command with success, and does not write it
    otherwise: not on a receive timeout, not when the peer is gone, not on
    a payload that fails to parse.  Provided the readings of [time.time()]
    do not decrease from one iteration to the next (the first one no
    earlier than the time stored when the loop starts),
    [last_command_time] does not decrease from any iteration of [update]
    to any later one. *)
Theorem C4_last_command_time :
  (forall i m, exists evs,
     let m' := snd (RemoteController.iteration i m) in
     trace m' = evs ++ trace m /\
     match TCPSummary.parsed i m with
     | Some _ =>
         stamps evs = [RemoteController.clock i] /\
         RemoteController.last_command_time (self m') = RemoteController.clock i
     | None =>
         stamps evs = [] /\
         RemoteController.last_command_time (self m') =
           RemoteController.last_command_time (self m)
     end) /\
  (forall i m,
     RemoteController.recv_result i = inl socket_timeout \/
     TCPSummary.peer_gone (RemoteController.recv_result i) \/
     (forall data s t,
        TCPSummary.received i m = Some data ->
        parse_command data <> Accepted s t) ->
     TCPSummary.parsed i m = None) /\
  (forall ios m,
     float_le (RemoteController.last_command_time (self m))
              (RemoteController.last_command_time (self m)) ->
     Sorted float_le
       (RemoteController.last_command_time (self m) ::
        map RemoteController.clock ios) ->
     forall ios1 ios2, ios = ios1 ++ ios2 ->
       float_le
         (RemoteController.last_command_time
            (self (final (RemoteController.update ios1 m))))
         (RemoteController.last_command_time
            (self (final (RemoteController.update ios m))))) /\
  (forall i m, exists evs,
     let m' := snd (RemoteControllerUDP.iteration i m) in
     trace m' = evs ++ trace m /\
     match UDPSummary.parsed i with
     | Some _ =>
         stamps evs = [RemoteControllerUDP.clock i] /\
         RemoteControllerUDP.last_command_time (self m') =
           RemoteControllerUDP.clock i
     | None =>
         stamps evs = [] /\
         RemoteControllerUDP.last_command_time (self m') =
           RemoteControllerUDP.last_command_time (self m)
     end) /\
  (forall i,
     RemoteControllerUDP.recvfrom_result i = inl socket_timeout \/
     (forall data s t,
        UDPSummary.received i = Some data ->
        parse_command data <> Accepted s t) ->
     UDPSummary.parsed i = None) /\
  (forall ios m,
     float_le (RemoteControllerUDP.last_command_time (self m))
              (RemoteControllerUDP.last_command_time (self m)) ->
     Sorted float_le
       (RemoteControllerUDP.last_command_time (self m) ::
        map RemoteControllerUDP.clock ios) ->
     forall ios1 ios2, ios = ios1 ++ ios2 ->
       float_le
         (RemoteControllerUDP.last_command_time
            (self (final (RemoteControllerUDP.update ios1 m))))
         (RemoteControllerUDP.last_command_time
            (self (final (RemoteControllerUDP.update ios m))))).
Proof.
  repeat apply conj.
  - intros i m. rewrite tcp_iteration_summary. apply tcp_summary_stamp.
  - intros i m Hcase. unfold TCPSummary.parsed.
    destruct (TCPSummary.received i m) as [data|] eqn:Hrec; [|reflexivity].
    destruct (parse_command data) as [e|s e|s t] eqn:Hpc; try reflexivity.
    exfalso. destruct Hcase as [Hr | [[Hr | [Hr | Hr]] | Hp]];
      [| | | | exact (Hp data s t eq_refl Hpc)];
      unfold TCPSummary.received in Hrec; rewrite Hr in Hrec;
      destruct (RemoteController.client_socket (self m));
      [|destruct (RemoteController.accept_result i)| |
        destruct (RemoteController.accept_result i)| |
        destruct (RemoteController.accept_result i)| |
        destruct (RemoteController.accept_result i)]; discriminate.
  - intros ios m Hrefl Hs ios1 ios2 Hios.
    destruct (RemoteController.running (self m)) eqn:Hr.
    + rewrite !tcp_update_running by exact Hr. cbn [final].
      exact (steps_monotone (fun i m => TCPSummary.summary i m)
               RemoteController.clock
               (fun m => RemoteController.last_command_time (self m))
               tcp_summary_time_cases ios m Hrefl Hs ios1 ios2 Hios).
    + rewrite !tcp_update_stopped by exact Hr. exact Hrefl.
  - intros i m. rewrite udp_iteration_summary. apply udp_summary_stamp.
  - intros i Hcase. unfold UDPSummary.parsed.
    destruct (UDPSummary.received i) as [data|] eqn:Hrec; [|reflexivity].
    destruct (parse_command data) as [e|s e|s t] eqn:Hpc; try reflexivity.
    exfalso. destruct Hcase as [Hr | Hp]; [|exact (Hp data s t eq_refl Hpc)].
    unfold UDPSummary.received in Hrec. rewrite Hr in Hrec. discriminate.
  - intros ios m Hrefl Hs ios1 ios2 Hios.
    destruct (RemoteControllerUDP.running (self m)) eqn:Hr.
    + rewrite !udp_update_running by exact Hr. cbn [final].
      exact (steps_monotone (fun i m => UDPSummary.summary i m)
               RemoteControllerUDP.clock
               (fun m => RemoteControllerUDP.last_command_time (self m))
               udp_summary_time_cases ios m Hrefl Hs ios1 ios2 Hios).
    + rewrite !udp_update_stopped by exact Hr. exact Hrefl.
Qed.

End Timestamp.

(** ** Integers as floats *)

Section IntegersAsFloats.
Local Open Scope Z_scope.

Lemma digits2_pos_iter p k :
  digits2_pos (Pos.iter xO p k) = (digits2_pos p + k)%positive.
Proof.
  induction k as [|k IH] using Pos.peano_ind.
  - cbn. rewrite Pos.add_1_r. reflexivity.
  - rewrite Pos.iter_succ. cbn. rewrite IH, Pos.add_succ_r. reflexivity.
Qed.

Lemma Zpos_iter_xO p k : Zpos (Pos.iter xO p k) = Zpos p * 2 ^ Zpos k.
Proof.
  induction k as [|k IH] using Pos.peano_ind.
  - cbn. lia.
  - rewrite Pos.iter_succ, Pos2Z.inj_succ, Z.pow_succ_r by lia.
    rewrite Pos2Z.inj_xO, IH. lia.
Qed.

Lemma digits2_pos_bound p (n : nat) :
  Zpos p < 2 ^ Z.of_nat n -> Zpos (digits2_pos p) <= Z.of_nat n.
Proof.
  revert n. induction p as [p IH|p IH|]; intros n Hp.
  - destruct n as [|n]; [cbn in Hp; lia|].
    rewrite Nat2Z.inj_succ, Z.pow_succ_r in Hp by lia.
    cbn [digits2_pos]. rewrite Pos2Z.inj_succ, Nat2Z.inj_succ.
    specialize (IH n). lia.
  - destruct n as [|n]; [cbn in Hp; lia|].
    rewrite Nat2Z.inj_succ, Z.pow_succ_r in Hp by lia.
    cbn [digits2_pos]. rewrite Pos2Z.inj_succ, Nat2Z.inj_succ.
    specialize (IH n). lia.
  - destruct n as [|n]; [cbn in Hp; lia|]. cbn [digits2_pos]. lia.
Qed.

(** A mantissa of 53 bits with an exponent in range is not rounded. *)
Lemma binary_round_aux_exact s p e :
  digits2_pos p = 53%positive -> -52 <= e <= 0 ->
  binary_round_aux prec emax s (Zpos p) e loc_Exact = S754_finite s p e /\
  valid_binary (S754_finite s p e) = true.
Proof.
  intros Hd53 He.
  assert (Hmax : Z.max (53 + e - prec) (3 - emax - prec) = e).
  { unfold prec, emax. lia. }
  assert (Hle : (e <=? emax - prec) = true)
    by (apply Z.leb_le; unfold emax, prec; lia).
  split.
  - unfold binary_round_aux, shr_fexp, Zdigits2, fexp, SpecFloat.emin.
    rewrite Hd53, Hmax, Z.sub_diag.
    cbn [shr shr_record_of_loc shr_m loc_of_shr_record round_nearest_even
         Zdigits2].
    rewrite Hd53, Hmax, Z.sub_diag. cbn [shr shr_record_of_loc shr_m].
    rewrite Hle. reflexivity.
  - unfold SpecFloat.valid_binary, bounded, canonical_mantissa, fexp,
      SpecFloat.emin.
    rewrite Hd53, Hmax, Z.eqb_refl, Hle. reflexivity.
Qed.

(** Rounding a mantissa of at most 53 bits only shifts it. *)
Lemma binary_round_small s p :
  Zpos p < 2 ^ 53 ->
  exists m e,
    binary_round prec emax s p 0 = S754_finite s m e /\
    valid_binary (S754_finite s m e) = true /\
    e <= 0 /\ Zpos m = Zpos p * 2 ^ (- e).
Proof.
  intros Hp.
  assert (Hd : Zpos (digits2_pos p) <= 53)
    by exact (digits2_pos_bound p 53 Hp).
  unfold binary_round, shl_align.
  assert (Hfexp : fexp prec emax (Zpos (digits2_pos p) + 0) =
                  Zpos (digits2_pos p) - 53).
  { unfold fexp, SpecFloat.emin, prec, emax. lia. }
  rewrite Hfexp, Z.sub_0_r.
  destruct (Zpos (digits2_pos p) - 53) as [|q|k] eqn:E; [| lia |].
  - exists p, 0.
    assert (Hd53 : digits2_pos p = 53%positive) by lia.
    destruct (binary_round_aux_exact s p 0 Hd53) as [Hr Hv]; [lia|].
    split; [exact Hr|]. split; [exact Hv|]. split; lia.
  - exists (Pos.iter xO p k), (Z.neg k).
    assert (Hd53 : digits2_pos (Pos.iter xO p k) = 53%positive).
    { rewrite digits2_pos_iter. lia. }
    destruct (binary_round_aux_exact s (Pos.iter xO p k) (Z.neg k) Hd53)
      as [Hr Hv]; [lia|].
    split; [exact Hr|]. split; [exact Hv|].
    split; [lia|]. rewrite Zpos_iter_xO. reflexivity.
Qed.

Lemma is_infinity_finite s m e :
  valid_binary (S754_finite s m e) = true ->
  is_infinity (SF2Prim (S754_finite s m e)) = false.
Proof.
  intros Hv. unfold is_infinity.
  rewrite FloatAxioms.eqb_spec, abs_spec, (Prim2SF_SF2Prim _ Hv).
  reflexivity.
Qed.

(** [float(z)] is [z] itself for an integer of magnitude below 2^53. *)
Lemma float_of_int_exact z :
  Z.abs z < 2 ^ 53 ->
  exists f, float_of_int z = Ok f /\ float_as_int f = Some z.
Proof.
  intros Hz. unfold float_of_int, float_as_int.
  destruct z as [|p|p]; cbn [binary_normalize].
  - exists 0%float. split; reflexivity.
  - destruct (binary_round_small false p Hz) as (m & e & -> & Hv & He & Hm).
    rewrite (is_infinity_finite _ _ _ Hv). eexists. split; [reflexivity|].
    rewrite (Prim2SF_SF2Prim _ Hv).
    destruct (0 <=? e) eqn:E0.
    + apply Z.leb_le in E0. assert (e = 0) by lia. subst e.
      cbn in Hm |- *. f_equal. lia.
    + apply Z.leb_gt in E0. rewrite Hm, Z.mod_mul, Z.eqb_refl by lia.
      rewrite Z.div_mul by lia. reflexivity.
  - destruct (binary_round_small true p Hz) as (m & e & -> & Hv & He & Hm).
    rewrite (is_infinity_finite _ _ _ Hv). eexists. split; [reflexivity|].
    rewrite (Prim2SF_SF2Prim _ Hv).
    destruct (0 <=? e) eqn:E0.
    + apply Z.leb_le in E0. assert (e = 0) by lia. subst e.
      cbn in Hm |- *. f_equal. lia.
    + apply Z.leb_gt in E0. rewrite Hm, Z.mod_mul, Z.eqb_refl by lia.
      rewrite Z.div_mul by lia. reflexivity.
Qed.

(** The float that the parser makes of such a field is the field's
    numeric value. *)
Lemma exact_number_value d key :
  exact_number (d !! key) = true ->
  exists f, field_value d key f /\ numeric_value (d !! key) f.
Proof.
  unfold exact_number, field_value, numeric_value.
  destruct (d !! key) as [[| |z|x| | |]|]; try discriminate.
  - intros Hz. apply Z.ltb_lt in Hz. apply float_of_int_exact, Hz.
  - eauto.
  - eauto.
Qed.

End IntegersAsFloats.

(** ** The parsed command *)

Section Parsing.
Context `{PyRuntime}.

Lemma field_value_float d key f :
  field_value d key f ->
  exists v, py_get (PyDict d) key (PyFloat 0%float) = Ok v /\ py_float v = Ok f.
Proof.
  unfold field_value, py_get. destruct (d !! key) as [[]|]; try contradiction.
  - intros Hz. eauto.
  - intros ->. eauto.
  - intros ->. eauto.
Qed.

Lemma parse_command_object data d s t :
  json_loads data = inr (PyDict d) ->
  field_value d "steering" s -> field_value d "throttle" t ->
  parse_command data = Accepted s t.
Proof.
  intros Hl (sv & Hgs & Hfs)%field_value_float (tv & Hgt & Hft)%field_value_float.
  unfold parse_command. rewrite Hl, Hgs, Hfs, Hgt, Hft. reflexivity.
Qed.

(** Only the two recognised fields of an object matter. *)
Lemma parse_command_fields data data' d d' :
  json_loads data = inr (PyDict d) ->
  json_loads data' = inr (PyDict d') ->
  d !! "steering" = d' !! "steering" ->
  d !! "throttle" = d' !! "throttle" ->
  parse_command data = parse_command data'.
Proof.
  intros Hl Hl' Hs Ht. unfold parse_command, py_get.
  rewrite Hl, Hl', Hs, Ht. reflexivity.
Qed.

(** The payload shapes behind the outcomes of the parser. *)
Lemma parse_command_undecodable data de :
  json_loads data = inl de ->
  parse_command data = Rejected (exn_of_decode_error de).
Proof. intros Hl. unfold parse_command. rewrite Hl. reflexivity. Qed.

Lemma parse_command_not_object data v :
  json_loads data = inr v -> (forall d, v <> PyDict d) ->
  parse_command data = Rejected AttributeError.
Proof.
  intros Hl Hv. unfold parse_command. rewrite Hl.
  destruct v; try reflexivity. destruct (Hv d eq_refl).
Qed.

Lemma parse_command_bad_steering data d sv e :
  json_loads data = inr (PyDict d) ->
  d !! "steering" = Some sv -> py_float sv = Raised e ->
  parse_command data = Rejected e.
Proof.
  intros Hl Hs Hf. unfold parse_command, py_get. rewrite Hl, Hs, Hf. reflexivity.
Qed.

Lemma parse_command_bad_throttle data d s tv e :
  json_loads data = inr (PyDict d) ->
  field_value d "steering" s ->
  d !! "throttle" = Some tv -> py_float tv = Raised e ->
  parse_command data = SteeringOnly s e.
Proof.
  intros Hl (sv & Hgs & Hfs)%field_value_float Ht Hf.
  unfold parse_command. rewrite Hl, Hgs, Hfs. unfold py_get.
  rewrite Ht, Hf. reflexivity.
Qed.

(** The exceptions of the parser are none of the peer's. *)
Lemma tcp_handled_parse_exn c e m :
  parse_exn e ->
  TCPSummary.handled c e m =
    Machine (self m) (open_socks m) (TCPSummary.log_of e ++ trace m).
Proof.
  intros He. repeat destruct He as [He|He]; subst e; reflexivity.
Qed.

(** The object after an iteration that read the payload [data]. *)
Lemma tcp_summary_received i m data :
  TCPSummary.received i m = Some data ->
  exists c m0,
    TCPSummary.summary i m = TCPSummary.receive_summary c i m0 /\
    RemoteController.recv_result i = inr data /\ data <> [] /\
    RemoteController.steering (self m0) = RemoteController.steering (self m) /\
    RemoteController.throttle (self m0) = RemoteController.throttle (self m) /\
    RemoteController.last_command_time (self m0) =
      RemoteController.last_command_time (self m).
Proof.
  unfold TCPSummary.received, TCPSummary.summary.
  destruct (RemoteController.client_socket (self m)) as [c|].
  - destruct (RemoteController.recv_result i) as [e|[|b data']]; try discriminate.
    intros [= <-]. exists c, m. repeat split; auto; discriminate.
  - destruct (RemoteController.accept_result i) as [e|c]; try discriminate.
    destruct (RemoteController.recv_result i) as [e|[|b data']]; try discriminate.
    intros [= <-]. exists c, (TCPSummary.accepted c m).
    repeat split; auto; discriminate.
Qed.

Lemma tcp_receive_summary_outcome c i m data :
  RemoteController.recv_result i = inr data -> data <> [] ->
  let m' := TCPSummary.receive_summary c i m in
  match parse_command data with
  | Rejected _ =>
      RemoteController.steering (self m') = RemoteController.steering (self m) /\
      RemoteController.throttle (self m') = RemoteController.throttle (self m) /\
      RemoteController.last_command_time (self m') =
        RemoteController.last_command_time (self m)
  | SteeringOnly s _ =>
      RemoteController.steering (self m') = s /\
      RemoteController.throttle (self m') = RemoteController.throttle (self m) /\
      RemoteController.last_command_time (self m') =
        RemoteController.last_command_time (self m)
  | Accepted s t =>
      RemoteController.steering (self m') = s /\
      RemoteController.throttle (self m') = t /\
      RemoteController.last_command_time (self m') = RemoteController.clock i
  end.
Proof.
  intros Hr Hne. cbv zeta. unfold TCPSummary.receive_summary. rewrite Hr.
  destruct data as [|b data]; [destruct (Hne eq_refl)|].
  destruct (parse_command (b :: data)) as [e|s e|s t] eqn:Hp.
  - rewrite tcp_handled_parse_exn by exact (parse_command_rejected _ _ Hp).
    auto.
  - rewrite tcp_handled_parse_exn by exact (parse_command_steering_only _ _ _ Hp).
    auto.
  - auto.
Qed.

Lemma udp_summary_outcome i m data :
  RemoteControllerUDP.recvfrom_result i = inr data ->
  let m' := UDPSummary.summary i m in
  match parse_command data with
  | Rejected _ =>
      RemoteControllerUDP.steering (self m') = RemoteControllerUDP.steering (self m) /\
      RemoteControllerUDP.throttle (self m') = RemoteControllerUDP.throttle (self m) /\
      RemoteControllerUDP.last_command_time (self m') =
        RemoteControllerUDP.last_command_time (self m)
  | SteeringOnly s _ =>
      RemoteControllerUDP.steering (self m') = s /\
      RemoteControllerUDP.throttle (self m') = RemoteControllerUDP.throttle (self m) /\
      RemoteControllerUDP.last_command_time (self m') =
        RemoteControllerUDP.last_command_time (self m)
  | Accepted s t =>
      RemoteControllerUDP.steering (self m') = s /\
      RemoteControllerUDP.throttle (self m') = t /\
      RemoteControllerUDP.last_command_time (self m') = RemoteControllerUDP.clock i
  end.
Proof.
  intros Hr. cbv zeta. unfold UDPSummary.summary. rewrite Hr.
  destruct (parse_command data); auto.
Qed.

End Parsing.

Section Commands.
Context `{PyRuntime}.

(** C8 (amended). When the payload an iteration reads decodes to a JSON
    object whose [steering] and [throttle] fields are each absent, a float,
    or an integer of magnitude below 2^53, the iteration stores as steering
    the numeric value of [steering], 0.0 when the field is absent, and
    likewise for throttle, and stamps the command with the iteration's
    clock reading.  The other fields of the object do not matter: two
    payloads that decode to objects with the same [steering] and
    [throttle] entries parse alike and leave the receiver in the same
    state. *)
Theorem C8_parsed_command :
  (forall i m data d,
     TCPSummary.received i m = Some data ->
     json_loads data = inr (PyDict d) ->
     exact_number (d !! "steering") = true ->
     exact_number (d !! "throttle") = true ->
     let m' := snd (RemoteController.iteration i m) in
     numeric_value (d !! "steering") (RemoteController.steering (self m')) /\
     numeric_value (d !! "throttle") (RemoteController.throttle (self m')) /\
     RemoteController.last_command_time (self m') = RemoteController.clock i) /\
  (forall i m data d,
     UDPSummary.received i = Some data ->
     json_loads data = inr (PyDict d) ->
     exact_number (d !! "steering") = true ->
     exact_number (d !! "throttle") = true ->
     let m' := snd (RemoteControllerUDP.iteration i m) in
     numeric_value (d !! "steering") (RemoteControllerUDP.steering (self m')) /\
     numeric_value (d !! "throttle") (RemoteControllerUDP.throttle (self m')) /\
     RemoteControllerUDP.last_command_time (self m') = RemoteControllerUDP.clock i) /\
  (forall data data' d d',
     json_loads data = inr (PyDict d) ->
     json_loads data' = inr (PyDict d') ->
     d !! "steering" = d' !! "steering" ->
     d !! "throttle" = d' !! "throttle" ->
     parse_command data = parse_command data' /\
     (forall a clock m,
        data <> [] -> data' <> [] ->
        RemoteController.iteration (RemoteController.Io a (inr data) clock) m =
        RemoteController.iteration (RemoteController.Io a (inr data') clock) m) /\
     (forall clock m,
        RemoteControllerUDP.iteration (RemoteControllerUDP.Io (inr data) clock) m =
        RemoteControllerUDP.iteration (RemoteControllerUDP.Io (inr data') clock) m)).
Proof.
  repeat apply conj.
  - intros i m data d Hrec Hl Hs Ht. cbv zeta.
    destruct (exact_number_value d "steering" Hs) as (s & Hfs & Hns).
    destruct (exact_number_value d "throttle" Ht) as (t & Hft & Hnt).
    rewrite tcp_iteration_summary. cbn [snd].
    destruct (tcp_summary_received i m data Hrec)
      as (c & m0 & -> & Hr & Hne & _).
    pose proof (tcp_receive_summary_outcome c i m0 data Hr Hne) as Ho.
    rewrite (parse_command_object data d s t Hl Hfs Hft) in Ho.
    destruct Ho as (-> & -> & ->). auto.
  - intros i m data d Hrec Hl Hs Ht. cbv zeta.
    destruct (exact_number_value d "steering" Hs) as (s & Hfs & Hns).
    destruct (exact_number_value d "throttle" Ht) as (t & Hft & Hnt).
    rewrite udp_iteration_summary. cbn [snd].
    assert (Hr : RemoteControllerUDP.recvfrom_result i = inr data).
    { unfold UDPSummary.received in Hrec.
      destruct (RemoteControllerUDP.recvfrom_result i); congruence. }
    pose proof (udp_summary_outcome i m data Hr) as Ho.
    rewrite (parse_command_object data d s t Hl Hfs Hft) in Ho.
    destruct Ho as (-> & -> & ->). auto.
  - intros data data' d d' Hl Hl' Hs Ht.
    pose proof (parse_command_fields data data' d d' Hl Hl' Hs Ht) as Hp.
    split; [exact Hp|]. split.
    + intros a clock m Hne Hne'. rewrite !tcp_iteration_summary. f_equal.
      unfold TCPSummary.summary, TCPSummary.receive_summary.
      cbn [RemoteController.accept_result RemoteController.recv_result
           RemoteController.clock].
      destruct data as [|b data]; [destruct (Hne eq_refl)|].
      destruct data' as [|b' data']; [destruct (Hne' eq_refl)|].
      rewrite Hp. reflexivity.
    + intros clock m. rewrite !udp_iteration_summary. f_equal.
      unfold UDPSummary.summary.
      cbn [RemoteControllerUDP.recvfrom_result RemoteControllerUDP.clock].
      rewrite Hp. reflexivity.
Qed.

(** C2 (amended). When the payload an iteration reads fails to parse, the
    iteration still ends normally, the running flag is unchanged, and
    throttle and [last_command_time] are left as they were.  Steering too
    is left as it was when the failure comes no later than the conversion
    of the steering field: the payload is not valid UTF-8 or JSON, or is
    not a JSON object, or [float()] rejects its steering value. *)
Theorem C2_parse_failure :
  (forall i m data,
     TCPSummary.received i m = Some data ->
     exists m',
       RemoteController.iteration i m = (Ok tt, m') /\
       RemoteController.running (self m') = RemoteController.running (self m) /\
       (forall e,
          parse_command data = Rejected e ->
          RemoteController.steering (self m') = RemoteController.steering (self m) /\
          RemoteController.throttle (self m') = RemoteController.throttle (self m) /\
          RemoteController.last_command_time (self m') =
            RemoteController.last_command_time (self m)) /\
       (forall s e,
          parse_command data = SteeringOnly s e ->
          RemoteController.throttle (self m') = RemoteController.throttle (self m) /\
          RemoteController.last_command_time (self m') =
            RemoteController.last_command_time (self m))) /\
  (forall i m data,
     UDPSummary.received i = Some data ->
     exists m',
       RemoteControllerUDP.iteration i m = (Ok tt, m') /\
       RemoteControllerUDP.running (self m') = RemoteControllerUDP.running (self m) /\
       (forall e,
          parse_command data = Rejected e ->
          RemoteControllerUDP.steering (self m') = RemoteControllerUDP.steering (self m) /\
          RemoteControllerUDP.throttle (self m') = RemoteControllerUDP.throttle (self m) /\
          RemoteControllerUDP.last_command_time (self m') =
            RemoteControllerUDP.last_command_time (self m)) /\
       (forall s e,
          parse_command data = SteeringOnly s e ->
          RemoteControllerUDP.throttle (self m') = RemoteControllerUDP.throttle (self m) /\
          RemoteControllerUDP.last_command_time (self m') =
            RemoteControllerUDP.last_command_time (self m))).
Proof.
  split; intros i m data Hrec.
  - exists (TCPSummary.summary i m).
    split; [apply tcp_iteration_summary|].
    split; [apply tcp_summary_frame|].
    destruct (tcp_summary_received i m data Hrec)
      as (c & m0 & -> & Hr & Hne & <- & <- & <-).
    pose proof (tcp_receive_summary_outcome c i m0 data Hr Hne) as Ho.
    split.
    + intros e He. rewrite He in Ho. exact Ho.
    + intros s e He. rewrite He in Ho. apply Ho.
  - exists (UDPSummary.summary i m).
    split; [apply udp_iteration_summary|].
    split; [apply udp_summary_frame|].
    assert (Hr : RemoteControllerUDP.recvfrom_result i = inr data).
    { unfold UDPSummary.received in Hrec.
      destruct (RemoteControllerUDP.recvfrom_result i); congruence. }
    pose proof (udp_summary_outcome i m data Hr) as Ho.
    split.
    + intros e He. rewrite He in Ho. exact Ho.
    + intros s e He. rewrite He in Ho. apply Ho.
Qed.

End Commands.

(** * The receivers at work on the sample payloads *)

Section Runs.
Import Sample.
#[local] Existing Instance sample_runtime.

(** The command (0.5, 0.25) stored at time 100 is returned at 100.25 and
    at 100.5, and replaced by the neutral pair at 101. *)
Lemma C1_freshness_witness :
  RemoteController.timeout (self tcp_connected) = 0.5%float /\
  (100.5 - RemoteController.last_command_time (self tcp_connected) <=? 0.5)%float = true /\
  RemoteController.run_threaded 100.5%float (self tcp_connected) =
    (0.5%float, 0.25%float) /\
  (0.5 <? 101 - RemoteController.last_command_time (self tcp_connected))%float = true /\
  RemoteController.run_threaded 101%float (self tcp_connected) =
    (0%float, 0%float) /\
  RemoteControllerUDP.timeout (self udp_commanded) = 0.5%float /\
  (100.25 - RemoteControllerUDP.last_command_time (self udp_commanded) <=? 0.5)%float = true /\
  RemoteControllerUDP.run_threaded 100.25%float (self udp_commanded) =
    (0.5%float, 0.25%float) /\
  (0.5 <? 101 - RemoteControllerUDP.last_command_time (self udp_commanded))%float = true /\
  RemoteControllerUDP.run_threaded 101%float (self udp_commanded) =
    (0%float, 0%float).
Proof.
  destruct C1_freshness as [Htcp Hudp].
  destruct (Htcp 100.5%float (self tcp_connected) eq_refl) as [Hfresh_t _].
  destruct (Htcp 101%float (self tcp_connected) eq_refl) as [_ Hstale_t].
  destruct (Hudp 100.25%float (self udp_commanded) eq_refl) as [Hfresh_u _].
  destruct (Hudp 101%float (self udp_commanded) eq_refl) as [_ Hstale_u].
  repeat apply conj;
    first [ exact (Hfresh_t eq_refl) | exact (Hstale_t eq_refl)
          | exact (Hfresh_u eq_refl) | exact (Hstale_u eq_refl)
          | reflexivity ].
Defined.

(** A steering value that is a word leaves the stored command alone; a
    throttle value that is a word leaves throttle and time alone. *)
Lemma C2_parse_failure_witness :
  let i1 := tcp_io (inl socket_timeout) (inr (text json_bad_steering)) 100.25%float in
  let i2 := tcp_io (inl socket_timeout) (inr (text json_bad_throttle)) 100.25%float in
  let j1 := udp_io (inr (text json_bad_steering)) 100.25%float in
  let j2 := udp_io (inr (text json_bad_throttle)) 100.25%float in
  TCPSummary.received i1 tcp_connected = Some (text json_bad_steering) /\
  TCPSummary.received i2 tcp_connected = Some (text json_bad_throttle) /\
  UDPSummary.received j1 = Some (text json_bad_steering) /\
  UDPSummary.received j2 = Some (text json_bad_throttle) /\
  parse_command (text json_bad_steering) = Rejected ValueError /\
  parse_command (text json_bad_throttle) = SteeringOnly 0.75%float ValueError /\
  (exists m',
     RemoteController.iteration i1 tcp_connected = (Ok tt, m') /\
     RemoteController.steering (self m') = 0.5%float /\
     RemoteController.throttle (self m') = 0.25%float /\
     RemoteController.last_command_time (self m') = 100%float) /\
  (exists m',
     RemoteController.iteration i2 tcp_connected = (Ok tt, m') /\
     RemoteController.throttle (self m') = 0.25%float /\
     RemoteController.last_command_time (self m') = 100%float) /\
  (exists m',
     RemoteControllerUDP.iteration j1 udp_commanded = (Ok tt, m') /\
     RemoteControllerUDP.steering (self m') = 0.5%float /\
     RemoteControllerUDP.throttle (self m') = 0.25%float /\
     RemoteControllerUDP.last_command_time (self m') = 100%float) /\
  (exists m',
     RemoteControllerUDP.iteration j2 udp_commanded = (Ok tt, m') /\
     RemoteControllerUDP.throttle (self m') = 0.25%float /\
     RemoteControllerUDP.last_command_time (self m') = 100%float).
Proof.
  intros i1 i2 j1 j2.
  destruct (proj1 C2_parse_failure i1 tcp_connected (text json_bad_steering) eq_refl)
    as (m1 & Hi1 & _ & Hrej1 & _).
  destruct (proj1 C2_parse_failure i2 tcp_connected (text json_bad_throttle) eq_refl)
    as (m2 & Hi2 & _ & _ & Hso2).
  destruct (proj2 C2_parse_failure j1 udp_commanded (text json_bad_steering) eq_refl)
    as (m3 & Hj1 & _ & Hrej3 & _).
  destruct (proj2 C2_parse_failure j2 udp_commanded (text json_bad_throttle) eq_refl)
    as (m4 & Hj2 & _ & _ & Hso4).
  repeat apply conj;
    first [ exists m1; split; [exact Hi1|]; exact (Hrej1 ValueError eq_refl)
          | exists m2; split; [exact Hi2|];
            exact (Hso2 0.75%float ValueError eq_refl)
          | exists m3; split; [exact Hj1|]; exact (Hrej3 ValueError eq_refl)
          | exists m4; split; [exact Hj2|];
            exact (Hso4 0.75%float ValueError eq_refl)
          | reflexivity ].
Defined.

(** C2 as stated fails.  The payload [{"steering": 0.75, "throttle": "abc"}]
    is not an object of numeric fields, and the iteration that reads it
    overwrites the stored steering 0.5 with 0.75 before [float("abc")]
    raises, in both receivers.  The payload [{"steering": true}] is not one
    either, and the iteration that reads it does not fail: it stores the
    command (1.0, 0.0) and the time of receipt. *)
Lemma C2_counterexample :
  let i := tcp_io (inl socket_timeout) (inr (text json_bad_throttle)) 100.25%float in
  let j := udp_io (inr (text json_bad_throttle)) 100.25%float in
  let k := udp_io (inr (text json_bool)) 100.25%float in
  malformed (text json_bad_throttle) = true /\
  TCPSummary.received i tcp_connected = Some (text json_bad_throttle) /\
  RemoteController.steering (self tcp_connected) = 0.5%float /\
  RemoteController.steering
    (self (snd (RemoteController.iteration i tcp_connected))) = 0.75%float /\
  RemoteController.steering
    (self (snd (RemoteController.iteration i tcp_connected))) <>
  RemoteController.steering (self tcp_connected) /\
  UDPSummary.received j = Some (text json_bad_throttle) /\
  RemoteControllerUDP.steering
    (self (snd (RemoteControllerUDP.iteration j udp_commanded))) <>
  RemoteControllerUDP.steering (self udp_commanded) /\
  malformed (text json_bool) = true /\
  UDPSummary.received k = Some (text json_bool) /\
  RemoteControllerUDP.iteration k udp_commanded =
    (Ok tt, snd (RemoteControllerUDP.iteration k udp_commanded)) /\
  RemoteControllerUDP.steering
    (self (snd (RemoteControllerUDP.iteration k udp_commanded))) = 1%float /\
  RemoteControllerUDP.last_command_time (self udp_commanded) = 100%float /\
  RemoteControllerUDP.last_command_time
    (self (snd (RemoteControllerUDP.iteration k udp_commanded))) = 100.25%float /\
  RemoteControllerUDP.last_command_time
    (self (snd (RemoteControllerUDP.iteration k udp_commanded))) <>
  RemoteControllerUDP.last_command_time (self udp_commanded).
Proof.
  cbv zeta. repeat apply conj; try reflexivity.
  - intros E.
    apply (f_equal (fun f => PrimFloat.eqb f 0.5%float)) in E.
    vm_compute in E. discriminate.
  - intros E.
    apply (f_equal (fun f => PrimFloat.eqb f 0.5%float)) in E.
    vm_compute in E. discriminate.
  - intros E.
    apply (f_equal (fun f => PrimFloat.eqb f 100%float)) in E.
    vm_compute in E. discriminate.
Qed.

(** The peer on descriptor 4 closes, or resets, the connection. *)
Lemma C3_tcp_disconnect_witness :
  let i := tcp_io (inl socket_timeout) (inl ConnectionResetError) 100.25%float in
  RemoteController.client_socket (self tcp_connected) = Some 4 /\
  TCPSummary.peer_gone (RemoteController.recv_result i) /\
  exists m',
    RemoteController.iteration i tcp_connected = (Ok tt, m') /\
    RemoteController.iteration
      (tcp_io (inl socket_timeout) (inr []) 100.25%float) tcp_connected = (Ok tt, m') /\
    RemoteController.client_socket (self m') = None /\
    RemoteController.run_threaded 100.25%float (self m') = (0%float, 0%float).
Proof.
  intros i.
  assert (Hgone : TCPSummary.peer_gone (RemoteController.recv_result i))
    by (right; left; reflexivity).
  destruct (C3_tcp_disconnect i tcp_connected 4 (or_introl eq_refl) Hgone)
    as (m' & evs & Hit & Hzero & _ & _ & _ & Hnone & _ & _ & Hneutral).
  split; [reflexivity|]. split; [exact Hgone|].
  exists m'. repeat apply conj.
  - exact Hit.
  - exact Hzero.
  - exact Hnone.
  - exact (Hneutral 100.25%float).
Defined.

(** Two more iterations of a connected TCP receiver: a read that times
    out at 100.25 and a command at 100.5. *)
Lemma C4_last_command_time_witness :
  let i1 := tcp_io (inl socket_timeout) (inl socket_timeout) 100.25%float in
  let i2 := tcp_io (inl socket_timeout) (inr (text json_extra)) 100.5%float in
  let j1 := udp_io (inr (text json_garbage)) 100.25%float in
  let j2 := udp_io (inr (text json_command)) 100.5%float in
  TCPSummary.parsed i1 tcp_connected = None /\
  float_le
    (RemoteController.last_command_time
       (self (final (RemoteController.update [i1] tcp_connected))))
    (RemoteController.last_command_time
       (self (final (RemoteController.update [i1; i2] tcp_connected)))) /\
  UDPSummary.parsed j1 = None /\
  float_le
    (RemoteControllerUDP.last_command_time
       (self (final (RemoteControllerUDP.update [j1] udp_commanded))))
    (RemoteControllerUDP.last_command_time
       (self (final (RemoteControllerUDP.update [j1; j2] udp_commanded)))).
Proof.
  intros i1 i2 j1 j2.
  destruct C4_last_command_time as (_ & Hnone_t & Hmono_t & _ & Hnone_u & Hmono_u).
  assert (Hs : Sorted float_le [100%float; 100.25%float; 100.5%float])
    by (repeat constructor).
  repeat apply conj.
  - exact (Hnone_t i1 tcp_connected (or_introl eq_refl)).
  - exact (Hmono_t [i1; i2] tcp_connected eq_refl Hs [i1] [i2] eq_refl).
  - apply (Hnone_u j1). right. intros data s t [= <-]. discriminate.
  - exact (Hmono_u [j1; j2] udp_commanded eq_refl Hs [j1] [j2] eq_refl).
Defined.

(** C4 as stated fails: [last_command_time] is what [time.time()] returned,
    and the wall clock may be set back.  Two commands, the first stamped
    100.5 and the second 100.25, take [last_command_time] from 100.5 down
    to 100.25, in both receivers. *)
Lemma C4_counterexample :
  let i1 := tcp_io (inr 4) (inr (text json_command)) 100.5%float in
  let i2 := tcp_io (inr 4) (inr (text json_command)) 100.25%float in
  let j1 := udp_io (inr (text json_command)) 100.5%float in
  let j2 := udp_io (inr (text json_command)) 100.25%float in
  RemoteController.last_command_time
    (self (final (RemoteController.update [i1] tcp_fresh))) = 100.5%float /\
  RemoteController.last_command_time
    (self (final (RemoteController.update [i1; i2] tcp_fresh))) = 100.25%float /\
  ~ float_le
      (RemoteController.last_command_time
         (self (final (RemoteController.update [i1] tcp_fresh))))
      (RemoteController.last_command_time
         (self (final (RemoteController.update [i1; i2] tcp_fresh)))) /\
  RemoteControllerUDP.last_command_time
    (self (final (RemoteControllerUDP.update [j1] udp_fresh))) = 100.5%float /\
  RemoteControllerUDP.last_command_time
    (self (final (RemoteControllerUDP.update [j1; j2] udp_fresh))) = 100.25%float /\
  ~ float_le
      (RemoteControllerUDP.last_command_time
         (self (final (RemoteControllerUDP.update [j1] udp_fresh))))
      (RemoteControllerUDP.last_command_time
         (self (final (RemoteControllerUDP.update [j1; j2] udp_fresh)))).
Proof.
  cbv zeta. unfold float_le.
  repeat apply conj; try reflexivity; vm_compute; discriminate.
Qed.



(** [shutdown] with a read in flight that stores nothing: a payload whose
    steering is a word (TCP), a timeout (UDP). *)
Lemma C10_shutdown_neutral_witness :
  let i := tcp_io (inr 5) (inl socket_timeout) 100.5%float in
  let S := TCPThreads.System tcp_connected
             (TCPThreads.Reading (inr (text json_bad_steering))) in
  let j := udp_io (inr (text json_garbage)) 100.5%float in
  let U := UDPThreads.System udp_commanded
             (UDPThreads.Reading (inl socket_timeout)) in
  TCPThreads.settled (TCPThreads.work S) = true /\
  RemoteController.run_threaded 100.25%float
    (self (TCPThreads.mach
             (TCPThreads.run [TCPThreads.Work i; TCPThreads.Work i]
                (TCPThreads.step TCPThreads.Shutdown S)))) = (0%float, 0%float) /\
  UDPThreads.settled (UDPThreads.work U) = true /\
  RemoteControllerUDP.run_threaded 100.25%float
    (self (UDPThreads.mach
             (UDPThreads.run [UDPThreads.Work j; UDPThreads.Work j]
                (UDPThreads.step UDPThreads.Shutdown U)))) = (0%float, 0%float).
Proof.
  intros i S j U.
  assert (HS : TCPThreads.settled (TCPThreads.work S) = true)
    by (vm_compute; reflexivity).
  assert (HU : UDPThreads.settled (UDPThreads.work U) = true)
    by (vm_compute; reflexivity).
  destruct C10_shutdown_neutral as (_ & _ & Htcp & Hudp).
  repeat apply conj.
  - exact HS.
  - exact (Htcp S [TCPThreads.Work i; TCPThreads.Work i] 100.25%float HS).
  - exact HU.
  - exact (Hudp U [UDPThreads.Work j; UDPThreads.Work j] 100.25%float HU).
Defined.

(** C10 as stated fails for a command whose read is in flight.  The worker's
    [recvfrom] (UDP) or [recv] (TCP) has returned the command (0.5, 0.25);
    before the worker handles it the caller runs [shutdown], after which
    [run_threaded] returns (0.0, 0.0).  The worker then stores the command
    with the time 100.25, and [run_threaded] called at 100.5, after
    [shutdown] has returned, returns (0.5, 0.25). *)
Lemma C10_counterexample :
  let j := udp_io (inr (text json_command)) 100.25%float in
  let U0 := UDPThreads.run [UDPThreads.Work j]
              (UDPThreads.System udp_fresh UDPThreads.AtCheck) in
  let U1 := UDPThreads.step UDPThreads.Shutdown U0 in
  let U := UDPThreads.run [UDPThreads.Work j] U1 in
  let i := tcp_io (inr 5) (inr (text json_command)) 100.25%float in
  let T0 := TCPThreads.run [TCPThreads.Work i]
              (TCPThreads.System tcp_connected TCPThreads.AtCheck) in
  let T1 := TCPThreads.step TCPThreads.Shutdown T0 in
  let T := TCPThreads.run [TCPThreads.Work i] T1 in
  UDPThreads.work U0 = UDPThreads.Reading (inr (text json_command)) /\
  RemoteControllerUDP.run_threaded 100.5%float (self (UDPThreads.mach U1)) =
    (0%float, 0%float) /\
  RemoteControllerUDP.running (self (UDPThreads.mach U)) = false /\
  RemoteControllerUDP.run_threaded 100.5%float (self (UDPThreads.mach U)) =
    (0.5%float, 0.25%float) /\
  RemoteControllerUDP.run_threaded 100.5%float (self (UDPThreads.mach U)) <>
    (0%float, 0%float) /\
  TCPThreads.work T0 = TCPThreads.Reading (inr (text json_command)) /\
  RemoteController.run_threaded 100.5%float (self (TCPThreads.mach T1)) =
    (0%float, 0%float) /\
  RemoteController.running (self (TCPThreads.mach T)) = false /\
  RemoteController.run_threaded 100.5%float (self (TCPThreads.mach T)) =
    (0.5%float, 0.25%float) /\
  RemoteController.run_threaded 100.5%float (self (TCPThreads.mach T)) <>
    (0%float, 0%float).
Proof.
  cbv zeta.
  repeat apply conj;
    try (vm_compute; reflexivity);
    intros E; apply (f_equal fst) in E;
    apply (f_equal (fun f => PrimFloat.eqb f 0%float)) in E;
    vm_compute in E; discriminate.
Qed.

(** A receiver that accepts the peer on descriptor 4 keeps it while the
    peer sends, and calls [accept] again only when it has none. *)
Lemma C6_single_peer_witness :
  let i := tcp_io (inr 5) (inr (text json_command)) 100.25%float in
  TCPSummary.single_peer tcp_connected /\
  TCPSummary.single_peer (snd (RemoteController.iteration i tcp_connected)) /\
  TCPSummary.single_peer (final (RemoteController.update [i; i] tcp_connected)) /\
  size (TCPSummary.peers tcp_connected) <= 1 /\
  RemoteController.client_socket (self tcp_connected) = Some 4 /\
  (RemoteController.client_socket
     (self (snd (RemoteController.iteration i tcp_connected))) = Some 4 \/
   (RemoteController.client_socket
      (self (snd (RemoteController.iteration i tcp_connected))) = None /\
    4 ∉ open_socks (snd (RemoteController.iteration i tcp_connected)))).
Proof.
  intros i.
  destruct C6_single_peer as (_ & _ & Hstep & Hloop & Hsize & Hkeep).
  assert (Hp : TCPSummary.single_peer tcp_connected)
    by (apply (bool_decide_unpack _); vm_compute; exact I).
  repeat apply conj.
  - exact Hp.
  - exact (Hstep i tcp_connected Hp).
  - exact (Hloop [i; i] tcp_connected Hp).
  - exact (Hsize tcp_connected Hp).
  - reflexivity.
  - exact (Hkeep i tcp_connected 4 eq_refl).
Defined.

(** A loop fed a garbled payload, a timeout and an error goes on; a loop
    whose flag was cleared exits, and only such a loop does. *)
Lemma C9_loop_survives_witness :
  let i1 := tcp_io (inl OSError) (inr (text json_garbage)) 100.25%float in
  let i2 := tcp_io (inl socket_timeout) (inl OSError) 100.5%float in
  let j1 := udp_io (inr (text json_list)) 100.25%float in
  let j2 := udp_io (inl socket_timeout) 100.5%float in
  let mt := snd (RemoteController.shutdown tcp_connected) in
  let mu := snd (RemoteControllerUDP.shutdown udp_commanded) in
  RemoteController.running (self tcp_connected) = true /\
  (exists m',
     RemoteController.update [i1; i2] tcp_connected = LoopPending m' /\
     RemoteController.running (self m') = true) /\
  RemoteControllerUDP.running (self udp_commanded) = true /\
  (exists m',
     RemoteControllerUDP.update [j1; j2] udp_commanded = LoopPending m' /\
     RemoteControllerUDP.running (self m') = true) /\
  RemoteController.running (self mt) = false /\
  (exists m', RemoteController.update [i1; i2] mt = LoopExited m') /\
  RemoteControllerUDP.running (self mu) = false /\
  (exists m', RemoteControllerUDP.update [j1; j2] mu = LoopExited m') /\
  ((exists m', RemoteController.update [i1; i2] mt = LoopExited m') ->
   RemoteController.running (self mt) = false) /\
  ((exists m', RemoteControllerUDP.update [j1; j2] mu = LoopExited m') ->
   RemoteControllerUDP.running (self mu) = false).
Proof.
  intros i1 i2 j1 j2 mt mu.
  destruct C9_loop_survives
    as (_ & Hrun_t & Hexit_t & _ & _ & Hrun_u & Hexit_u & _).
  repeat apply conj.
  - reflexivity.
  - exact (Hrun_t [i1; i2] tcp_connected eq_refl).
  - reflexivity.
  - exact (Hrun_u [j1; j2] udp_commanded eq_refl).
  - reflexivity.
  - exact (proj2 (Hexit_t [i1; i2] mt) eq_refl).
  - reflexivity.
  - exact (proj2 (Hexit_u [j1; j2] mu) eq_refl).
  - exact (proj1 (Hexit_t [i1; i2] mt)).
  - exact (proj1 (Hexit_u [j1; j2] mu)).
Defined.

End Runs.

(** * Further properties of the receivers *)

(** ** Iterations that bring no command *)

(** A read of the TCP receiver that neither brings a command nor ends the
    connection: an exception other than [ConnectionResetError] and
    [BrokenPipeError] (a timeout among them), or a payload that the parser
    rejects before [self.steering] is assigned. *)
Definition tcp_quiet `{PyRuntime} (i : RemoteController.io) : bool :=
  match RemoteController.recv_result i with
  | inl e => negb (TCPSummary.is_disconnect e)
  | inr [] => false
  | inr (b :: data) =>
      match parse_command (b :: data) with
      | Rejected _ => true
      | _ => false
      end
  end.

(** The same for the UDP receiver, where every exception is one. *)
Definition udp_quiet `{PyRuntime} (i : RemoteControllerUDP.io) : bool :=
  match RemoteControllerUDP.recvfrom_result i with
  | inl _ => true
  | inr data =>
      match parse_command data with
      | Rejected _ => true
      | _ => false
      end
  end.

(** A read of the TCP receiver that stores no command: an exception, the
    two disconnects among them, a zero-length read, or a payload that the
    parser rejects before [self.steering] is assigned. *)
Definition tcp_idle `{PyRuntime} (i : RemoteController.io) : bool :=
  match RemoteController.recv_result i with
  | inr (b :: data) =>
      match parse_command (b :: data) with
      | Rejected _ => true
      | _ => false
      end
  | _ => true
  end.

(** The stored command and its time. *)
Definition tcp_command (o : RemoteController.obj) : float * float * float :=
  (RemoteController.steering o, RemoteController.throttle o,
   RemoteController.last_command_time o).

Definition udp_command (o : RemoteControllerUDP.obj) : float * float * float :=
  (RemoteControllerUDP.steering o, RemoteControllerUDP.throttle o,
   RemoteControllerUDP.last_command_time o).

(** How many reads were attempted. *)
Fixpoint recvs (evs : list event) : nat :=
  match evs with
  | [] => 0
  | EvRecv _ :: evs' => S (recvs evs')
  | _ :: evs' => recvs evs'
  end.

(** The levels logged, latest first. *)
Fixpoint logged (evs : list event) : list level :=
  match evs with
  | [] => []
  | EvLog l _ :: evs' => l :: logged evs'
  | _ :: evs' => logged evs'
  end.

Section Quiet.
Context `{PyRuntime}.

Lemma tcp_handled_not_disconnect c e m :
  TCPSummary.is_disconnect e = false ->
  self (TCPSummary.handled c e m) = self m /\
  open_socks (TCPSummary.handled c e m) = open_socks m.
Proof. destruct e; cbn; try discriminate; auto. Qed.

Lemma tcp_receive_summary_quiet c i m :
  tcp_quiet i = true ->
  self (TCPSummary.receive_summary c i m) = self m /\
  open_socks (TCPSummary.receive_summary c i m) = open_socks m.
Proof.
  unfold tcp_quiet, TCPSummary.receive_summary.
  destruct (RemoteController.recv_result i) as [e|[|b data]].
  - intros Hq. apply negb_true_iff in Hq.
    match goal with
    | |- context [TCPSummary.handled c e ?M] =>
        destruct (tcp_handled_not_disconnect c e M Hq) as [Hs Ho]
    end.
    split; [exact Hs | exact Ho].
  - discriminate.
  - destruct (parse_command (b :: data)) as [e|s e|s t] eqn:Hp; try discriminate.
    intros _. rewrite tcp_handled_parse_exn by exact (parse_command_rejected _ _ Hp).
    auto.
Qed.

Lemma tcp_summary_quiet_connected c i m :
  RemoteController.client_socket (self m) = Some c ->
  tcp_quiet i = true ->
  self (TCPSummary.summary i m) = self m /\
  open_socks (TCPSummary.summary i m) = open_socks m.
Proof.
  intros Hc Hq. rewrite (tcp_summary_connected c) by exact Hc.
  apply tcp_receive_summary_quiet, Hq.
Qed.

Lemma tcp_summary_quiet_command i m :
  tcp_quiet i = true ->
  tcp_command (self (TCPSummary.summary i m)) = tcp_command (self m).
Proof.
  intros Hq. unfold TCPSummary.summary.
  destruct (RemoteController.client_socket (self m)) as [c|].
  - destruct (tcp_receive_summary_quiet c i m Hq) as [-> _]. reflexivity.
  - destruct (RemoteController.accept_result i) as [e|c]; [reflexivity|].
    destruct (tcp_receive_summary_quiet c i (TCPSummary.accepted c m) Hq) as [-> _].
    reflexivity.
Qed.

Lemma tcp_after_quiet_command ios m :
  Forall (fun i => tcp_quiet i = true) ios ->
  tcp_command (self (TCPSummary.after ios m)) = tcp_command (self m).
Proof.
  intros Hq. revert m. induction Hq as [|i ios Hi _ IH]; intros m; [reflexivity|].
  change (TCPSummary.after (i :: ios) m)
    with (TCPSummary.after ios (TCPSummary.summary i m)).
  rewrite IH. apply tcp_summary_quiet_command, Hi.
Qed.

Lemma tcp_after_quiet_connected c ios m :
  RemoteController.client_socket (self m) = Some c ->
  Forall (fun i => tcp_quiet i = true) ios ->
  self (TCPSummary.after ios m) = self m /\
  open_socks (TCPSummary.after ios m) = open_socks m.
Proof.
  intros Hc Hq. revert m Hc.
  induction Hq as [|i ios Hi _ IH]; intros m Hc; [auto|].
  change (TCPSummary.after (i :: ios) m)
    with (TCPSummary.after ios (TCPSummary.summary i m)).
  destruct (tcp_summary_quiet_connected c i m Hc Hi) as [Hs Ho].
  destruct (IH (TCPSummary.summary i m)) as [-> ->]; [rewrite Hs; exact Hc|].
  auto.
Qed.

Lemma udp_summary_open i m :
  open_socks (UDPSummary.summary i m) = open_socks m.
Proof. unfold UDPSummary.summary. destruct_matches; reflexivity. Qed.

Lemma udp_summary_quiet i m :
  udp_quiet i = true -> self (UDPSummary.summary i m) = self m.
Proof.
  unfold udp_quiet, UDPSummary.summary.
  destruct (RemoteControllerUDP.recvfrom_result i) as [e|data]; [reflexivity|].
  destruct (parse_command data); try discriminate. reflexivity.
Qed.

Lemma udp_after_open ios m :
  open_socks (UDPSummary.after ios m) = open_socks m.
Proof.
  revert m. induction ios as [|i ios IH]; intros m; [reflexivity|].
  change (UDPSummary.after (i :: ios) m)
    with (UDPSummary.after ios (UDPSummary.summary i m)).
  rewrite IH. apply udp_summary_open.
Qed.

Lemma udp_after_quiet ios m :
  Forall (fun i => udp_quiet i = true) ios ->
  self (UDPSummary.after ios m) = self m.
Proof.
  intros Hq. revert m. induction Hq as [|i ios Hi _ IH]; intros m; [reflexivity|].
  change (UDPSummary.after (i :: ios) m)
    with (UDPSummary.after ios (UDPSummary.summary i m)).
  rewrite IH. apply udp_summary_quiet, Hi.
Qed.

(** The loop in terms of [after], whatever the flag. *)
Lemma tcp_update_final ios m :
  final (RemoteController.update ios m) =
    if RemoteController.running (self m) then TCPSummary.after ios m else m.
Proof.
  destruct (RemoteController.running (self m)) eqn:Hr.
  - rewrite tcp_update_running by exact Hr. reflexivity.
  - rewrite tcp_update_stopped by exact Hr. reflexivity.
Qed.

Lemma udp_update_final ios m :
  final (RemoteControllerUDP.update ios m) =
    if RemoteControllerUDP.running (self m) then UDPSummary.after ios m else m.
Proof.
  destruct (RemoteControllerUDP.running (self m)) eqn:Hr.
  - rewrite udp_update_running by exact Hr. reflexivity.
  - rewrite udp_update_stopped by exact Hr. reflexivity.
Qed.

(** X1. The stored command outlives silence and noise.  Over any run of
    the [update] loop in which no read brings a command (every read times
    out, fails with an error that is not a disconnect, or brings a payload
    rejected no later than its steering field), steering, throttle and
    [last_command_time] are at the end what they were at the start.  For a
    TCP receiver with a peer, and for a UDP receiver, the whole object and
    the set of open descriptors are unchanged: the peer stays connected
    whatever the error. *)
Theorem X1_command_persists :
  (forall ios m,
     Forall (fun i => tcp_quiet i = true) ios ->
     tcp_command (self (final (RemoteController.update ios m))) =
       tcp_command (self m)) /\
  (forall c ios m,
     RemoteController.client_socket (self m) = Some c ->
     Forall (fun i => tcp_quiet i = true) ios ->
     self (final (RemoteController.update ios m)) = self m /\
     open_socks (final (RemoteController.update ios m)) = open_socks m) /\
  (forall ios m,
     Forall (fun i => udp_quiet i = true) ios ->
     self (final (RemoteControllerUDP.update ios m)) = self m /\
     open_socks (final (RemoteControllerUDP.update ios m)) = open_socks m).
Proof.
  repeat apply conj.
  - intros ios m Hq. rewrite tcp_update_final.
    destruct (RemoteController.running (self m)); [|reflexivity].
    apply tcp_after_quiet_command, Hq.
  - intros c ios m Hc Hq. rewrite tcp_update_final.
    destruct (RemoteController.running (self m)); [|auto].
    apply (tcp_after_quiet_connected c); assumption.
  - intros ios m Hq. rewrite udp_update_final.
    destruct (RemoteControllerUDP.running (self m)); [|auto].
    split; [apply udp_after_quiet, Hq | apply udp_after_open].
Qed.

(** A read that stores no command leaves steering and throttle as they
    were or zeroes both. *)
Lemma tcp_receive_summary_idle c i m :
  tcp_idle i = true ->
  (RemoteController.steering (self (TCPSummary.receive_summary c i m)) =
     RemoteController.steering (self m) /\
   RemoteController.throttle (self (TCPSummary.receive_summary c i m)) =
     RemoteController.throttle (self m)) \/
  (RemoteController.steering (self (TCPSummary.receive_summary c i m)) = 0%float /\
   RemoteController.throttle (self (TCPSummary.receive_summary c i m)) = 0%float).
Proof.
  unfold tcp_idle, TCPSummary.receive_summary.
  destruct (RemoteController.recv_result i) as [e|[|b data]].
  - intros _. destruct e; cbn; auto.
  - intros _. right. split; reflexivity.
  - destruct (parse_command (b :: data)) as [e|s e|s t] eqn:Hp; try discriminate.
    intros _. rewrite tcp_handled_parse_exn by exact (parse_command_rejected _ _ Hp).
    left. split; reflexivity.
Qed.

Lemma tcp_summary_idle_zero i m :
  tcp_idle i = true ->
  RemoteController.steering (self m) = 0%float ->
  RemoteController.throttle (self m) = 0%float ->
  RemoteController.steering (self (TCPSummary.summary i m)) = 0%float /\
  RemoteController.throttle (self (TCPSummary.summary i m)) = 0%float.
Proof.
  intros Hi Hs Ht. unfold TCPSummary.summary.
  destruct (RemoteController.client_socket (self m)) as [c|].
  - destruct (tcp_receive_summary_idle c i m Hi) as [[-> ->]|Hz]; auto.
  - destruct (RemoteController.accept_result i) as [e|c]; [auto|].
    destruct (tcp_receive_summary_idle c i (TCPSummary.accepted c m) Hi)
      as [[-> ->]|Hz]; auto.
Qed.

Lemma tcp_after_idle_zero ios m :
  Forall (fun i => tcp_idle i = true) ios ->
  RemoteController.steering (self m) = 0%float ->
  RemoteController.throttle (self m) = 0%float ->
  RemoteController.steering (self (TCPSummary.after ios m)) = 0%float /\
  RemoteController.throttle (self (TCPSummary.after ios m)) = 0%float.
Proof.
  intros Hq. revert m.
  induction Hq as [|i ios Hi _ IH]; intros m Hs Ht; [auto|].
  change (TCPSummary.after (i :: ios) m)
    with (TCPSummary.after ios (TCPSummary.summary i m)).
  destruct (tcp_summary_idle_zero i m Hi Hs Ht) as [Hs' Ht'].
  exact (IH _ Hs' Ht').
Qed.

(** X2. Default neutral.  A receiver that has been constructed and has run
    its loop on reads none of which stored anything returns (0.0, 0.0) from
    [run_threaded] at every time.  The reads meant are those that raise an
    error (a timeout and, for TCP, the two disconnects among them), the
    zero-length read of TCP, and those that bring a payload rejected no
    later than its steering field; a payload whose steering converts and
    whose throttle does not is none of them. *)
Theorem X2_default_neutral :
  (forall host port srv clock ios now,
     Forall (fun i => tcp_idle i = true) ios ->
     RemoteController.run_threaded now
       (self (final (RemoteController.update ios
                       (RemoteController.init host port srv clock)))) =
       (0%float, 0%float)) /\
  (forall host port sk clock ios now,
     Forall (fun i => udp_quiet i = true) ios ->
     RemoteControllerUDP.run_threaded now
       (self (final (RemoteControllerUDP.update ios
                       (RemoteControllerUDP.init host port sk clock)))) =
       (0%float, 0%float)).
Proof.
  split.
  - intros host port srv clock ios now Hq.
    rewrite tcp_update_final. cbn [RemoteController.init self
      RemoteController.running].
    destruct (tcp_after_idle_zero ios
                (RemoteController.init host port srv clock) Hq eq_refl eq_refl)
      as [Hs Ht].
    apply tcp_run_threaded_zero; [exact Hs | exact Ht].
  - intros host port sk clock ios now Hq.
    rewrite udp_update_final. cbn [RemoteControllerUDP.init self
      RemoteControllerUDP.running].
    rewrite (udp_after_quiet ios _ Hq).
    apply udp_run_threaded_zero; reflexivity.
Qed.

End Quiet.

(** ** A command, then silence *)

Section CommandThenSilence.
Context `{PyRuntime}.

Lemma tcp_summary_parsed i m s t :
  TCPSummary.parsed i m = Some (s, t) ->
  tcp_command (self (TCPSummary.summary i m)) = (s, t, RemoteController.clock i).
Proof.
  unfold TCPSummary.parsed.
  destruct (TCPSummary.received i m) as [data|] eqn:Hrec; [|discriminate].
  destruct (parse_command data) as [e|s' e|s' t'] eqn:Hp; try discriminate.
  intros [= <- <-].
  destruct (tcp_summary_received i m data Hrec) as (c & m0 & -> & Hr & Hne & _).
  pose proof (tcp_receive_summary_outcome c i m0 data Hr Hne) as Ho.
  rewrite Hp in Ho. destruct Ho as (Hs & Ht & Hl).
  unfold tcp_command. rewrite Hs, Ht, Hl. reflexivity.
Qed.

Lemma udp_summary_parsed i m s t :
  UDPSummary.parsed i = Some (s, t) ->
  udp_command (self (UDPSummary.summary i m)) =
    (s, t, RemoteControllerUDP.clock i).
Proof.
  unfold UDPSummary.parsed, UDPSummary.received, UDPSummary.summary.
  destruct (RemoteControllerUDP.recvfrom_result i) as [e|data]; [discriminate|].
  destruct (parse_command data) as [e|s' e|s' t']; try discriminate.
  intros [= <- <-]. reflexivity.
Qed.

Lemma tcp_after_timeout ios m :
  RemoteController.timeout (self (TCPSummary.after ios m)) =
  RemoteController.timeout (self m).
Proof.
  destruct (tcp_after_frame ios m) as (Hc & _). injection Hc as _ _ Ht. exact Ht.
Qed.

Lemma udp_after_timeout ios m :
  RemoteControllerUDP.timeout (self (UDPSummary.after ios m)) =
  RemoteControllerUDP.timeout (self m).
Proof.
  destruct (udp_after_frame ios m) as (Hc & _). injection Hc as _ _ Ht. exact Ht.
Qed.

(** X3. A command, then silence.  When an iteration of a running loop
    parses the command (s, t) at clock reading c and every read after it
    times out, raises an error that is not a disconnect, or brings a
    payload rejected no later than its steering field (the zero-length
    read of TCP is a disconnect, not such a payload), [run_threaded]
    called at time [now] returns (s, t) as long as [now - c <= timeout]
    and (0.0, 0.0) once [now - c > timeout]: a client that goes silent
    stops the car one threshold after its last command. *)
Theorem X3_command_then_silence :
  (forall i ios m s t now,
     RemoteController.running (self m) = true ->
     TCPSummary.parsed i m = Some (s, t) ->
     Forall (fun i => tcp_quiet i = true) ios ->
     let o := self (final (RemoteController.update (i :: ios) m)) in
     ((now - RemoteController.clock i <=? RemoteController.timeout (self m))%float
        = true ->
      RemoteController.run_threaded now o = (s, t)) /\
     ((RemoteController.timeout (self m) <? now - RemoteController.clock i)%float
        = true ->
      RemoteController.run_threaded now o = (0%float, 0%float))) /\
  (forall i ios m s t now,
     RemoteControllerUDP.running (self m) = true ->
     UDPSummary.parsed i = Some (s, t) ->
     Forall (fun i => udp_quiet i = true) ios ->
     let o := self (final (RemoteControllerUDP.update (i :: ios) m)) in
     ((now - RemoteControllerUDP.clock i <=? RemoteControllerUDP.timeout (self m))%float
        = true ->
      RemoteControllerUDP.run_threaded now o = (s, t)) /\
     ((RemoteControllerUDP.timeout (self m) <? now - RemoteControllerUDP.clock i)%float
        = true ->
      RemoteControllerUDP.run_threaded now o = (0%float, 0%float))).
Proof.
  split; intros i ios m s t now Hr Hp Hq; cbv zeta.
  - rewrite tcp_update_running by exact Hr. cbn [final].
    change (TCPSummary.after (i :: ios) m)
      with (TCPSummary.after ios (TCPSummary.summary i m)).
    pose proof (tcp_after_quiet_command ios (TCPSummary.summary i m) Hq) as Hc.
    rewrite (tcp_summary_parsed i m s t Hp) in Hc.
    injection Hc as Hs Ht Hl.
    pose proof (tcp_after_timeout (i :: ios) m) as Hto.
    change (TCPSummary.after (i :: ios) m)
      with (TCPSummary.after ios (TCPSummary.summary i m)) in Hto.
    split; intros Hcmp.
    + rewrite <- Hs, <- Ht. apply tcp_run_threaded_fresh.
      rewrite Hl, Hto. exact Hcmp.
    + apply tcp_run_threaded_stale. rewrite Hl, Hto. exact Hcmp.
  - rewrite udp_update_running by exact Hr. cbn [final].
    change (UDPSummary.after (i :: ios) m)
      with (UDPSummary.after ios (UDPSummary.summary i m)).
    pose proof (udp_summary_parsed i m s t Hp) as Hc.
    rewrite <- (udp_after_quiet ios (UDPSummary.summary i m) Hq) in Hc.
    injection Hc as Hs Ht Hl.
    pose proof (udp_after_timeout (i :: ios) m) as Hto.
    change (UDPSummary.after (i :: ios) m)
      with (UDPSummary.after ios (UDPSummary.summary i m)) in Hto.
    split; intros Hcmp.
    + rewrite <- Hs, <- Ht. apply udp_run_threaded_fresh.
      rewrite Hl, Hto. exact Hcmp.
    + apply udp_run_threaded_stale. rewrite Hl, Hto. exact Hcmp.
Qed.

End CommandThenSilence.

(** ** Descriptors *)

(** An iteration input whose [accept] fails. *)
Definition accept_fails (i : RemoteController.io) : bool :=
  match RemoteController.accept_result i with
  | inl _ => true
  | inr _ => false
  end.

Section Descriptors.
Context `{PyRuntime}.

Lemma recvs_app evs1 evs2 : recvs (evs1 ++ evs2) = recvs evs1 + recvs evs2.
Proof.
  induction evs1 as [|[] evs1 IH]; cbn; auto.
Qed.

Lemma accepts_app evs1 evs2 : accepts (evs1 ++ evs2) = accepts evs1 + accepts evs2.
Proof.
  induction evs1 as [|[] evs1 IH]; cbn; auto.
Qed.

Lemma closes_app evs1 evs2 : closes (evs1 ++ evs2) = closes evs1 ++ closes evs2.
Proof.
  induction evs1 as [|[] evs1 IH]; cbn; auto. rewrite IH. reflexivity.
Qed.

Lemma tcp_after_accept_fails ios m :
  RemoteController.client_socket (self m) = None ->
  Forall (fun i => accept_fails i = true) ios ->
  exists evs,
    TCPSummary.after ios m = Machine (self m) (open_socks m) (evs ++ trace m) /\
    recvs evs = 0 /\ accepts evs = length ios.
Proof.
  intros Hc Hq. revert m Hc.
  induction Hq as [|i ios Hi _ IH]; intros m Hc.
  - exists []. destruct m. repeat split; reflexivity.
  - change (TCPSummary.after (i :: ios) m)
      with (TCPSummary.after ios (TCPSummary.summary i m)).
    unfold accept_fails in Hi.
    destruct (RemoteController.accept_result i) as [e|c] eqn:Ha; [|discriminate].
    rewrite (tcp_summary_not_accepted e i m Hc Ha).
    destruct (IH (Machine (self m) (open_socks m)
                    (TCPSummary.accept_log e ++ EvAccept :: trace m)) Hc)
      as (evs & -> & Hrec & Hacc).
    exists (evs ++ TCPSummary.accept_log e ++ [EvAccept]).
    cbn [self open_socks trace]. rewrite <- !app_assoc.
    repeat split.
    + rewrite !recvs_app, Hrec. destruct e; reflexivity.
    + rewrite !accepts_app, Hacc. cbn [length]. destruct e; cbn; lia.
Qed.

(** X4. No connection, no effect.  While no peer is connected and every
    [accept] fails (by timeout or by any other error), the TCP loop leaves
    the object and the open descriptors exactly as they were, attempts no
    read, and calls [accept] once per iteration. *)
Theorem X4_tcp_waits_for_peer :
  forall ios m,
    RemoteController.running (self m) = true ->
    RemoteController.client_socket (self m) = None ->
    Forall (fun i => accept_fails i = true) ios ->
    exists evs,
      RemoteController.update ios m =
        LoopPending (Machine (self m) (open_socks m) (evs ++ trace m)) /\
      recvs evs = 0 /\ accepts evs = length ios.
Proof.
  intros ios m Hr Hc Hq.
  destruct (tcp_after_accept_fails ios m Hc Hq) as (evs & He & Hrec & Hacc).
  exists evs. rewrite tcp_update_running by exact Hr. rewrite He. auto.
Qed.

Lemma udp_summary_events i m :
  exists evs,
    trace (UDPSummary.summary i m) = evs ++ trace m /\
    accepts evs = 0 /\ closes evs = [] /\ recvs evs = 1.
Proof.
  unfold UDPSummary.summary.
  destruct (RemoteControllerUDP.recvfrom_result i) as [e|data].
  - exists (UDPSummary.log_of e ++ [EvRecv (RemoteControllerUDP.socket (self m))]).
    cbn [trace]. rewrite <- app_assoc. split; [reflexivity|].
    destruct e; repeat split; reflexivity.
  - destruct (parse_command data) as [e|s e|s t].
    + exists (UDPSummary.log_of e ++ [EvRecv (RemoteControllerUDP.socket (self m))]).
      cbn [trace]. rewrite <- app_assoc. split; [reflexivity|].
      destruct e; repeat split; reflexivity.
    + exists (UDPSummary.log_of e ++ [EvRecv (RemoteControllerUDP.socket (self m))]).
      cbn [trace]. rewrite <- app_assoc. split; [reflexivity|].
      destruct e; repeat split; reflexivity.
    + eexists [_; _]. repeat split; reflexivity.
Qed.

Lemma udp_after_events ios m :
  exists evs,
    trace (UDPSummary.after ios m) = evs ++ trace m /\
    accepts evs = 0 /\ closes evs = [] /\ recvs evs = length ios.
Proof.
  revert m. induction ios as [|i ios IH]; intros m.
  - exists []. repeat split; reflexivity.
  - change (UDPSummary.after (i :: ios) m)
      with (UDPSummary.after ios (UDPSummary.summary i m)).
    destruct (IH (UDPSummary.summary i m)) as (evs2 & -> & Ha2 & Hc2 & Hr2).
    destruct (udp_summary_events i m) as (evs1 & -> & Ha1 & Hc1 & Hr1).
    exists (evs2 ++ evs1). rewrite <- app_assoc.
    rewrite accepts_app, closes_app, recvs_app, Ha1, Ha2, Hc1, Hc2, Hr1, Hr2.
    repeat split; cbn [length]; lia.
Qed.

(** X5. The UDP loop owns one socket and keeps it.  Whatever it receives,
    a run of the UDP [update] loop opens no descriptor and closes none (the
    set of open descriptors and the [socket] field are unchanged, and the
    trace gains no accept and no close), and it reads once per iteration.
    In particular a [ConnectionResetError] does not make it drop anything,
    unlike in the TCP receiver. *)
Theorem X5_udp_socket_kept :
  forall ios m,
    let m' := final (RemoteControllerUDP.update ios m) in
    open_socks m' = open_socks m /\
    RemoteControllerUDP.socket (self m') = RemoteControllerUDP.socket (self m) /\
    exists evs,
      trace m' = evs ++ trace m /\
      accepts evs = 0 /\ closes evs = [] /\
      recvs evs =
        if RemoteControllerUDP.running (self m) then length ios else 0.
Proof.
  intros ios m. cbv zeta. rewrite udp_update_final.
  destruct (RemoteControllerUDP.running (self m)).
  - split; [apply udp_after_open|].
    split; [apply udp_after_frame|]. apply udp_after_events.
  - repeat split. exists []. repeat split; reflexivity.
Qed.

End Descriptors.

(** ** Connections of the TCP receiver *)

(** An iteration input whose [accept] does not return the descriptor [h]. *)
Definition accept_avoids (h : handle) (i : RemoteController.io) : Prop :=
  RemoteController.accept_result i <> inr h.

Section Connections.
Context `{PyRuntime}.
Import RemoteController TCPSummary.

Lemma tcp_summary_server_open i m :
  server_socket (self m) ∈ open_socks m ->
  client_socket (self m) <> Some (server_socket (self m)) ->
  accept_avoids (server_socket (self m)) i ->
  server_socket (self (summary i m)) = server_socket (self m) /\
  server_socket (self m) ∈ open_socks (summary i m) /\
  client_socket (self (summary i m)) <> Some (server_socket (self m)).
Proof.
  intros Hopen Hcl Hav.
  destruct (client_socket (self m)) as [c|] eqn:Hc.
  - rewrite (tcp_summary_connected c) by exact Hc.
    destruct (tcp_receive_summary_peer c i m Hc)
      as [(H1 & H2 & H3) | (H1 & H2 & H3)]; rewrite H1, H2, H3;
      repeat split; try assumption; try discriminate.
    apply elem_of_difference. split; [exact Hopen|].
    intros E%elem_of_singleton. apply Hcl. rewrite E. reflexivity.
  - destruct (accept_result i) as [e|c] eqn:Ha.
    + rewrite (tcp_summary_not_accepted e) by assumption. cbn [self open_socks].
      rewrite Hc. repeat split; try assumption; discriminate.
    + rewrite (tcp_summary_accepted c) by assumption.
      assert (Hne : c <> server_socket (self m)).
      { intros E. apply Hav. rewrite Ha, E. reflexivity. }
      destruct (tcp_receive_summary_peer c i (accepted c m) eq_refl)
        as [(H1 & H2 & H3) | (H1 & H2 & H3)]; rewrite H1, H2, H3;
        cbn [accepted self open_socks set_client_socket server_socket];
        repeat split; try discriminate.
      * apply elem_of_union. right. exact Hopen.
      * intros [= E]. apply Hne. exact E.
      * apply elem_of_difference. split.
        -- apply elem_of_union. right. exact Hopen.
        -- intros E%elem_of_singleton. apply Hne. symmetry. exact E.
Qed.

Lemma tcp_after_server_open ios m :
  server_socket (self m) ∈ open_socks m ->
  client_socket (self m) <> Some (server_socket (self m)) ->
  Forall (accept_avoids (server_socket (self m))) ios ->
  server_socket (self m) ∈ open_socks (after ios m).
Proof.
  intros Hopen Hcl Hq. revert m Hopen Hcl Hq.
  induction ios as [|i ios IH]; intros m Hopen Hcl Hq; [exact Hopen|].
  change (after (i :: ios) m) with (after ios (summary i m)).
  apply Forall_cons in Hq as [Hi Hq].
  destruct (tcp_summary_server_open i m Hopen Hcl Hi) as (Hsrv & Ho & Hc).
  rewrite <- Hsrv. apply IH; rewrite ?Hsrv; assumption.
Qed.

(** X6. Only [shutdown] closes the listening socket.  If the listening
    socket is open, is not itself registered as the peer, and no [accept]
    returns its descriptor (descriptors of accepted connections are new),
    then it is still open after any run of the TCP [update] loop: the loop
    closes peers' sockets only. *)
Theorem X6_tcp_listening_socket_kept :
  forall ios m,
    server_socket (self m) ∈ open_socks m ->
    client_socket (self m) <> Some (server_socket (self m)) ->
    Forall (accept_avoids (server_socket (self m))) ios ->
    server_socket (self m) ∈ open_socks (final (update ios m)).
Proof.
  intros ios m Hopen Hcl Hq. rewrite tcp_update_final.
  destruct (running (self m)); [|exact Hopen].
  apply tcp_after_server_open; assumption.
Qed.

(** X7. Reconnection.  When the peer [c] of a running TCP receiver is gone
    in one iteration (zero-length read, reset or broken pipe) and the next
    iteration's [accept] returns [c'] whose first read parses the command
    (s, t), the loop ends connected to [c'] with that command stored and
    stamped; [c'] is open and [c], if another descriptor, is closed. *)
Theorem X7_tcp_reconnect :
  forall i1 i2 m c c' data s t,
    running (self m) = true ->
    client_socket (self m) = Some c ->
    peer_gone (recv_result i1) ->
    accept_result i2 = inr c' ->
    recv_result i2 = inr data -> data <> [] ->
    parse_command data = Accepted s t ->
    let m' := final (update [i1; i2] m) in
    client_socket (self m') = Some c' /\
    tcp_command (self m') = (s, t, clock i2) /\
    (c' ∈ open_socks m') /\
    (c <> c' -> c ∉ open_socks m').
Proof.
  intros i1 i2 m c c' data s t Hr Hc Hgone Ha Hrecv Hne Hp. cbv zeta.
  rewrite tcp_update_running by exact Hr. cbn [final].
  change (after [i1; i2] m) with (summary i2 (summary i1 m)).
  rewrite (tcp_summary_connected c i1 m Hc).
  rewrite (tcp_receive_summary_gone c i1 m Hgone).
  rewrite (tcp_summary_accepted c' i2
             (disconnect c (Machine (self m) (open_socks m) (EvRecv c :: trace m)))
             eq_refl Ha).
  unfold receive_summary. rewrite Hrecv.
  destruct data as [|b data]; [destruct (Hne eq_refl)|].
  rewrite Hp. cbn.
  repeat split.
  - apply elem_of_union. left. apply elem_of_singleton. reflexivity.
  - intros Hcc [Hin | Hin]%elem_of_union.
    + apply elem_of_singleton in Hin. exact (Hcc Hin).
    + apply elem_of_difference in Hin as [_ Hin].
      apply Hin, elem_of_singleton. reflexivity.
Qed.

(** X8. One client at a time: while a peer is connected, what [accept]
    would return has no influence on the iteration.  Two inputs that differ
    only in the outcome of [accept] give the same result. *)
Theorem X8_tcp_accept_ignored_while_connected :
  forall a a' r clk m c,
    client_socket (self m) = Some c ->
    iteration (Io a r clk) m = iteration (Io a' r clk) m.
Proof.
  intros a a' r clk m c Hc. rewrite !tcp_iteration_summary.
  rewrite !(tcp_summary_connected c) by exact Hc. reflexivity.
Qed.

End Connections.

(** ** Shutting down twice *)

Section ShutdownTwice.

(** X9. [shutdown] may be repeated.  A second call returns normally and
    leaves the object and the set of open descriptors as the first call
    left them, in both receivers. *)
Theorem X9_shutdown_idempotent :
  (forall m,
     let m1 := snd (RemoteController.shutdown m) in
     let m2 := snd (RemoteController.shutdown m1) in
     fst (RemoteController.shutdown m1) = Ok tt /\
     self m2 = self m1 /\ open_socks m2 = open_socks m1) /\
  (forall m,
     let m1 := snd (RemoteControllerUDP.shutdown m) in
     let m2 := snd (RemoteControllerUDP.shutdown m1) in
     fst (RemoteControllerUDP.shutdown m1) = Ok tt /\
     self m2 = self m1 /\ open_socks m2 = open_socks m1).
Proof.
  split; intros m; cbv zeta.
  - rewrite !tcp_shutdown_eq. cbn [fst snd self open_socks].
    repeat split. unfold TCPSummary.held. cbn.
    destruct (RemoteController.client_socket (self m)); set_solver.
  - rewrite !udp_shutdown_eq. cbn [fst snd self open_socks].
    repeat split. unfold UDPSummary.held. cbn. set_solver.
Qed.

End ShutdownTwice.

(** ** What is accepted, what is half accepted, what is logged *)

(** [float(cmd.get(key, 0.0))] on a [dict]. *)
Definition converted `{PyRuntime} (d : gmap string pyval) (key : string)
  : result float :=
  py_float (default (PyFloat 0%float) (d !! key)).

(** The levels at which the receivers log a failure of class [e]. *)
Definition failure_level (e : exn) : list level :=
  if isinstance e cls_socket_timeout then []
  else if isinstance e cls_JSONDecodeError then [WARNING]
  else [ERROR].

(** The levels at which an iteration logs what became of a payload. *)
Definition payload_level `{PyRuntime} (data : bytes) : list level :=
  match json_loads data with
  | inl BadJSON => [WARNING]
  | inl _ => [ERROR]
  | inr _ =>
      match parse_command data with
      | Accepted _ _ => []
      | _ => [ERROR]
      end
  end.

Section Acceptance.
Context `{PyRuntime}.

Lemma py_get_dict d key :
  py_get (PyDict d) key (PyFloat 0%float) = Ok (default (PyFloat 0%float) (d !! key)).
Proof. unfold py_get. destruct (d !! key); reflexivity. Qed.

Lemma parse_command_dict data d :
  json_loads data = inr (PyDict d) ->
  parse_command data =
    match converted d "steering" with
    | Raised e => Rejected e
    | Ok s =>
        match converted d "throttle" with
        | Raised e => SteeringOnly s e
        | Ok t => Accepted s t
        end
    end.
Proof.
  intros Hl. unfold parse_command, converted. rewrite Hl, !py_get_dict.
  reflexivity.
Qed.

Lemma parse_command_accepted_dict data s t :
  parse_command data = Accepted s t -> exists d, json_loads data = inr (PyDict d).
Proof.
  unfold parse_command. destruct (json_loads data) as [de|cmd]; [discriminate|].
  destruct cmd; try discriminate. eauto.
Qed.

Lemma tcp_iteration_outcome i m data :
  TCPSummary.received i m = Some data ->
  let m' := snd (RemoteController.iteration i m) in
  match parse_command data with
  | Rejected _ => tcp_command (self m') = tcp_command (self m)
  | SteeringOnly s _ =>
      tcp_command (self m') =
        (s, RemoteController.throttle (self m),
         RemoteController.last_command_time (self m))
  | Accepted s t => tcp_command (self m') = (s, t, RemoteController.clock i)
  end.
Proof.
  intros Hrec. cbv zeta. rewrite tcp_iteration_summary. cbn [snd].
  destruct (tcp_summary_received i m data Hrec)
    as (c & m0 & -> & Hr & Hne & Hs & Ht & Hl).
  pose proof (tcp_receive_summary_outcome c i m0 data Hr Hne) as Ho.
  unfold tcp_command. rewrite <- Hs, <- Ht, <- Hl.
  destruct (parse_command data); destruct Ho as (-> & -> & ->); reflexivity.
Qed.

Lemma udp_iteration_outcome i m data :
  UDPSummary.received i = Some data ->
  let m' := snd (RemoteControllerUDP.iteration i m) in
  match parse_command data with
  | Rejected _ => udp_command (self m') = udp_command (self m)
  | SteeringOnly s _ =>
      udp_command (self m') =
        (s, RemoteControllerUDP.throttle (self m),
         RemoteControllerUDP.last_command_time (self m))
  | Accepted s t => udp_command (self m') = (s, t, RemoteControllerUDP.clock i)
  end.
Proof.
  intros Hrec. cbv zeta. rewrite udp_iteration_summary. cbn [snd].
  assert (Hr : RemoteControllerUDP.recvfrom_result i = inr data).
  { unfold UDPSummary.received in Hrec.
    destruct (RemoteControllerUDP.recvfrom_result i); congruence. }
  pose proof (udp_summary_outcome i m data Hr) as Ho.
  unfold udp_command.
  destruct (parse_command data); destruct Ho as (-> & -> & ->); reflexivity.
Qed.

(** X10. A command is accepted exactly when [float()] converts both
    fields.  A payload parses to the command (s, t) if and only if it
    decodes to a JSON object for which [float(cmd.get('steering', 0.0))]
    returns s and [float(cmd.get('throttle', 0.0))] returns t; the
    iteration that reads it then stores (s, t) with its clock reading.  So
    whatever [float()] converts is a command: a number, but also a boolean
    (stored as 1.0 or 0.0) or a string that [float()] can read. *)
Theorem X10_accepted_iff_converted :
  (forall data s t,
     parse_command data = Accepted s t <->
     exists d,
       json_loads data = inr (PyDict d) /\
       converted d "steering" = Ok s /\ converted d "throttle" = Ok t) /\
  (forall b, py_float (PyBool b) = Ok (if b then 1%float else 0%float)) /\
  (forall i m data d s t,
     TCPSummary.received i m = Some data ->
     json_loads data = inr (PyDict d) ->
     converted d "steering" = Ok s -> converted d "throttle" = Ok t ->
     tcp_command (self (snd (RemoteController.iteration i m))) =
       (s, t, RemoteController.clock i)) /\
  (forall i m data d s t,
     UDPSummary.received i = Some data ->
     json_loads data = inr (PyDict d) ->
     converted d "steering" = Ok s -> converted d "throttle" = Ok t ->
     udp_command (self (snd (RemoteControllerUDP.iteration i m))) =
       (s, t, RemoteControllerUDP.clock i)).
Proof.
  repeat apply conj.
  - intros data s t. split.
    + intros Hp. destruct (parse_command_accepted_dict data s t Hp) as [d Hl].
      exists d. split; [exact Hl|].
      rewrite (parse_command_dict data d Hl) in Hp.
      destruct (converted d "steering") as [s'|e]; [|discriminate].
      destruct (converted d "throttle") as [t'|e]; [|discriminate].
      injection Hp as -> ->. auto.
    + intros (d & Hl & Hs & Ht).
      rewrite (parse_command_dict data d Hl), Hs, Ht. reflexivity.
  - intros b. reflexivity.
  - intros i m data d s t Hrec Hl Hs Ht.
    pose proof (tcp_iteration_outcome i m data Hrec) as Ho.
    rewrite (parse_command_dict data d Hl), Hs, Ht in Ho. exact Ho.
  - intros i m data d s t Hrec Hl Hs Ht.
    pose proof (udp_iteration_outcome i m data Hrec) as Ho.
    rewrite (parse_command_dict data d Hl), Hs, Ht in Ho. exact Ho.
Qed.

(** X11. The half-accepted payload.  When the payload decodes to an object
    whose steering value [float()] converts to s and whose throttle value
    [float()] rejects, the iteration has already assigned [self.steering]:
    it ends with steering s, and with throttle and [last_command_time] as
    they were.  [run_threaded] then returns the new steering with the old
    throttle for as long as the old command is fresh. *)
Theorem X11_steering_written_before_throttle_fails :
  (forall i m data d s e now,
     TCPSummary.received i m = Some data ->
     json_loads data = inr (PyDict d) ->
     converted d "steering" = Ok s -> converted d "throttle" = Raised e ->
     let m' := snd (RemoteController.iteration i m) in
     tcp_command (self m') =
       (s, RemoteController.throttle (self m),
        RemoteController.last_command_time (self m)) /\
     ((now - RemoteController.last_command_time (self m)
         <=? RemoteController.timeout (self m))%float = true ->
      RemoteController.run_threaded now (self m') =
        (s, RemoteController.throttle (self m)))) /\
  (forall i m data d s e now,
     UDPSummary.received i = Some data ->
     json_loads data = inr (PyDict d) ->
     converted d "steering" = Ok s -> converted d "throttle" = Raised e ->
     let m' := snd (RemoteControllerUDP.iteration i m) in
     udp_command (self m') =
       (s, RemoteControllerUDP.throttle (self m),
        RemoteControllerUDP.last_command_time (self m)) /\
     ((now - RemoteControllerUDP.last_command_time (self m)
         <=? RemoteControllerUDP.timeout (self m))%float = true ->
      RemoteControllerUDP.run_threaded now (self m') =
        (s, RemoteControllerUDP.throttle (self m)))).
Proof.
  split; intros i m data d s e now Hrec Hl Hs Ht; cbv zeta.
  - pose proof (tcp_iteration_outcome i m data Hrec) as Ho.
    rewrite (parse_command_dict data d Hl), Hs, Ht in Ho.
    split; [exact Ho|]. intros Hfresh.
    injection Ho as Ho1 Ho2 Ho3.
    rewrite <- Ho1, <- Ho2. apply tcp_run_threaded_fresh.
    rewrite Ho3.
    assert (Hto : RemoteController.timeout
                    (self (snd (RemoteController.iteration i m))) =
                  RemoteController.timeout (self m)).
    { rewrite tcp_iteration_summary. cbn [snd].
      destruct (tcp_summary_frame i m) as (Hc & _).
      injection Hc as _ _ Hc. exact Hc. }
    rewrite Hto. exact Hfresh.
  - pose proof (udp_iteration_outcome i m data Hrec) as Ho.
    rewrite (parse_command_dict data d Hl), Hs, Ht in Ho.
    split; [exact Ho|]. intros Hfresh.
    injection Ho as Ho1 Ho2 Ho3.
    rewrite <- Ho1, <- Ho2. apply udp_run_threaded_fresh.
    rewrite Ho3.
    assert (Hto : RemoteControllerUDP.timeout
                    (self (snd (RemoteControllerUDP.iteration i m))) =
                  RemoteControllerUDP.timeout (self m)).
    { rewrite udp_iteration_summary. cbn [snd].
      destruct (udp_summary_frame i m) as (Hc & _).
      injection Hc as _ _ Hc. exact Hc. }
    rewrite Hto. exact Hfresh.
Qed.

Lemma logged_app evs1 evs2 : logged (evs1 ++ evs2) = logged evs1 ++ logged evs2.
Proof.
  induction evs1 as [|[] evs1 IH]; cbn; auto. rewrite IH. reflexivity.
Qed.

Lemma udp_logged_log_of e : logged (UDPSummary.log_of e) = failure_level e.
Proof. destruct e; reflexivity. Qed.

Lemma tcp_logged_log_of e : logged (TCPSummary.log_of e) = failure_level e.
Proof. destruct e; reflexivity. Qed.

Lemma failure_level_conversion e :
  e = AttributeError \/ e = TypeError \/ e = ValueError \/ e = OverflowError ->
  failure_level e = [ERROR].
Proof. intros [->|[->|[->| ->]]]; reflexivity. Qed.

Lemma parse_command_value_exn data cmd e :
  json_loads data = inr cmd ->
  parse_command data = Rejected e \/
  (exists s, parse_command data = SteeringOnly s e) ->
  failure_level e = [ERROR].
Proof.
  intros Hl Hp. apply failure_level_conversion.
  unfold parse_command in Hp. rewrite Hl in Hp.
  destruct (py_get cmd "steering" _) as [sv|e1] eqn:G1.
  - destruct (py_float sv) as [s1|e2] eqn:F1.
    + destruct (py_get cmd "throttle" _) as [tv|e3] eqn:G2.
      * destruct (py_float tv) as [t1|e4] eqn:F2.
        -- destruct Hp as [Hp | [s Hp]]; discriminate.
        -- apply py_float_raises in F2.
           destruct Hp as [Hp | [s Hp]]; [discriminate|].
           injection Hp as _ <-. tauto.
      * apply py_get_raises in G2.
        destruct Hp as [Hp | [s Hp]]; [discriminate|].
        injection Hp as _ <-. tauto.
    + apply py_float_raises in F1.
      destruct Hp as [Hp | [s Hp]]; [|discriminate].
      injection Hp as <-. tauto.
  - apply py_get_raises in G1.
    destruct Hp as [Hp | [s Hp]]; [|discriminate].
    injection Hp as <-. tauto.
Qed.

Lemma payload_level_parse data :
  payload_level data =
    match parse_command data with
    | Accepted _ _ => []
    | Rejected e | SteeringOnly _ e => failure_level e
    end.
Proof.
  unfold payload_level. destruct (json_loads data) as [de|cmd] eqn:Hl.
  - unfold parse_command. rewrite Hl. destruct de; reflexivity.
  - destruct (parse_command data) as [e|s e|s t] eqn:Hp.
    + symmetry. apply (parse_command_value_exn data cmd e Hl). left. exact Hp.
    + symmetry. apply (parse_command_value_exn data cmd e Hl). right. eauto.
    + reflexivity.
Qed.

(** X12. What gets logged.  An iteration logs at most one record about
    what it read.  A timeout and an accepted command are silent; a payload
    that is not valid JSON is logged as a warning; a payload that is not
    valid UTF-8, is not an object or holds a value that [float()] rejects
    is logged as an error, like any other exception of the read.  A TCP
    receiver with a peer logs an information record when the peer is
    gone. *)
Theorem X12_logging :
  (forall i m, exists evs,
     trace (snd (RemoteControllerUDP.iteration i m)) = evs ++ trace m /\
     logged evs =
       match RemoteControllerUDP.recvfrom_result i with
       | inl e => failure_level e
       | inr data => payload_level data
       end) /\
  (forall i m c,
     RemoteController.client_socket (self m) = Some c ->
     exists evs,
       trace (snd (RemoteController.iteration i m)) = evs ++ trace m /\
       logged evs =
         match RemoteController.recv_result i with
         | inl e => if TCPSummary.is_disconnect e then [INFO] else failure_level e
         | inr [] => [INFO]
         | inr (b :: data) => payload_level (b :: data)
         end).
Proof.
  split.
  - intros i m. rewrite udp_iteration_summary. cbn [snd].
    unfold UDPSummary.summary.
    destruct (RemoteControllerUDP.recvfrom_result i) as [e|data].
    + exists (UDPSummary.log_of e ++ [EvRecv (RemoteControllerUDP.socket (self m))]).
      cbn [trace]. rewrite <- app_assoc, logged_app, udp_logged_log_of, app_nil_r.
      auto.
    + rewrite payload_level_parse.
      destruct (parse_command data) as [e|s e|s t].
      * exists (UDPSummary.log_of e ++ [EvRecv (RemoteControllerUDP.socket (self m))]).
        cbn [trace]. rewrite <- app_assoc, logged_app, udp_logged_log_of, app_nil_r.
        auto.
      * exists (UDPSummary.log_of e ++ [EvRecv (RemoteControllerUDP.socket (self m))]).
        cbn [trace]. rewrite <- app_assoc, logged_app, udp_logged_log_of, app_nil_r.
        auto.
      * eexists [_; _]. split; reflexivity.
  - intros i m c Hc. rewrite tcp_iteration_summary. cbn [snd].
    rewrite (tcp_summary_connected c) by exact Hc.
    unfold TCPSummary.receive_summary. cbn [trace].
    destruct (RemoteController.recv_result i) as [e|[|b data]].
    + destruct e; cbn;
        first [ eexists [_]; split; reflexivity
              | eexists [_; _]; split; reflexivity
              | eexists [_; _; _]; split; reflexivity ].
    + eexists [_; _; _]. split; reflexivity.
    + rewrite payload_level_parse.
      destruct (parse_command (b :: data)) as [e|s e|s t] eqn:Hp.
      * rewrite tcp_handled_parse_exn by exact (parse_command_rejected _ _ Hp).
        exists (TCPSummary.log_of e ++ [EvRecv c]). cbn [trace].
        rewrite <- app_assoc, logged_app, tcp_logged_log_of, app_nil_r. auto.
      * rewrite tcp_handled_parse_exn
          by exact (parse_command_steering_only _ _ _ Hp).
        exists (TCPSummary.log_of e ++ [EvRecv c]). cbn [trace].
        rewrite <- app_assoc, logged_app, tcp_logged_log_of, app_nil_r. auto.
      * eexists [_; _]. split; reflexivity.
Qed.

End Acceptance.

(** ** After a disconnect *)

Section AfterDisconnect.
Context `{PyRuntime}.

(** X13. Neutral after a disconnect.  Once the peer of a running TCP
    receiver is gone, [run_threaded] returns (0.0, 0.0) at every time for
    as long as every read raises an error (a timeout or a disconnect among
    them), is a zero-length read, or brings a payload rejected no later
    than its steering field, also when new peers connect in the meantime:
    a connection alone does not move the car. *)
Theorem X13_tcp_neutral_after_disconnect :
  forall i ios m c now,
    RemoteController.running (self m) = true ->
    RemoteController.client_socket (self m) = Some c ->
    TCPSummary.peer_gone (RemoteController.recv_result i) ->
    Forall (fun i => tcp_idle i = true) ios ->
    RemoteController.run_threaded now
      (self (final (RemoteController.update (i :: ios) m))) =
      (0%float, 0%float).
Proof.
  intros i ios m c now Hr Hc Hgone Hq.
  rewrite tcp_update_running by exact Hr. cbn [final].
  change (TCPSummary.after (i :: ios) m)
    with (TCPSummary.after ios (TCPSummary.summary i m)).
  rewrite (tcp_summary_connected c i m Hc), (tcp_receive_summary_gone c i m Hgone).
  destruct (tcp_after_idle_zero ios
              (TCPSummary.disconnect c
                 (Machine (self m) (open_socks m) (EvRecv c :: trace m)))
              Hq eq_refl eq_refl) as [Hs Ht].
  apply tcp_run_threaded_zero; [exact Hs | exact Ht].
Qed.

End AfterDisconnect.

(** ** The further properties on the sample payloads *)

Section MoreRuns.
Import Sample.
#[local] Existing Instance sample_runtime.

(** Reads that bring no command: a timeout, a garbled payload, an error, a
    steering value that is a word. *)
Definition tcp_noise : list RemoteController.io :=
  [ tcp_io (inr 5) (inl socket_timeout) 100.25%float;
    tcp_io (inr 5) (inr (text json_garbage)) 100.5%float;
    tcp_io (inr 5) (inl OSError) 100.75%float;
    tcp_io (inr 5) (inr (text json_bad_steering)) 101%float ].

Definition udp_noise : list RemoteControllerUDP.io :=
  [ udp_io (inl socket_timeout) 100.25%float;
    udp_io (inr (text json_list)) 100.5%float;
    udp_io (inl ConnectionResetError) 100.75%float;
    udp_io (inr (text json_bad_steering)) 101%float ].

Lemma tcp_noise_quiet : Forall (fun i => tcp_quiet i = true) tcp_noise.
Proof. repeat constructor. Qed.

Lemma udp_noise_quiet : Forall (fun i => udp_quiet i = true) udp_noise.
Proof. repeat constructor. Qed.

(** Reads that store nothing: the noise above after a zero-length read and
    a reset connection. *)
Definition tcp_idling : list RemoteController.io :=
  tcp_io (inr 5) (inr []) 100.125%float
    :: tcp_io (inr 6) (inl ConnectionResetError) 100.125%float
    :: tcp_noise.

Lemma tcp_idling_idle : Forall (fun i => tcp_idle i = true) tcp_idling.
Proof. repeat constructor. Qed.

Lemma X1_command_persists_witness :
  Forall (fun i => tcp_quiet i = true) tcp_noise /\
  Forall (fun i => udp_quiet i = true) udp_noise /\
  RemoteController.client_socket (self tcp_connected) = Some 4 /\
  tcp_command (self (final (RemoteController.update tcp_noise tcp_fresh))) =
    (0%float, 0%float, 100%float) /\
  self (final (RemoteController.update tcp_noise tcp_connected)) =
    self tcp_connected /\
  self (final (RemoteControllerUDP.update udp_noise udp_commanded)) =
    self udp_commanded.
Proof.
  destruct X1_command_persists as (Ht & Hc & Hu).
  repeat apply conj.
  - exact tcp_noise_quiet.
  - exact udp_noise_quiet.
  - reflexivity.
  - exact (Ht tcp_noise tcp_fresh tcp_noise_quiet).
  - exact (proj1 (Hc 4 tcp_noise tcp_connected eq_refl tcp_noise_quiet)).
  - exact (proj1 (Hu udp_noise udp_commanded udp_noise_quiet)).
Defined.

Lemma X2_default_neutral_witness :
  Forall (fun i => tcp_idle i = true) tcp_idling /\
  Forall (fun i => udp_quiet i = true) udp_noise /\
  RemoteController.run_threaded 100.25%float
    (self (final (RemoteController.update tcp_idling tcp_fresh))) =
    (0%float, 0%float) /\
  RemoteControllerUDP.run_threaded 100.25%float
    (self (final (RemoteControllerUDP.update udp_noise udp_fresh))) =
    (0%float, 0%float).
Proof.
  destruct X2_default_neutral as (Ht & Hu).
  repeat apply conj.
  - exact tcp_idling_idle.
  - exact udp_noise_quiet.
  - exact (Ht RemoteController.default_host RemoteController.default_port 3
              100%float tcp_idling 100.25%float tcp_idling_idle).
  - exact (Hu RemoteControllerUDP.default_host RemoteControllerUDP.default_port 3
              100%float udp_noise 100.25%float udp_noise_quiet).
Defined.

(** The command (0.0, 1.0) parsed at 100.25, then noise: returned at 100.5,
    replaced by the neutral pair at 101. *)
Lemma X3_command_then_silence_witness :
  let i := tcp_io (inl socket_timeout) (inr (text json_extra)) 100.25%float in
  let j := udp_io (inr (text json_extra)) 100.25%float in
  TCPSummary.parsed i tcp_connected = Some (0%float, 1%float) /\
  UDPSummary.parsed j = Some (0%float, 1%float) /\
  RemoteController.run_threaded 100.5%float
    (self (final (RemoteController.update (i :: tcp_noise) tcp_connected))) =
    (0%float, 1%float) /\
  RemoteController.run_threaded 101%float
    (self (final (RemoteController.update (i :: tcp_noise) tcp_connected))) =
    (0%float, 0%float) /\
  RemoteControllerUDP.run_threaded 100.5%float
    (self (final (RemoteControllerUDP.update (j :: udp_noise) udp_commanded))) =
    (0%float, 1%float) /\
  RemoteControllerUDP.run_threaded 101%float
    (self (final (RemoteControllerUDP.update (j :: udp_noise) udp_commanded))) =
    (0%float, 0%float).
Proof.
  intros i j. destruct X3_command_then_silence as (Ht & Hu).
  repeat apply conj.
  - reflexivity.
  - reflexivity.
  - exact (proj1 (Ht i tcp_noise tcp_connected _ _ 100.5%float
                    eq_refl eq_refl tcp_noise_quiet) eq_refl).
  - exact (proj2 (Ht i tcp_noise tcp_connected _ _ 101%float
                    eq_refl eq_refl tcp_noise_quiet) eq_refl).
  - exact (proj1 (Hu j udp_noise udp_commanded _ _ 100.5%float
                    eq_refl eq_refl udp_noise_quiet) eq_refl).
  - exact (proj2 (Hu j udp_noise udp_commanded _ _ 101%float
                    eq_refl eq_refl udp_noise_quiet) eq_refl).
Defined.

Lemma X4_tcp_waits_for_peer_witness :
  let ios := [ tcp_io (inl socket_timeout) (inr (text json_command)) 100.25%float;
               tcp_io (inl OSError) (inr (text json_command)) 100.5%float ] in
  Forall (fun i => accept_fails i = true) ios /\
  exists evs,
    RemoteController.update ios tcp_fresh =
      LoopPending (Machine (self tcp_fresh) (open_socks tcp_fresh)
                           (evs ++ trace tcp_fresh)) /\
    recvs evs = 0 /\ accepts evs = 2.
Proof.
  intros ios.
  assert (Hf : Forall (fun i => accept_fails i = true) ios) by (repeat constructor).
  split; [exact Hf|].
  exact (X4_tcp_waits_for_peer ios tcp_fresh eq_refl eq_refl Hf).
Defined.

Lemma X6_tcp_listening_socket_kept_witness :
  let ios := tcp_io (inr 5) (inr []) 100.25%float :: tcp_noise in
  (3 ∈ open_socks tcp_connected) /\
  Forall (accept_avoids 3) ios /\
  3 ∈ open_socks (final (RemoteController.update ios tcp_connected)).
Proof.
  intros ios.
  assert (Ho : 3 ∈ open_socks tcp_connected) by (vm_compute; reflexivity).
  assert (Ha : Forall (accept_avoids 3) ios)
    by (repeat constructor; intros E; discriminate E).
  assert (Hc : RemoteController.client_socket (self tcp_connected) <> Some 3)
    by (intros E; discriminate E).
  split; [exact Ho|]. split; [exact Ha|].
  exact (X6_tcp_listening_socket_kept ios tcp_connected Ho Hc Ha).
Defined.

Lemma X7_tcp_reconnect_witness :
  let i1 := tcp_io (inl socket_timeout) (inr []) 100.25%float in
  let i2 := tcp_io (inr 5) (inr (text json_extra)) 100.5%float in
  let m' := final (RemoteController.update [i1; i2] tcp_connected) in
  TCPSummary.peer_gone (RemoteController.recv_result i1) /\
  text json_extra <> [] /\
  parse_command (text json_extra) = Accepted 0%float 1%float /\
  RemoteController.client_socket (self m') = Some 5 /\
  tcp_command (self m') = (0%float, 1%float, 100.5%float) /\
  (5 ∈ open_socks m') /\ (4 ∉ open_socks m').
Proof.
  intros i1 i2 m'.
  assert (Hg : TCPSummary.peer_gone (RemoteController.recv_result i1))
    by (left; reflexivity).
  assert (Hne : text json_extra <> []) by (vm_compute; discriminate).
  assert (H45 : 4 <> 5) by discriminate.
  assert (Hp : parse_command (text json_extra) = Accepted 0%float 1%float)
    by (vm_compute; reflexivity).
  destruct (X7_tcp_reconnect i1 i2 tcp_connected 4 5 (text json_extra)
              0%float 1%float eq_refl eq_refl Hg eq_refl eq_refl Hne Hp)
    as (H1 & H2 & H3 & H4).
  repeat apply conj;
    first [ exact Hg | exact Hne | exact Hp | exact H1 | exact H2 | exact H3
          | exact (H4 H45) ].
Defined.

Lemma X8_tcp_accept_ignored_while_connected_witness :
  RemoteController.client_socket (self tcp_connected) = Some 4 /\
  RemoteController.iteration
    (tcp_io (inr 5) (inr (text json_extra)) 100.25%float) tcp_connected =
  RemoteController.iteration
    (tcp_io (inl socket_timeout) (inr (text json_extra)) 100.25%float) tcp_connected.
Proof.
  split; [reflexivity|].
  exact (X8_tcp_accept_ignored_while_connected (inr 5) (inl socket_timeout)
           (inr (text json_extra)) 100.25%float tcp_connected 4 eq_refl).
Defined.

(** [{"steering": true}] is the command (1.0, 0.0). *)
Lemma X10_accepted_iff_converted_witness :
  let d : gmap string pyval := {[ "steering" := PyBool true ]} in
  let i := tcp_io (inl socket_timeout) (inr (text json_bool)) 100.25%float in
  let j := udp_io (inr (text json_bool)) 100.25%float in
  json_loads (text json_bool) = inr (PyDict d) /\
  converted d "steering" = Ok 1%float /\
  converted d "throttle" = Ok 0%float /\
  parse_command (text json_bool) = Accepted 1%float 0%float /\
  tcp_command (self (snd (RemoteController.iteration i tcp_connected))) =
    (1%float, 0%float, 100.25%float) /\
  udp_command (self (snd (RemoteControllerUDP.iteration j udp_commanded))) =
    (1%float, 0%float, 100.25%float).
Proof.
  intros d i j.
  assert (Hs : converted d "steering" = Ok 1%float) by (vm_compute; reflexivity).
  assert (Ht : converted d "throttle" = Ok 0%float) by (vm_compute; reflexivity).
  destruct X10_accepted_iff_converted as (Hiff & _ & Htcp & Hudp).
  repeat apply conj.
  - reflexivity.
  - exact Hs.
  - exact Ht.
  - apply (proj2 (Hiff (text json_bool) 1%float 0%float)).
    exists d. split; [reflexivity|]. split; [exact Hs | exact Ht].
  - exact (Htcp i tcp_connected (text json_bool) d _ _ eq_refl eq_refl Hs Ht).
  - exact (Hudp j udp_commanded (text json_bool) d _ _ eq_refl eq_refl Hs Ht).
Defined.

(** [{"steering": 0.75, "throttle": "abc"}] after the command (0.5, 0.25)
    of time 100: at 100.25 [run_threaded] returns (0.75, 0.25). *)
Lemma X11_steering_written_before_throttle_fails_witness :
  let d : gmap string pyval :=
    {[ "steering" := PyFloat 0.75%float; "throttle" := PyStr "abc" ]} in
  let i := tcp_io (inl socket_timeout) (inr (text json_bad_throttle)) 100.25%float in
  let j := udp_io (inr (text json_bad_throttle)) 100.25%float in
  json_loads (text json_bad_throttle) = inr (PyDict d) /\
  converted d "steering" = Ok 0.75%float /\
  converted d "throttle" = Raised ValueError /\
  RemoteController.run_threaded 100.25%float
    (self (snd (RemoteController.iteration i tcp_connected))) =
    (0.75%float, 0.25%float) /\
  RemoteControllerUDP.run_threaded 100.25%float
    (self (snd (RemoteControllerUDP.iteration j udp_commanded))) =
    (0.75%float, 0.25%float).
Proof.
  intros d i j.
  assert (Hs : converted d "steering" = Ok 0.75%float) by (vm_compute; reflexivity).
  assert (Ht : converted d "throttle" = Raised ValueError)
    by (vm_compute; reflexivity).
  destruct X11_steering_written_before_throttle_fails as (Htcp & Hudp).
  repeat apply conj.
  - reflexivity.
  - exact Hs.
  - exact Ht.
  - exact (proj2 (Htcp i tcp_connected (text json_bad_throttle) d _ _ 100.25%float
                    eq_refl eq_refl Hs Ht) eq_refl).
  - exact (proj2 (Hudp j udp_commanded (text json_bad_throttle) d _ _ 100.25%float
                    eq_refl eq_refl Hs Ht) eq_refl).
Defined.

Lemma X12_logging_witness :
  let i := tcp_io (inl socket_timeout) (inr (text json_garbage)) 100.25%float in
  RemoteController.client_socket (self tcp_connected) = Some 4 /\
  exists evs,
    trace (snd (RemoteController.iteration i tcp_connected)) =
      evs ++ trace tcp_connected /\
    logged evs = [WARNING].
Proof.
  intros i. split; [reflexivity|].
  exact (proj2 X12_logging i tcp_connected 4 eq_refl).
Defined.

Lemma X13_tcp_neutral_after_disconnect_witness :
  let i := tcp_io (inl socket_timeout) (inl BrokenPipeError) 100.125%float in
  TCPSummary.peer_gone (RemoteController.recv_result i) /\
  Forall (fun i => tcp_idle i = true) tcp_idling /\
  RemoteController.run_threaded 100.25%float
    (self (final (RemoteController.update (i :: tcp_idling) tcp_connected))) =
    (0%float, 0%float).
Proof.
  intros i.
  assert (Hg : TCPSummary.peer_gone (RemoteController.recv_result i))
    by (right; right; reflexivity).
  split; [exact Hg|]. split; [exact tcp_idling_idle|].
  exact (X13_tcp_neutral_after_disconnect i tcp_idling tcp_connected 4 100.25%float
           eq_refl eq_refl Hg tcp_idling_idle).
Defined.

End MoreRuns.

(** * The receivers at work on integer fields *)

Section WideRuns.
Import Sample Wide.
#[local] Existing Instance wide_runtime.

(** A command of two integers, the larger one 2^53 - 1; a command with one
    field an integer, the other absent and a field that is not recognised,
    which is read as the same command without that field. *)
Lemma C8_parsed_command_witness :
  let i := tcp_io (inr 4) (inr (text json_ints)) 100.25%float in
  let j := udp_io (inr (text json_extra)) 100.25%float in
  let d : gmap string pyval :=
    {[ "steering" := PyInt (-3); "throttle" := PyInt 9007199254740991 ]} in
  let d' : gmap string pyval := {[ "throttle" := PyInt 1; "mode" := PyNone ]} in
  let d'' : gmap string pyval := {[ "throttle" := PyInt 1 ]} in
  let m := snd (RemoteController.iteration i tcp_fresh) in
  let u := snd (RemoteControllerUDP.iteration j udp_commanded) in
  TCPSummary.received i tcp_fresh = Some (text json_ints) /\
  json_loads (text json_ints) = inr (PyDict d) /\
  exact_number (d !! "steering") = true /\
  exact_number (d !! "throttle") = true /\
  numeric_value (d !! "steering") (RemoteController.steering (self m)) /\
  numeric_value (d !! "throttle") (RemoteController.throttle (self m)) /\
  float_as_int (RemoteController.steering (self m)) = Some (-3)%Z /\
  float_as_int (RemoteController.throttle (self m)) = Some 9007199254740991%Z /\
  UDPSummary.received j = Some (text json_extra) /\
  json_loads (text json_extra) = inr (PyDict d') /\
  exact_number (d' !! "steering") = true /\
  exact_number (d' !! "throttle") = true /\
  numeric_value (d' !! "steering") (RemoteControllerUDP.steering (self u)) /\
  numeric_value (d' !! "throttle") (RemoteControllerUDP.throttle (self u)) /\
  RemoteControllerUDP.steering (self u) = 0%float /\
  float_as_int (RemoteControllerUDP.throttle (self u)) = Some 1%Z /\
  json_loads (text json_throttle) = inr (PyDict d'') /\
  d' !! "steering" = d'' !! "steering" /\
  d' !! "throttle" = d'' !! "throttle" /\
  text json_extra <> [] /\
  text json_throttle <> [] /\
  parse_command (text json_extra) = parse_command (text json_throttle) /\
  RemoteController.iteration
    (tcp_io (inr 4) (inr (text json_extra)) 100.25%float) tcp_fresh =
  RemoteController.iteration
    (tcp_io (inr 4) (inr (text json_throttle)) 100.25%float) tcp_fresh /\
  RemoteControllerUDP.iteration j udp_commanded =
  RemoteControllerUDP.iteration
    (udp_io (inr (text json_throttle)) 100.25%float) udp_commanded.
Proof.
  intros i j d d' d'' m u.
  assert (Hrec : TCPSummary.received i tcp_fresh = Some (text json_ints))
    by reflexivity.
  assert (Hl : json_loads (text json_ints) = inr (PyDict d))
    by (vm_compute; reflexivity).
  assert (Hs : exact_number (d !! "steering") = true) by (vm_compute; reflexivity).
  assert (Ht : exact_number (d !! "throttle") = true) by (vm_compute; reflexivity).
  assert (Hrec' : UDPSummary.received j = Some (text json_extra)) by reflexivity.
  assert (Hl' : json_loads (text json_extra) = inr (PyDict d'))
    by (vm_compute; reflexivity).
  assert (Hl'' : json_loads (text json_throttle) = inr (PyDict d''))
    by (vm_compute; reflexivity).
  assert (Hs' : exact_number (d' !! "steering") = true) by (vm_compute; reflexivity).
  assert (Ht' : exact_number (d' !! "throttle") = true) by (vm_compute; reflexivity).
  assert (Hks : d' !! "steering" = d'' !! "steering") by (vm_compute; reflexivity).
  assert (Hkt : d' !! "throttle" = d'' !! "throttle") by (vm_compute; reflexivity).
  assert (Hne : text json_extra <> []) by (vm_compute; discriminate).
  assert (Hne' : text json_throttle <> []) by (vm_compute; discriminate).
  destruct C8_parsed_command as (Htcp & Hudp & Hsame).
  destruct (Htcp i tcp_fresh (text json_ints) d Hrec Hl Hs Ht) as (H1 & H2 & _).
  destruct (Hudp j udp_commanded (text json_extra) d' Hrec' Hl' Hs' Ht')
    as (H3 & H4 & _).
  destruct (Hsame (text json_extra) (text json_throttle) d' d''
              Hl' Hl'' Hks Hkt) as (H5 & H6 & H7).
  repeat apply conj;
    first [ exact H1 | exact H2 | exact H3 | exact H4 | exact H5
          | exact (H6 (inr 4) 100.25%float tcp_fresh Hne Hne')
          | exact (H7 100.25%float udp_commanded)
          | assumption | vm_compute; reflexivity ].
Defined.

(** C8 as stated fails for an integer that binary64 does not hold: the
    steering 2^53 + 1 is stored as 2^53. *)
Lemma C8_counterexample :
  let j := udp_io (inr (text json_wide)) 100.25%float in
  let d : gmap string pyval := {[ "steering" := PyInt 9007199254740993 ]} in
  let u := snd (RemoteControllerUDP.iteration j udp_fresh) in
  UDPSummary.received j = Some (text json_wide) /\
  json_loads (text json_wide) = inr (PyDict d) /\
  d !! "steering" = Some (PyInt 9007199254740993) /\
  parse_command (text json_wide) = Accepted 9007199254740992%float 0%float /\
  RemoteControllerUDP.steering (self u) = 9007199254740992%float /\
  float_as_int (RemoteControllerUDP.steering (self u)) = Some 9007199254740992%Z /\
  ~ numeric_value (d !! "steering") (RemoteControllerUDP.steering (self u)).
Proof.
  cbv zeta. repeat apply conj; try (vm_compute; reflexivity).
  intros E. vm_compute in E. discriminate.
Qed.

End WideRuns.
